(** * Sp500Scan dashboard: the React front end, embedded and verified

    The front end is three function components:
    - [TopTable]     (frontend/src/components/TopTable.jsx): filter and
                     truncate the ranked rows;
    - [TickerDetail] (frontend/src/components/TickerDetail.jsx): fetch one
                     ticker's detail artifact, render it, own a chart;
    - [App]          (frontend/src/App.jsx): fetch the summary once, hold the
                     selection, compose the two views.

    JavaScript values are embedded as data, React's hook discipline as
    explicit state passing: one [step] per event of the single-threaded event
    loop, each followed by the render/commit/effects pass React performs. *)

From Stdlib Require Import List String Ascii Bool Arith ZArith QArith Lia.
From Stdlib Require Import DecimalString Qround.
From Stdlib Require DecimalFacts DecimalNat.
Import ListNotations.

Close Scope Q_scope.
Open Scope string_scope.
Open Scope list_scope.

(** ** JavaScript numbers

    A Number is NaN, an infinity or a finite value; finite doubles are
    rationals, and nothing below depends on rounding.  (The sign of zero is
    not represented.) *)

Inductive number : Type :=
| NaN
| Infinity
| NegInfinity
| Finite (x : Q).

Definition of_Z (z : Z) : number := Finite (inject_Z z).
Definition of_nat (n : nat) : number := of_Z (Z.of_nat n).

(** [a <= b] of JavaScript: false as soon as one side is NaN. *)
Definition number_le (a b : number) : bool :=
  match a, b with
  | NaN, _ | _, NaN => false
  | NegInfinity, _ => true
  | _, Infinity => true
  | Finite x, Finite y => Qle_bool x y
  | _, _ => false
  end.

(** [Math.min(a, b)]. *)
Definition number_min (a b : number) : number :=
  match a, b with
  | NaN, _ | _, NaN => NaN
  | NegInfinity, _ | _, NegInfinity => NegInfinity
  | Infinity, y => y
  | x, Infinity => x
  | Finite x, Finite y => if Qle_bool x y then Finite x else Finite y
  end.

(** [Object.is] on numbers. *)
Definition number_is (a b : number) : bool :=
  match a, b with
  | NaN, NaN | Infinity, Infinity | NegInfinity, NegInfinity => true
  | Finite x, Finite y => Qeq_bool x y
  | _, _ => false
  end.

(** Truthiness of a number: [0] and [NaN] are falsy. *)
Definition number_truthy (a : number) : bool :=
  match a with
  | NaN => false
  | Finite x => negb (Qeq_bool x 0)
  | _ => true
  end.

(** The abstract operation ToIntegerOrInfinity. *)
Inductive int_or_inf : Type :=
| MinusInf
| Int (z : Z)
| PlusInf.

Definition ToIntegerOrInfinity (a : number) : int_or_inf :=
  match a with
  | NaN => Int 0
  | Infinity => PlusInf
  | NegInfinity => MinusInf
  | Finite x => Int (Z.quot (Qnum x) (Z.pos (Qden x)))
  end.

(** ** Strings

    The text modelled is text within ASCII: sequences of code units below
    128 ([is_ascii]).  On such text [String.prototype.toLowerCase] maps
    [A-Z] to [a-z] one unit at a time and leaves every other unit alone,
    which is [toLowerCase] below.  Text with other letters, which the
    method folds by the Unicode tables and in context, is outside the
    model; properties that depend on how case is folded carry [is_ascii] as
    a hypothesis. *)

Definition lower_ascii (c : ascii) : ascii :=
  let n := nat_of_ascii c in
  if (65 <=? n)%nat && (n <=? 90)%nat then ascii_of_nat (n + 32) else c.

Fixpoint toLowerCase (s : string) : string :=
  match s with
  | EmptyString => EmptyString
  | String c s' => String (lower_ascii c) (toLowerCase s')
  end.

(** Every code unit is below 128. *)
Fixpoint is_ascii (s : string) : bool :=
  match s with
  | EmptyString => true
  | String c s' => (nat_of_ascii c <? 128)%nat && is_ascii s'
  end.

(** Two code units that are equal, or an upper-case letter of [A-Z] and its
    lower-case letter. *)
Definition same_letter (a b : ascii) : bool :=
  let x := nat_of_ascii a in
  let y := nat_of_ascii b in
  (x =? y)%nat
  || ((65 <=? x)%nat && (x <=? 90)%nat && (y =? x + 32)%nat)
  || ((65 <=? y)%nat && (y <=? 90)%nat && (x =? y + 32)%nat).

(** Two texts of the same length that differ at most in the case of their
    letters [A-Z]. *)
Fixpoint same_ignoring_case (s t : string) : bool :=
  match s, t with
  | EmptyString, EmptyString => true
  | String a s', String b t' => same_letter a b && same_ignoring_case s' t'
  | _, _ => false
  end.

(** [s.startsWith(t)] *)
Fixpoint startsWith (s t : string) {struct t} : bool :=
  match t, s with
  | EmptyString, _ => true
  | String _ _, EmptyString => false
  | String b t', String a s' => Ascii.eqb a b && startsWith s' t'
  end.

(** [s.includes(t)]: some position of [s] starts an occurrence of [t]. *)
Fixpoint includes (s t : string) : bool :=
  startsWith s t ||
  match s with
  | EmptyString => false
  | String _ s' => includes s' t
  end.

(** The words of the specification: [t] is a substring of [s]. *)
Definition Substring (t s : string) : Prop :=
  exists pre post : string, s = (pre ++ t ++ post)%string.

(** A string is falsy exactly when it is empty. *)
Definition string_truthy (s : string) : bool :=
  match s with
  | EmptyString => false
  | String _ _ => true
  end.

(** ** [Number(text)]: the StringToNumber conversion

    Surrounding white space is dropped; the empty text is [0]; a signed
    decimal literal with optional fraction and exponent, [Infinity], and
    unsigned [0x], [0o], [0b] literals are read; everything else is [NaN].
    Values are exact: the value of a literal is not rounded to the nearest
    double, and a large one does not overflow to [Infinity].  The result is
    the one of the code whenever the value of the literal is a double, as
    is every whole number of magnitude up to 2^53; a literal whose value is
    not a double (a fraction with more significant digits than a double
    holds, a magnitude above the largest double) is outside the model.  The
    one reader of the result, [slice0], truncates it and clamps it to the
    length of the array, so a whole number above 2^53, which the code rounds
    to a double that is again above every array length, is read alike. *)

Module StringToNumber.

Definition is_ws (c : ascii) : bool :=
  let n := nat_of_ascii c in
  ((9 <=? n)%nat && (n <=? 13)%nat) || (n =? 32)%nat.

Fixpoint drop_ws (l : list ascii) : list ascii :=
  match l with
  | c :: l' => if is_ws c then drop_ws l' else l
  | [] => []
  end.

Definition trim (l : list ascii) : list ascii :=
  rev (drop_ws (rev (drop_ws l))).

Definition digit_of (base : nat) (c : ascii) : option Z :=
  let n := nat_of_ascii c in
  let d :=
    if (48 <=? n)%nat && (n <=? 57)%nat then Some (n - 48)%nat
    else if (97 <=? n)%nat && (n <=? 102)%nat then Some (n - 87)%nat
    else if (65 <=? n)%nat && (n <=? 70)%nat then Some (n - 55)%nat
    else None in
  match d with
  | Some k => if (k <? base)%nat then Some (Z.of_nat k) else None
  | None => None
  end.

(** The longest run of digits at the head of [l]: its value, how many
    digits it has, and what follows it. *)
Fixpoint digits (base : nat) (acc : Z) (count : nat) (l : list ascii)
  : Z * nat * list ascii :=
  match l with
  | c :: l' =>
      match digit_of base c with
      | Some d => digits base (acc * Z.of_nat base + d)%Z (S count) l'
      | None => (acc, count, l)
      end
  | [] => (acc, count, [])
  end.

Definition sign (l : list ascii) : Z * list ascii :=
  match l with
  | "+"%char :: l' => (1%Z, l')
  | "-"%char :: l' => ((-1)%Z, l')
  | _ => (1%Z, l)
  end.

(** The exponent part, if one is written; [None] when it is malformed. *)
Definition exponent (l : list ascii) : option Z :=
  match l with
  | [] => Some 0%Z
  | c :: l' =>
      if Ascii.eqb c "e" || Ascii.eqb c "E" then
        let '(sg, l1) := sign l' in
        match digits 10 0 0 l1 with
        | (_, O, _) => None
        | (v, S _, []) => Some (sg * v)%Z
        | (_, S _, _ :: _) => None
        end
      else None
  end.

Definition pow10 (e : Z) : Q := Qpower (inject_Z 10) e.

(** An unsigned decimal literal: digits, fraction, exponent. *)
Definition decimal (l : list ascii) : option Q :=
  let '(ip, ni, l1) := digits 10 0 0 l in
  let '(fp, nf, l2) :=
    match l1 with
    | "."%char :: l1' => digits 10 0 0 l1'
    | _ => (0%Z, O, l1)
    end in
  if ((ni + nf)%nat =? 0)%nat then None
  else
    match exponent l2 with
    | Some e =>
        Some (Qmult
                (Qplus (inject_Z ip)
                       (Qmult (inject_Z fp) (pow10 (- Z.of_nat nf))))
                (pow10 e))
    | None => None
    end.

Definition radix_literal (l : list ascii) : option Q :=
  match l with
  | "0"%char :: p :: l' =>
      let base :=
        if Ascii.eqb p "x" || Ascii.eqb p "X" then Some 16%nat
        else if Ascii.eqb p "o" || Ascii.eqb p "O" then Some 8%nat
        else if Ascii.eqb p "b" || Ascii.eqb p "B" then Some 2%nat
        else None in
      match base with
      | Some b =>
          match digits b 0 0 l' with
          | (v, S _, []) => Some (inject_Z v)
          | _ => None
          end
      | None => None
      end
  | _ => None
  end.

Definition parse (l : list ascii) : number :=
  match trim l with
  | [] => Finite 0
  | t =>
      match radix_literal t with
      | Some v => Finite v
      | None =>
          let '(sg, u) := sign t in
          if list_eq_dec ascii_dec u (list_ascii_of_string "Infinity")
          then (if (sg <? 0)%Z then NegInfinity else Infinity)
          else
            match decimal u with
            | Some v => Finite (Qmult (inject_Z sg) v)
            | None => NaN
            end
      end
  end.

End StringToNumber.

Definition Number (text : string) : number :=
  StringToNumber.parse (list_ascii_of_string text).

(** [Array.prototype.slice(0, end)]: the first [final] elements, where
    [final] is [end] clamped into [0, len] once a negative [end] has been
    counted from the back. *)
Definition slice_final (len : nat) (e : number) : nat :=
  match ToIntegerOrInfinity e with
  | MinusInf => 0
  | Int z =>
      if (z <? 0)%Z then Z.to_nat (Z.max (Z.of_nat len + z) 0)
      else Z.to_nat (Z.min z (Z.of_nat len))
  | PlusInf => len
  end.

Definition slice0 {A : Type} (l : list A) (e : number) : list A :=
  firstn (slice_final (List.length l) e) l.

(** ** The Ranking Table View: [TopTable.jsx] *)

Module TopTable.

(** One row of [top_picks.json].  [explanation] may be absent. *)
Record RankedEntry : Type := {
  ticker : string;
  score_0_100 : number;
  last_close : number;
  avg_vol20 : number;
  explanation : option string
}.

(** [const [q, setQ] = useState(""); const [topN, setTopN] = useState(50);] *)
Record state : Type := {
  q : string;
  topN : number
}.

Definition init : state := {| q := ""; topN := of_Z 50 |}.

(** [it.explanation || ""] *)
Definition or_empty (e : option string) : string :=
  match e with
  | Some s => if string_truthy s then s else ""
  | None => ""
  end.

(** The text a row is searched in: [it.ticker + " " + (it.explanation||"")]. *)
Definition haystack (it : RankedEntry) : string :=
  (ticker it ++ " " ++ or_empty (explanation it))%string.

(** The callback handed to [filter]. *)
Definition keep (q : string) (it : RankedEntry) : bool :=
  if negb (string_truthy q) then true
  else includes (toLowerCase (haystack it)) (toLowerCase q).

(** [data || []] *)
Definition or_nil (data : option (list RankedEntry)) : list RankedEntry :=
  match data with
  | Some l => l
  | None => []
  end.

(** [const filtered = (data || []).filter(...).slice(0, topN);] *)
Definition filtered (data : option (list RankedEntry)) (s : state)
  : list RankedEntry :=
  slice0 (filter (keep (q s)) (or_nil data)) (topN s).

(** The table body: one [<tr>] per element of [filtered], numbered from
    [idx+1]. *)
Definition body (data : option (list RankedEntry)) (s : state)
  : list (nat * RankedEntry) :=
  let rows := filtered data s in
  combine (seq 1 (List.length rows)) rows.

(** What the user can do to the table. *)
Inductive event : Type :=
| ChangeQ (text : string)        (* onChange of the search box *)
| ChangeTopN (text : string)     (* onChange of the number box *)
| ClickRow (idx : nat).          (* onClick of the [idx]-th shown row *)

(** The local state after an event. *)
Definition step (s : state) (e : event) : state :=
  match e with
  | ChangeQ text => {| q := text; topN := topN s |}
  | ChangeTopN text => {| q := q s; topN := Number text |}
  | ClickRow _ => s
  end.

(** [onSelect(it.ticker)]: the ticker handed to the parent, if the click
    hits a row. *)
Definition selection (data : option (list RankedEntry)) (s : state)
           (e : event) : option string :=
  match e with
  | ClickRow idx => option_map ticker (nth_error (filtered data s) idx)
  | _ => None
  end.

(** The filtering rule in the words of the specification. *)
Definition Matches (q : string) (it : RankedEntry) : Prop :=
  q = "" \/
  Substring (toLowerCase q)
            (toLowerCase (ticker it ++ " " ++
               match explanation it with Some e => e | None => "" end)%string).

End TopTable.

(** ** JavaScript values, as [r.json()] yields them

    An object carries its own properties in enumeration order, names
    distinct; [VUndefined] is what reading a missing property gives. *)

#[local] Set Warnings "-register-all".

Inductive value : Type :=
| VUndefined
| VNull
| VBool (b : bool)
| VNum (n : number)
| VStr (s : string)
| VArr (items : list value)
| VObj (props : list (string * value)).

(** What a rejected promise or a [throw] carries. *)
Inductive exn : Type :=
| TypeError (message : string)
| SyntaxError (message : string)
| InvariantError (message : string).   (* React's own complaints *)

Inductive result (A : Type) : Type :=
| Ok (a : A)
| Throw (e : exn).

Arguments Ok {A} a.
Arguments Throw {A} e.

Definition bind {A B : Type} (r : result A) (k : A -> result B) : result B :=
  match r with
  | Ok a => k a
  | Throw e => Throw e
  end.

Notation "x <- r ;; k" := (bind r (fun x => k))
  (at level 61, r at next level, right associativity).

(** How a fetch chain [fetch(url).then(r => r.json())] settles: [fetch]
    itself rejects, or the body does not parse, or a value is produced. *)
Inductive outcome (A : Type) : Type :=
| Rejected (e : exn)
| Unparseable (e : exn)
| Parsed (j : A).

Arguments Rejected {A} e.
Arguments Unparseable {A} e.
Arguments Parsed {A} j.

(** The error a failed chain hands to [catch]. *)
Definition failure {A : Type} (o : outcome A) : option exn :=
  match o with
  | Rejected e | Unparseable e => Some e
  | Parsed _ => None
  end.

(** ToBoolean *)
Definition truthy (v : value) : bool :=
  match v with
  | VUndefined | VNull => false
  | VBool b => b
  | VNum n => number_truthy n
  | VStr s => string_truthy s
  | VArr _ | VObj _ => true
  end.

Definition is_object (v : value) : bool :=
  match v with
  | VArr _ | VObj _ => true
  | _ => false
  end.

(** [Object.is(a, b)] when at least one side is not an object.  Two objects
    are the same only if they are one allocation, which the state tracks. *)
Definition prim_is (a b : value) : bool :=
  match a, b with
  | VUndefined, VUndefined | VNull, VNull => true
  | VBool x, VBool y => Bool.eqb x y
  | VNum x, VNum y => number_is x y
  | VStr x, VStr y => String.eqb x y
  | _, _ => false
  end.

Fixpoint lookup (name : string) (props : list (string * value)) : value :=
  match props with
  | [] => VUndefined
  | (k, v) :: rest => if String.eqb k name then v else lookup name rest
  end.

(** The property read [v.name], for the data properties the components
    read ([history], [indicators], [Date], [Close], the indicator names):
    none of them is a built-in of String, Number, Boolean or Array. *)
Definition get (v : value) (name : string) : result value :=
  match v with
  | VUndefined =>
      Throw (TypeError ("Cannot read properties of undefined: " ++ name))
  | VNull => Throw (TypeError ("Cannot read properties of null: " ++ name))
  | VObj props => Ok (lookup name props)
  | _ => Ok VUndefined
  end.

(** [arr.map(h => h.name)] on the elements of an array, left to right. *)
Fixpoint map_get (items : list value) (name : string) : result (list value) :=
  match items with
  | [] => Ok []
  | h :: rest =>
      x <- get h name ;;
      xs <- map_get rest name ;;
      Ok (x :: xs)
  end.

(** [v.map(h => h.name)]: only an array has [map]; on [undefined] and
    [null] the read of [map] itself throws. *)
Definition map_prop (v : value) (name : string) : result (list value) :=
  match v with
  | VArr items => map_get items name
  | VUndefined | VNull => _ <- get v "map" ;; Ok []
  | _ => Throw (TypeError "map is not a function")
  end.

Definition index_name (i : nat) : string :=
  NilEmpty.string_of_uint (Nat.to_uint i).

Fixpoint string_units (s : string) : list value :=
  match s with
  | EmptyString => []
  | String c s' => VStr (String c EmptyString) :: string_units s'
  end.

Definition indexed (items : list value) : list (string * value) :=
  combine (map index_name (seq 0 (List.length items))) items.

(** [Object.entries(v)] *)
Definition Object_entries (v : value) : result (list (string * value)) :=
  match v with
  | VUndefined | VNull =>
      Throw (TypeError "Cannot convert undefined or null to object")
  | VObj props => Ok props
  | VArr items => Ok (indexed items)
  | VStr s => Ok (indexed (string_units s))
  | VBool _ | VNum _ => Ok []
  end.

(** React accepts strings, numbers, booleans, null, undefined and arrays of
    those as children; an object among them is an error. *)
Fixpoint valid_child (v : value) : bool :=
  match v with
  | VObj _ => false
  | VArr items => forallb valid_child items
  | _ => true
  end.

Definition child (v : value) : result value :=
  if valid_child v then Ok v
  else Throw (InvariantError "Objects are not valid as a React child").

(** ** The Detail View: [TickerDetail.jsx] *)

Module TickerDetail.

(** What the component returns. *)
Inductive view : Type :=
| SelectPrompt                      (* Select a ticker to view details *)
| Loading (t : string)              (* Loading {ticker}... *)
| Loaded (heading : string)
         (score explanation last_close avg_vol20 : value)
         (listing : list (string * value)).   (* <li>k: String(v)</li> *)

(** The canvas [#histChart] is in the document exactly in the third
    display. *)
Definition has_canvas (v : view) : bool :=
  match v with
  | Loaded _ _ _ _ _ _ => true
  | _ => false
  end.

(** A Chart.js line chart, as configured by the second effect. *)
Record Chart : Type := {
  chart_id : nat;
  labels : list value;
  dataset_label : string;
  dataset_data : list value
}.

Inductive status : Type :=
| Mounted
| Unmounted
| Crashed (e : exn).    (* an error reached the render tree *)

Definition is_mounted (st : status) : bool :=
  match st with
  | Mounted => true
  | _ => false
  end.

Record state : Type := {
  ticker : option string;           (* the prop; [None] is [null] *)
  data : value;                     (* useState(null) *)
  data_stamp : nat;                 (* which allocation [data] holds *)
  status_of : status;
  deps1 : option string;            (* [ticker] at effect 1's last run *)
  deps2 : nat * option string;      (* [data, ticker] at effect 2's last run *)
  cleanup : option nat;             (* chart the pending cleanup destroys *)
  charts : list Chart;              (* live chart instances *)
  next_chart : nat;
  inflight : list (nat * string);   (* unsettled fetches: id, url *)
  next_fetch : nat;
  issued : list string;             (* every url fetched, oldest first *)
  console : list exn                (* console.error, oldest first *)
}.

(** [!ticker] is false *)
Definition ticker_truthy (t : option string) : bool :=
  match t with
  | Some s => string_truthy s
  | None => false
  end.

(** [Object.is] on the prop. *)
Definition ticker_is (a b : option string) : bool :=
  match a, b with
  | None, None => true
  | Some x, Some y => String.eqb x y
  | _, _ => false
  end.

(** The template literal [`${ticker}`]. *)
Definition template (t : option string) : string :=
  match t with
  | Some s => s
  | None => "null"
  end.

(** The body of the component after the hooks (lines 29 to 52).  Property
    reads happen while the element tree is built, child validation when
    React reconciles it. *)
Definition render (t : option string) (d : value) : result view :=
  if negb (ticker_truthy t) then Ok SelectPrompt
  else if negb (truthy d) then Ok (Loading (template t))
  else
    ind <- get d "indicators" ;;
    score <- get ind "score_0_100" ;;
    expl <- get ind "explanation" ;;
    last <- get ind "last_close" ;;
    avg <- get ind "avg_vol20" ;;
    entries <- Object_entries ind ;;
    score <- child score ;;
    expl <- child expl ;;
    last <- child last ;;
    avg <- child avg ;;
    Ok (Loaded (template t) score expl last avg entries).

(** [fetch(`/data/${ticker}.json`, {cache:'no-store'})] *)
Definition detail_url (t : option string) : string :=
  ("/data/" ++ template t ++ ".json")%string.

Definition fetch (url : string) (s : state) : state :=
  {| ticker := ticker s; data := data s; data_stamp := data_stamp s;
     status_of := status_of s; deps1 := deps1 s; deps2 := deps2 s;
     cleanup := cleanup s; charts := charts s; next_chart := next_chart s;
     inflight := inflight s ++ [(next_fetch s, url)];
     next_fetch := S (next_fetch s);
     issued := issued s ++ [url];
     console := console s |}.

(** The first effect (lines 8 to 11). *)
Definition effect1 (s : state) : state :=
  if negb (ticker_truthy (ticker s)) then s
  else fetch (detail_url (ticker s)) s.

(** [new Chart(ctx, {...})], with the cleanup the effect returns. *)
Definition new_Chart (ls cs : list value) (s : state) : state :=
  let c := {| chart_id := next_chart s;
              labels := ls;
              dataset_label := (template (ticker s) ++ " Close")%string;
              dataset_data := cs |} in
  {| ticker := ticker s; data := data s; data_stamp := data_stamp s;
     status_of := status_of s; deps1 := deps1 s; deps2 := deps2 s;
     cleanup := Some (chart_id c);
     charts := c :: charts s;
     next_chart := S (next_chart s);
     inflight := inflight s; next_fetch := next_fetch s;
     issued := issued s; console := console s |}.

(** The second effect (lines 13 to 27); [canvas] tells whether
    [document.getElementById('histChart')] finds the element. *)
Definition effect2 (canvas : bool) (s : state) : result state :=
  if negb (truthy (data s)) then Ok s
  else
    history <- get (data s) "history" ;;
    if negb (truthy history) then Ok s
    else if negb canvas then Ok s
    else
      ls <- map_prop history "Date" ;;
      cs <- map_prop history "Close" ;;
      Ok (new_Chart ls cs s).

(** [chart.destroy()] *)
Definition destroy (id : nat) (cs : list Chart) : list Chart :=
  filter (fun c => negb (chart_id c =? id)%nat) cs.

(** Run the cleanup the second effect last returned, if it returned one. *)
Definition run_cleanup (s : state) : state :=
  {| ticker := ticker s; data := data s; data_stamp := data_stamp s;
     status_of := status_of s; deps1 := deps1 s; deps2 := deps2 s;
     cleanup := None;
     charts := match cleanup s with
               | Some id => destroy id (charts s)
               | None => charts s
               end;
     next_chart := next_chart s;
     inflight := inflight s; next_fetch := next_fetch s;
     issued := issued s; console := console s |}.

Definition set_status (st : status) (s : state) : state :=
  {| ticker := ticker s; data := data s; data_stamp := data_stamp s;
     status_of := st; deps1 := deps1 s; deps2 := deps2 s;
     cleanup := cleanup s; charts := charts s; next_chart := next_chart s;
     inflight := inflight s; next_fetch := next_fetch s;
     issued := issued s; console := console s |}.

Definition set_deps (d1 : option string) (d2 : nat * option string)
           (s : state) : state :=
  {| ticker := ticker s; data := data s; data_stamp := data_stamp s;
     status_of := status_of s; deps1 := d1; deps2 := d2;
     cleanup := cleanup s; charts := charts s; next_chart := next_chart s;
     inflight := inflight s; next_fetch := next_fetch s;
     issued := issued s; console := console s |}.

(** An error with no boundary above it: React removes the tree, which runs
    the pending cleanups. *)
Definition crash (e : exn) (s : state) : state :=
  set_status (Crashed e) (run_cleanup s).

Definition deps2_same (s : state) : bool :=
  (fst (deps2 s) =? data_stamp s)%nat && ticker_is (snd (deps2 s)) (ticker s).

(** One render and commit, then the effects whose dependencies changed
    ([force] at mount): cleanups first, then the effect bodies in order. *)
Definition commit (force : bool) (s : state) : state :=
  match render (ticker s) (data s) with
  | Throw e => crash e s
  | Ok v =>
      let run1 := force || negb (ticker_is (deps1 s) (ticker s)) in
      let run2 := force || negb (deps2_same s) in
      let s1 := if run2 then run_cleanup s else s in
      let s2 := if run1
                then set_deps (ticker s1) (deps2 s1) (effect1 s1)
                else s1 in
      if run2 then
        match effect2 (has_canvas v) s2 with
        | Ok s3 => set_deps (deps1 s3) (data_stamp s3, ticker s3) s3
        | Throw e => crash e s2
        end
      else s2
  end.

(** The component is mounted with a first value of the prop. *)
Definition mount (t : option string) : state :=
  commit true
    {| ticker := t; data := VNull; data_stamp := 0;
       status_of := Mounted; deps1 := None; deps2 := (0, None);
       cleanup := None; charts := []; next_chart := 0;
       inflight := []; next_fetch := 0; issued := []; console := [] |}.

Inductive event : Type :=
| SetTicker (t : option string)           (* the parent passes a prop *)
| Settle (id : nat) (o : outcome value)   (* a fetch chain settles *)
| Unmount.

Definition set_ticker (t : option string) (s : state) : state :=
  {| ticker := t; data := data s; data_stamp := data_stamp s;
     status_of := status_of s; deps1 := deps1 s; deps2 := deps2 s;
     cleanup := cleanup s; charts := charts s; next_chart := next_chart s;
     inflight := inflight s; next_fetch := next_fetch s;
     issued := issued s; console := console s |}.

(** The state holding a freshly parsed [j]. *)
Definition store (j : value) (s : state) : state :=
  {| ticker := ticker s; data := j; data_stamp := S (data_stamp s);
     status_of := status_of s; deps1 := deps1 s; deps2 := deps2 s;
     cleanup := cleanup s; charts := charts s; next_chart := next_chart s;
     inflight := inflight s; next_fetch := next_fetch s;
     issued := issued s; console := console s |}.

(** [setData(j)] with a freshly parsed [j]: nothing happens once the
    component is gone; React keeps the state and skips the render when [j]
    is the value already held; otherwise it stores [j] and renders. *)
Definition setData (j : value) (s : state) : state :=
  if negb (is_mounted (status_of s)) then s
  else if prim_is j (data s) then s
  else commit false (store j s).

(** [console.error(e)] *)
Definition console_error (e : exn) (s : state) : state :=
  {| ticker := ticker s; data := data s; data_stamp := data_stamp s;
     status_of := status_of s; deps1 := deps1 s; deps2 := deps2 s;
     cleanup := cleanup s; charts := charts s; next_chart := next_chart s;
     inflight := inflight s; next_fetch := next_fetch s;
     issued := issued s; console := console s ++ [e] |}.

Definition is_inflight (id : nat) (s : state) : bool :=
  existsb (fun p => (fst p =? id)%nat) (inflight s).

Definition settled (id : nat) (s : state) : state :=
  {| ticker := ticker s; data := data s; data_stamp := data_stamp s;
     status_of := status_of s; deps1 := deps1 s; deps2 := deps2 s;
     cleanup := cleanup s; charts := charts s; next_chart := next_chart s;
     inflight := filter (fun p => negb (fst p =? id)%nat) (inflight s);
     next_fetch := next_fetch s;
     issued := issued s; console := console s |}.

(** [.then(j => setData(j)).catch(e => console.error(e))] *)
Definition settle (id : nat) (o : outcome value) (s : state) : state :=
  if negb (is_inflight id s) then s
  else
    match o with
    | Rejected e | Unparseable e => console_error e (settled id s)
    | Parsed j => setData j (settled id s)
    end.

Definition step (s : state) (ev : event) : state :=
  match ev with
  | SetTicker t =>
      if is_mounted (status_of s) then commit false (set_ticker t s) else s
  | Settle id o => settle id o s
  | Unmount =>
      if is_mounted (status_of s)
      then set_status Unmounted (run_cleanup s)
      else s
  end.

Definition run (s : state) (evs : list event) : state :=
  fold_left step evs s.

(** What is on screen. *)
Definition shown (s : state) : option view :=
  if is_mounted (status_of s) then
    match render (ticker s) (data s) with
    | Ok v => Some v
    | Throw _ => None
    end
  else None.

(** *** Vocabulary of the properties *)

(** A detail artifact of the data model: an object whose [indicators] is
    an object with displayable values under the four names the view reads,
    and whose [history] is absent (or falsy) or an array with no [null]
    entry. *)
Definition is_point (h : value) : bool :=
  match h with
  | VUndefined | VNull => false
  | _ => true
  end.

Definition history_ok (h : value) : bool :=
  match h with
  | VArr items => forallb is_point items
  | _ => negb (truthy h)
  end.

Definition indicators_ok (ind : list (string * value)) : bool :=
  valid_child (lookup "score_0_100" ind) &&
  valid_child (lookup "explanation" ind) &&
  valid_child (lookup "last_close" ind) &&
  valid_child (lookup "avg_vol20" ind).

Definition well_formed (j : value) : bool :=
  match j with
  | VObj props =>
      match lookup "indicators" props with
      | VObj ind => indicators_ok ind && history_ok (lookup "history" props)
      | _ => false
      end
  | _ => false
  end.

(** The third display, for an artifact with indicator entries [ind]. *)
Definition loaded (t : option string) (ind : list (string * value)) : view :=
  Loaded (template t)
         (lookup "score_0_100" ind) (lookup "explanation" ind)
         (lookup "last_close" ind) (lookup "avg_vol20" ind) ind.

(** A pass fetches exactly when it renders and the first effect, run
    because the ticker changed, finds a ticker. *)
Definition fetches (force : bool) (s : state) : bool :=
  match render (ticker s) (data s) with
  | Ok _ => (force || negb (ticker_is (deps1 s) (ticker s)))
            && ticker_truthy (ticker s)
  | Throw _ => false
  end.

(** *** The states the component can be in *)

Inductive reachable : state -> Prop :=
| reach_mount (t : option string) : reachable (mount t)
| reach_step (s : state) (ev : event) :
    reachable s -> reachable (step s ev).

(** Every live chart is the one the pending cleanup will destroy. *)
Definition chart_inv (s : state) : Prop :=
  (charts s = [] /\ cleanup s = None) \/
  (exists c, charts s = [c] /\ cleanup s = Some (chart_id c) /\
             chart_id c < next_chart s).

(** The conditions under which the second effect builds a chart. *)
Definition chart_ok (t : option string) (d : value) : Prop :=
  ticker_truthy t = true /\ truthy d = true /\
  exists h, get d "history" = Ok h /\ truthy h = true.

Record Inv (s : state) : Prop := {
  inv_chart : chart_inv s;
  inv_deps : is_mounted (status_of s) = true ->
             deps1 s = ticker s /\ deps2 s = (data_stamp s, ticker s);
  inv_live : charts s <> [] ->
             is_mounted (status_of s) = true /\
             chart_ok (ticker s) (data s)
}.

(** The chart the second effect configures from history points [pts] (the
    properties of each point object) under ticker [t]. *)
Definition line_chart (id : nat) (t : option string)
           (pts : list (list (string * value))) : Chart :=
  {| chart_id := id;
     labels := map (lookup "Date") pts;
     dataset_label := (template t ++ " Close")%string;
     dataset_data := map (lookup "Close") pts |}.

End TickerDetail.

(** ** The Application Shell: [App.jsx] *)

Module App.

(** [top_picks.json] *)
Record SummaryArtifact : Type := {
  generated_at : string;
  top : option (list TopTable.RankedEntry)
}.

Record state : Type := {
  data : option SummaryArtifact;        (* useState(null) *)
  selected : option string;             (* useState(null) *)
  table : TopTable.state;               (* the child <TopTable> *)
  detail : TickerDetail.state;          (* the child <TickerDetail> *)
  pending : bool;                       (* the summary fetch is unsettled *)
  issued : list string;                 (* urls fetched by the shell *)
  console : list exn
}.

Definition summary_url : string := "/top_picks.json".

(** The tree is on screen as long as no error has removed it. *)
Definition is_mounted (s : state) : bool :=
  TickerDetail.is_mounted (TickerDetail.status_of (detail s)).

(** The text of [<span>{data?.generated_at}</span>] on screen: nothing while
    no summary is held, and nothing once an error has removed the tree. *)
Definition header (s : state) : option string :=
  if is_mounted s then option_map generated_at (data s) else None.

(** [data?.top || []], the prop handed to the table. *)
Definition rows (s : state) : option (list TopTable.RankedEntry) :=
  match data s with
  | Some a =>
      match top a with
      | Some l => Some l
      | None => Some []
      end
  | None => Some []
  end.

(** Mounting: the children mount, then the shell's effect with the empty
    dependency list runs, once. *)
Definition mount : state :=
  {| data := None;
     selected := None;
     table := TopTable.init;
     detail := TickerDetail.mount None;
     pending := true;
     issued := [summary_url];
     console := [] |}.

Inductive event : Type :=
| SummarySettled (o : outcome SummaryArtifact)
| Table (e : TopTable.event)
| DetailSettled (id : nat) (o : outcome value).

(** [setData(j)] of the shell; the children re-render with the props they
    had. *)
Definition setData (a : SummaryArtifact) (s : state) : state :=
  if negb (is_mounted s) then s
  else
    {| data := Some a; selected := selected s; table := table s;
       detail := TickerDetail.step (detail s)
                   (TickerDetail.SetTicker (selected s));
       pending := pending s; issued := issued s; console := console s |}.

(** [setSelected(t)], the [onSelect] callback. *)
Definition setSelected (t : string) (s : state) : state :=
  if negb (is_mounted s) then s
  else
    {| data := data s; selected := Some t; table := table s;
       detail := TickerDetail.step (detail s)
                   (TickerDetail.SetTicker (Some t));
       pending := pending s; issued := issued s; console := console s |}.

Definition step (s : state) (ev : event) : state :=
  match ev with
  | SummarySettled o =>
      if negb (pending s) then s
      else
        let s' := {| data := data s; selected := selected s;
                     table := table s; detail := detail s;
                     pending := false;
                     issued := issued s; console := console s |} in
        match o with
        | Rejected e | Unparseable e =>
            {| data := data s'; selected := selected s';
               table := table s'; detail := detail s';
               pending := pending s'; issued := issued s';
               console := console s' ++ [e] |}
        | Parsed a => setData a s'
        end
  | Table e =>
      if negb (is_mounted s) then s
      else
        let s' := {| data := data s; selected := selected s;
                     table := TopTable.step (table s) e;
                     detail := detail s;
                     pending := pending s;
                     issued := issued s; console := console s |} in
        match TopTable.selection (rows s) (table s) e with
        | Some t => setSelected t s'
        | None => s'
        end
  | DetailSettled id o =>
      {| data := data s; selected := selected s; table := table s;
         detail := TickerDetail.step (detail s) (TickerDetail.Settle id o);
         pending := pending s; issued := issued s; console := console s |}
  end.

Definition run (s : state) (evs : list event) : state :=
  fold_left step evs s.

(** The rows of the table body on screen: none once an error has removed
    the tree. *)
Definition table_body (s : state) : list (nat * TopTable.RankedEntry) :=
  if is_mounted s then TopTable.body (rows s) (table s) else [].

(** Every url the mounted tree has fetched: the shell's own requests and
    those of the detail view. *)
Definition requests (s : state) : list string :=
  issued s ++ TickerDetail.issued (detail s).

(** Until a summary fetch has settled nothing can be selected: the table
    is empty and the detail view idles as it was mounted. *)
Definition waiting (s : state) : Prop :=
  pending s = true /\ data s = None /\ detail s = TickerDetail.mount None.

(** The selection and the prop of the detail view agree, and a selected
    ticker is that of a row of the loaded summary. *)
Definition selection_inv (s : state) : Prop :=
  TickerDetail.ticker (detail s) = selected s /\
  (pending s = true -> data s = None) /\
  (forall t, selected s = Some t ->
             exists a it, data s = Some a /\
                          In it (TopTable.or_nil (top a)) /\
                          TopTable.ticker it = t).

(** Nothing loaded, nothing selected, the detail view as it was mounted. *)
Definition idle (s : state) : Prop :=
  data s = None /\ selected s = None /\ detail s = TickerDetail.mount None.

End App.

(** ** Sample artifacts

    The scenario data of the specification, used by the examples below. *)

Module Sample.

Definition row (t : string) (score : Z) (e : option string)
  : TopTable.RankedEntry :=
  {| TopTable.ticker := t;
     TopTable.score_0_100 := of_Z score;
     TopTable.last_close := Finite (1901 # 10);
     TopTable.avg_vol20 := of_Z 50000000;
     TopTable.explanation := e |}.

Definition aapl : TopTable.RankedEntry := row "AAPL" 80 (Some "strong").
Definition msft : TopTable.RankedEntry := row "MSFT" 75 (Some "MACD cross").
Definition nvda : TopTable.RankedEntry := row "NVDA" 70 None.

Definition top3 : list TopTable.RankedEntry := [aapl; msft; nvda].

Definition summary : App.SummaryArtifact :=
  {| App.generated_at := "2024-01-01"; App.top := Some top3 |}.

Definition point (date : string) (close : Q) : value :=
  VObj [("Date", VStr date); ("Close", VNum (Finite close))].

Definition indicators (score : Z) (e : string) : value :=
  VObj [("score_0_100", VNum (of_Z score));
        ("explanation", VStr e);
        ("last_close", VNum (Finite (1901 # 10)));
        ("avg_vol20", VNum (of_Z 50000000))].

(** [/data/AAPL.json] *)
Definition aapl_detail : value :=
  VObj [("history", VArr [point "2024-01-01" (188 # 1);
                          point "2024-01-02" (1901 # 10)]);
        ("indicators", indicators 80 "strong")].

(** [/data/MSFT.json] *)
Definition msft_detail : value :=
  VObj [("history", VArr [point "2024-01-02" (410 # 1)]);
        ("indicators", indicators 75 "MACD cross")].

(** A detail artifact written without its [history]. *)
Definition bare_detail : value :=
  VObj [("indicators", indicators 42 "flat")].

End Sample.

(** * Properties *)

(** ** Strings *)

Lemma string_truthy_false (s : string) : string_truthy s = false <-> s = "".
Proof.
  destruct s; simpl; split; intros H; try reflexivity; discriminate H.
Qed.

Lemma startsWith_spec (s t : string) :
  startsWith s t = true <-> exists post, s = (t ++ post)%string.
Proof.
  revert s; induction t as [|b t IH]; intros s; simpl.
  - split; [intros _; exists s; reflexivity | reflexivity].
  - destruct s as [|a s].
    + split; [discriminate | intros [post H]; discriminate H].
    + rewrite andb_true_iff, Ascii.eqb_eq, IH. split.
      * intros [-> [post ->]]. exists post. reflexivity.
      * intros [post H]. injection H as -> ->. split; [reflexivity | eauto].
Qed.

Lemma includes_spec (s t : string) : includes s t = true <-> Substring t s.
Proof.
  unfold Substring. induction s as [|a s IH].
  - simpl. rewrite orb_false_r, startsWith_spec. split.
    + intros [post H]. exists "", post. exact H.
    + intros [[|c pre] [post H]]; [exists post; exact H | discriminate H].
  - cbn [includes]. rewrite orb_true_iff, IH, startsWith_spec. split.
    + intros [[post H] | [pre [post H]]].
      * exists "", post. exact H.
      * exists (String a pre), post. simpl. rewrite H. reflexivity.
    + intros [[|c pre] [post H]].
      * left. exists post. exact H.
      * right. simpl in H. injection H as _ H. eauto.
Qed.

(** ** Truncation *)

Lemma slice_final_le (len : nat) (e : number) : slice_final len e <= len.
Proof.
  unfold slice_final. destruct (ToIntegerOrInfinity e) as [|z|]; try lia.
  destruct (Z.ltb_spec z 0); lia.
Qed.

Lemma slice0_length {A : Type} (l : list A) (e : number) :
  List.length (slice0 l e) = slice_final (List.length l) e.
Proof.
  unfold slice0. rewrite firstn_length_le; [reflexivity | apply slice_final_le].
Qed.

Lemma slice0_prefix {A : Type} (l : list A) (e : number) :
  exists rest, l = slice0 l e ++ rest.
Proof.
  exists (skipn (slice_final (List.length l) e) l).
  unfold slice0. symmetry. apply firstn_skipn.
Qed.

Lemma slice_final_of_nat (len n : nat) :
  slice_final len (of_nat n) = Nat.min n len.
Proof.
  unfold slice_final, of_nat, of_Z. simpl.
  rewrite Z.quot_1_r.
  destruct (Z.ltb_spec (Z.of_nat n) 0); lia.
Qed.

(** Truncating a number that is not negative never rounds it up. *)
Lemma trunc_le (x : Q) :
  Qle_bool 0 x = true ->
  (0 <= Z.quot (Qnum x) (Z.pos (Qden x)))%Z /\
  Qle_bool (inject_Z (Z.quot (Qnum x) (Z.pos (Qden x)))) x = true.
Proof.
  destruct x as [a b]. unfold Qle_bool. simpl.
  rewrite !Z.leb_le. intros H.
  assert (Ha : (0 <= a)%Z) by lia.
  split.
  - apply Z.quot_pos; lia.
  - pose proof (Z.mul_quot_le a (Z.pos b) Ha ltac:(lia)). lia.
Qed.

Lemma firstn_in_split {A : Type} (n : nat) (l : list A) (x : A) :
  In x (firstn n l) <->
  exists pre post, l = pre ++ x :: post /\ List.length pre < n.
Proof.
  revert n; induction l as [|a l IH]; intros n.
  - rewrite firstn_nil. split; [intros [] | ].
    intros [pre [post [H _]]]. destruct pre; discriminate H.
  - destruct n as [|n].
    + simpl. split; [intros [] | intros [pre [post [_ H]]]; lia].
    + simpl. rewrite IH. split.
      * intros [-> | [pre [post [-> H]]]].
        -- exists [], l. simpl. split; [reflexivity | lia].
        -- exists (a :: pre), post. simpl. split; [reflexivity | lia].
      * intros [[|b pre] [post [H Hn]]]; simpl in H; injection H as -> ->.
        -- left. reflexivity.
        -- right. exists pre, post. simpl in Hn. split; [reflexivity | lia].
Qed.

Lemma filter_split {A : Type} (f : A -> bool) (l : list A) (x : A)
      (pre' post' : list A) :
  filter f l = pre' ++ x :: post' ->
  exists pre post,
    l = pre ++ x :: post /\ filter f pre = pre' /\ f x = true.
Proof.
  revert pre'; induction l as [|a l IH]; intros pre' H; simpl in H.
  - destruct pre'; discriminate H.
  - destruct (f a) eqn:Fa.
    + destruct pre' as [|b pre']; simpl in H; injection H as -> H.
      * exists [], l. simpl. auto.
      * destruct (IH _ H) as [pre [post [-> [Hp Hx]]]].
        exists (b :: pre), post. simpl. rewrite Fa, Hp. auto.
    + destruct (IH _ H) as [pre [post [-> [Hp Hx]]]].
      exists (a :: pre), post. simpl. rewrite Fa. auto.
Qed.

(** ** The Ranking Table View *)

Module TopTableFacts.
Import TopTable.

Lemma or_empty_spec (e : option string) :
  or_empty e = match e with Some x => x | None => "" end.
Proof. destruct e as [[|c x]|]; reflexivity. Qed.

(** The callback of [filter] decides the filtering rule. *)
Lemma keep_iff_Matches (q : string) (it : RankedEntry) :
  keep q it = true <-> Matches q it.
Proof.
  unfold keep, Matches, haystack. rewrite or_empty_spec.
  destruct q as [|c q]; cbn [string_truthy negb].
  - split; auto.
  - rewrite includes_spec.
    split; [auto | intros [H | H]; [discriminate H | exact H]].
Qed.

Lemma filtered_eq (data : option (list RankedEntry)) (s : state) :
  filtered data s =
  firstn (slice_final (List.length (filter (keep (q s)) (or_nil data)))
                      (topN s))
         (filter (keep (q s)) (or_nil data)).
Proof. reflexivity. Qed.

(** A row is in the table body iff it passes the filter and fewer rows
    that pass precede it than truncation keeps. *)
Lemma filtered_in_iff (data : option (list RankedEntry)) (s : state)
      (it : RankedEntry) :
  In it (filtered data s) <->
  exists pre post,
    or_nil data = pre ++ it :: post /\
    keep (q s) it = true /\
    List.length (filter (keep (q s)) pre) <
    slice_final (List.length (filter (keep (q s)) (or_nil data))) (topN s).
Proof.
  rewrite filtered_eq, firstn_in_split. split.
  - intros [pre' [post' [H Hn]]].
    destruct (filter_split _ _ _ _ _ H) as [pre [post [Hl [Hp Hx]]]].
    exists pre, post. rewrite Hp. auto.
  - intros [pre [post [Hl [Hx Hn]]]].
    exists (filter (keep (q s)) pre), (filter (keep (q s)) post).
    split; [ | exact Hn].
    rewrite Hl, filter_app. simpl. rewrite Hx. reflexivity.
Qed.

Lemma filtered_sound (data : option (list RankedEntry)) (s : state)
      (it : RankedEntry) :
  In it (filtered data s) -> In it (or_nil data) /\ Matches (q s) it.
Proof.
  intros H. apply filtered_in_iff in H.
  destruct H as [pre [post [Hl [Hx _]]]]. split.
  - rewrite Hl. apply in_or_app. right. left. reflexivity.
  - apply keep_iff_Matches. exact Hx.
Qed.

Lemma filter_keep_empty (l : list RankedEntry) : filter (keep "") l = l.
Proof.
  induction l as [|a l IH]; simpl; [reflexivity | rewrite IH; reflexivity].
Qed.

(** Rows of absent or empty data: nothing to show, whatever the state. *)
Lemma filtered_no_data (data : option (list RankedEntry)) (s : state) :
  or_nil data = [] -> body data s = [].
Proof.
  intros H. unfold body, filtered. rewrite H. simpl.
  unfold slice0. rewrite firstn_nil. reflexivity.
Qed.

(** A limit that truncates to zero shows nothing. *)
Lemma filtered_zero (data : option (list RankedEntry)) (s : state) :
  ToIntegerOrInfinity (topN s) = Int 0 -> filtered data s = [].
Proof.
  intros H. unfold filtered, slice0, slice_final. rewrite H.
  cbn [Z.ltb Z.compare]. rewrite Z.min_l by lia. reflexivity.
Qed.

End TopTableFacts.

(** C4, as stated, fails: with an empty filter and a row limit of 1 the
    second row of a two-row sequence matches and is not shown. *)
Lemma C4_matching_row_not_shown :
  let data := Some [Sample.aapl; Sample.msft] in
  let s := {| TopTable.q := ""; TopTable.topN := of_Z 1 |} in
  In Sample.msft (TopTable.or_nil data) /\
  TopTable.Matches (TopTable.q s) Sample.msft /\
  ~ In Sample.msft (TopTable.filtered data s).
Proof.
  simpl. split; [right; left; reflexivity | ].
  split; [left; reflexivity | ].
  intros [H | []]. discriminate H.
Qed.

(** C4 (amended): the callback of [filter] keeps a row iff the filter string
    is empty or its lowercased text is a substring of the lowercased
    ["<ticker> <explanation>"]; no row that fails this is ever shown; and with
    a row limit [n] a row is shown iff it passes and fewer than [n] passing
    rows precede it in the sequence. *)
Theorem C4_shown_iff_matches_within_limit
        (data : option (list TopTable.RankedEntry)) (q : string) :
  (forall it, TopTable.keep q it = true <-> TopTable.Matches q it) /\
  (forall (N : number) (it : TopTable.RankedEntry),
      In it (TopTable.filtered data {| TopTable.q := q; TopTable.topN := N |})
      -> In it (TopTable.or_nil data) /\ TopTable.Matches q it) /\
  (forall (n : nat) (it : TopTable.RankedEntry),
      In it (TopTable.filtered data
               {| TopTable.q := q; TopTable.topN := of_nat n |}) <->
      exists pre post,
        TopTable.or_nil data = pre ++ it :: post /\
        TopTable.Matches q it /\
        List.length (filter (TopTable.keep q) pre) < n).
Proof.
  split; [intros it; apply TopTableFacts.keep_iff_Matches | ].
  split.
  - intros N it H. apply TopTableFacts.filtered_sound in H. exact H.
  - intros n it. rewrite TopTableFacts.filtered_in_iff. simpl.
    rewrite slice_final_of_nat.
    split; intros [pre [post [Hl [Hx Hn]]]]; exists pre, post;
      (split; [exact Hl | ]).
    + split; [apply TopTableFacts.keep_iff_Matches; exact Hx | lia].
    + apply TopTableFacts.keep_iff_Matches in Hx.
      split; [exact Hx | ].
      rewrite Hl, filter_app, length_app. simpl. rewrite Hx. simpl. lia.
Qed.
Lemma C4_shown_iff_matches_within_limit_witness :
  In Sample.aapl (TopTable.or_nil (Some Sample.top3)) /\
  TopTable.Matches "aap" Sample.aapl /\
  ~ In Sample.msft
      (TopTable.filtered (Some Sample.top3)
         {| TopTable.q := ""; TopTable.topN := of_nat 1 |}).
Proof.
  destruct (C4_shown_iff_matches_within_limit (Some Sample.top3) "aap")
    as (_ & H & _).
  destruct (C4_shown_iff_matches_within_limit (Some Sample.top3) "")
    as (_ & _ & H1).
  split; [ | split].
  - apply (H (of_nat 50) Sample.aapl). left. reflexivity.
  - apply (H (of_nat 50) Sample.aapl). left. reflexivity.
  - intros Hin. apply (H1 1 Sample.msft) in Hin.
    destruct Hin as ([|a pre] & post & Hl & _ & Hn).
    + discriminate Hl.
    + injection Hl as <- _. simpl in Hn. lia.
Defined.


Lemma trunc_ge (x : Q) (k : Z) :
  Qle_bool (inject_Z k) x = true ->
  (k <= Z.quot (Qnum x) (Z.pos (Qden x)))%Z.
Proof.
  destruct x as [a b]. unfold Qle_bool. simpl. rewrite Z.leb_le. intros H.
  apply Z.quot_le_lower_bound; lia.
Qed.

Lemma Qle_bool_inject (a b : Z) :
  Qle_bool (inject_Z a) (inject_Z b) = (a <=? b)%Z.
Proof. unfold Qle_bool. simpl. rewrite !Z.mul_1_r. reflexivity. Qed.

Lemma Qle_bool_trans (x y z : Q) :
  Qle_bool x y = true -> Qle_bool y z = true -> Qle_bool x z = true.
Proof. rewrite !Qle_bool_iff. apply Qle_trans. Qed.

(** The row count against the limit, for a limit that is not negative. *)
Lemma slice_final_bound (len : nat) (N : number) :
  number_le (of_Z 0) N = true ->
  number_le (of_nat (slice_final len N)) (number_min N (of_nat len)) = true.
Proof.
  unfold slice_final, of_nat, of_Z.
  destruct N as [| | |x]; simpl; try discriminate.
  - intros _. rewrite Qle_bool_inject. apply Z.leb_le. lia.
  - intros H. destruct (trunc_le x H) as [H0 Hx].
    set (z := Z.quot (Qnum x) (Z.pos (Qden x))) in *.
    destruct (Z.ltb_spec z 0) as [Hneg | _]; [lia | ].
    assert (Hmin : Qle_bool (inject_Z (Z.of_nat (Z.to_nat
                     (Z.min z (Z.of_nat len))))) (inject_Z z) = true).
    { rewrite Qle_bool_inject. apply Z.leb_le. lia. }
    destruct (Qle_bool x (inject_Z (Z.of_nat len))) eqn:Hxl; simpl.
    + apply Qle_bool_trans with (y := inject_Z z); assumption.
    + rewrite Qle_bool_inject. apply Z.leb_le. lia.
Qed.

(** A limit of at least the length truncates nothing. *)
Lemma slice0_all {A : Type} (l : list A) (N : number) :
  number_le (of_nat (List.length l)) N = true -> slice0 l N = l.
Proof.
  unfold slice0, slice_final, of_nat, of_Z.
  destruct N as [| | |x]; simpl; try discriminate.
  - intros _. apply firstn_all.
  - intros H. apply trunc_ge in H.
    set (z := Z.quot (Qnum x) (Z.pos (Qden x))) in *.
    destruct (Z.ltb_spec z 0) as [Hneg | _]; [lia | ].
    rewrite Z.min_r by lia. rewrite Nat2Z.id. apply firstn_all.
Qed.

(** C5, as stated, fails: a row limit of -1 shows two of three rows, more
    than min(-1, 3). *)
Lemma C5_negative_limit_exceeds_bound :
  let s := {| TopTable.q := ""; TopTable.topN := of_Z (-1) |} in
  let rows := TopTable.filtered (Some Sample.top3) s in
  rows = [Sample.aapl; Sample.msft] /\
  number_le (of_nat (List.length rows))
            (number_min (TopTable.topN s)
               (of_nat (List.length
                          (filter (TopTable.keep (TopTable.q s)) Sample.top3))))
  = false.
Proof. split; reflexivity. Qed.

(** C5 (amended): the shown rows are always a prefix of the filtered
    sequence, in the artifact's order; for a row limit N >= 0 their number is
    at most min(N, number of filtered rows); with an empty filter and N at
    least the sequence length every entry is shown in original order. *)
Theorem C5_prefix_and_bound
        (data : option (list TopTable.RankedEntry)) (s : TopTable.state) :
  (exists rest,
      filter (TopTable.keep (TopTable.q s)) (TopTable.or_nil data)
      = TopTable.filtered data s ++ rest) /\
  (number_le (of_Z 0) (TopTable.topN s) = true ->
   number_le (of_nat (List.length (TopTable.filtered data s)))
             (number_min (TopTable.topN s)
                (of_nat (List.length
                   (filter (TopTable.keep (TopTable.q s))
                           (TopTable.or_nil data)))))
   = true) /\
  (TopTable.q s = "" ->
   number_le (of_nat (List.length (TopTable.or_nil data))) (TopTable.topN s)
   = true ->
   TopTable.filtered data s = TopTable.or_nil data).
Proof.
  split; [apply slice0_prefix | ]. split.
  - intros H. unfold TopTable.filtered. rewrite slice0_length.
    apply slice_final_bound. exact H.
  - intros Hq HN. unfold TopTable.filtered. rewrite Hq.
    rewrite TopTableFacts.filter_keep_empty. apply slice0_all. exact HN.
Qed.

Lemma C5_prefix_and_bound_witness :
  let s := {| TopTable.q := ""; TopTable.topN := of_Z 5 |} in
  number_le (of_Z 0) (TopTable.topN s) = true /\
  TopTable.q s = "" /\
  number_le (of_nat (List.length Sample.top3)) (TopTable.topN s) = true /\
  number_le (of_nat (List.length (TopTable.filtered (Some Sample.top3) s)))
            (number_min (TopTable.topN s)
               (of_nat (List.length
                  (filter (TopTable.keep (TopTable.q s)) Sample.top3))))
  = true /\
  TopTable.filtered (Some Sample.top3) s = Sample.top3.
Proof.
  intros s.
  destruct (C5_prefix_and_bound (Some Sample.top3) s) as [_ [Hb Ha]].
  split; [reflexivity | ]. split; [reflexivity | ].
  split; [reflexivity | ]. split.
  - apply Hb. reflexivity.
  - apply Ha; reflexivity.
Defined.

(** C6: typing -1 into the row-limit box of a three-row table leaves two
    rows on screen, although the limit is not positive. *)
Theorem C6_negative_limit_shows_rows :
  let s := TopTable.step TopTable.init (TopTable.ChangeTopN "-1") in
  number_le (TopTable.topN s) (of_Z 0) = true /\
  map TopTable.ticker (TopTable.filtered (Some Sample.top3) s)
  = ["AAPL"; "MSFT"] /\
  map fst (TopTable.body (Some Sample.top3) s) = [1; 2].
Proof. vm_compute. auto. Qed.

(** The other edge cases of the table hold: no data gives an empty body; a
    limit of 0, or any limit that truncates to 0 such as NaN, shows nothing;
    whatever text is typed into the number box, the state that results is a
    state of the table with a number in [topN]. *)
Lemma table_edge_cases (s : TopTable.state) :
  TopTable.body None s = [] /\
  TopTable.body (Some []) s = [] /\
  (forall data q,
      TopTable.filtered data {| TopTable.q := q; TopTable.topN := of_Z 0 |}
      = []) /\
  (forall data q,
      TopTable.filtered data {| TopTable.q := q; TopTable.topN := NaN |}
      = []) /\
  (forall text,
      TopTable.step s (TopTable.ChangeTopN text)
      = {| TopTable.q := TopTable.q s; TopTable.topN := Number text |}) /\
  Number "abc" = NaN /\
  TopTable.filtered (Some Sample.top3)
    (TopTable.step s (TopTable.ChangeTopN "abc")) = [].
Proof.
  split; [apply TopTableFacts.filtered_no_data; reflexivity | ].
  split; [apply TopTableFacts.filtered_no_data; reflexivity | ].
  split; [intros; apply TopTableFacts.filtered_zero; reflexivity | ].
  split; [intros; apply TopTableFacts.filtered_zero; reflexivity | ].
  split; [reflexivity | ].
  split; [reflexivity | ].
  apply TopTableFacts.filtered_zero. reflexivity.
Qed.

(** ** The Detail View *)

Module TickerDetailFacts.
Import TickerDetail.

(** Case analysis on the next [match] or [if] of the goal. *)
Ltac break_match :=
  match goal with
  | |- context [match ?x with _ => _ end] => destruct x eqn:?
  end.

Lemma ticker_is_eq (a b : option string) : ticker_is a b = true <-> a = b.
Proof.
  destruct a as [x|], b as [y|]; simpl;
    try (split; intros H; (reflexivity || discriminate H)).
  rewrite String.eqb_eq. split; [intros -> | intros [= ->]]; reflexivity.
Qed.

Lemma ticker_is_refl (a : option string) : ticker_is a a = true.
Proof. apply ticker_is_eq. reflexivity. Qed.

(** A truthy value can be read from. *)
Lemma get_truthy (d : value) (name : string) :
  truthy d = true -> exists h, get d name = Ok h.
Proof. destruct d; simpl; intros H; try discriminate H; eauto. Qed.

(** *** What one render-and-commit pass leaves alone *)

Lemma effect1_keeps (s : state) :
  ticker (effect1 s) = ticker s /\ data (effect1 s) = data s /\
  data_stamp (effect1 s) = data_stamp s /\
  status_of (effect1 s) = status_of s /\
  cleanup (effect1 s) = cleanup s /\ charts (effect1 s) = charts s /\
  next_chart (effect1 s) = next_chart s /\ console (effect1 s) = console s /\
  deps2 (effect1 s) = deps2 s.
Proof. unfold effect1. break_match; simpl; auto 10. Qed.

(** The second effect either returns early or builds exactly one chart. *)
Lemma effect2_cases (canvas : bool) (s s' : state) :
  effect2 canvas s = Ok s' ->
  s' = s \/
  (exists ls cs h,
      s' = new_Chart ls cs s /\ canvas = true /\ truthy (data s) = true /\
      get (data s) "history" = Ok h /\ truthy h = true /\
      map_prop h "Date" = Ok ls /\ map_prop h "Close" = Ok cs).
Proof.
  unfold effect2. destruct (truthy (data s)) eqn:Hd; simpl.
  2:{ intros [= <-]. left. reflexivity. }
  destruct (get (data s) "history") as [h|e] eqn:Hh; simpl; [ | discriminate].
  destruct (truthy h) eqn:Ht; simpl.
  2:{ intros [= <-]. left. reflexivity. }
  destruct canvas; simpl.
  2:{ intros [= <-]. left. reflexivity. }
  destruct (map_prop h "Date") as [ls|e] eqn:Hl; simpl; [ | discriminate].
  destruct (map_prop h "Close") as [cs|e] eqn:Hc; simpl; [ | discriminate].
  intros [= <-]. right. exists ls, cs, h. auto 10.
Qed.

Lemma effect2_keeps (canvas : bool) (s s' : state) :
  effect2 canvas s = Ok s' ->
  ticker s' = ticker s /\ data s' = data s /\
  data_stamp s' = data_stamp s /\ status_of s' = status_of s /\
  inflight s' = inflight s /\ issued s' = issued s /\
  console s' = console s /\ next_fetch s' = next_fetch s /\
  deps1 s' = deps1 s.
Proof.
  intros H. destruct (effect2_cases _ _ _ H) as [-> | [ls [cs [h [-> _]]]]];
    simpl; auto 10.
Qed.

Lemma commit_keeps (force : bool) (s : state) :
  ticker (commit force s) = ticker s /\ data (commit force s) = data s /\
  data_stamp (commit force s) = data_stamp s /\
  console (commit force s) = console s.
Proof.
  pose proof (effect1_keeps s) as E1.
  pose proof (effect1_keeps (run_cleanup s)) as E1'.
  unfold commit, crash.
  destruct (render (ticker s) (data s)) as [v|e]; [ | simpl; auto].
  destruct (force || negb (ticker_is (deps1 s) (ticker s)));
    destruct (force || negb (deps2_same s)); cbv zeta.
  - destruct (effect2 _ _) as [s3|e] eqn:H2.
    + apply effect2_keeps in H2. simpl in *. intuition congruence.
    + simpl in *. intuition congruence.
  - simpl in *. intuition congruence.
  - destruct (effect2 _ _) as [s3|e] eqn:H2.
    + apply effect2_keeps in H2. simpl in *. intuition congruence.
    + simpl. auto.
  - auto.
Qed.

Lemma commit_requests (force : bool) (s : state) :
  issued (commit force s)
  = issued s ++ (if fetches force s then [detail_url (ticker s)] else [])
  /\
  inflight (commit force s)
  = inflight s ++
    (if fetches force s then [(next_fetch s, detail_url (ticker s))] else []).
Proof.
  unfold commit, fetches.
  destruct (render (ticker s) (data s)) as [v|e];
    [ | simpl; rewrite !app_nil_r; auto].
  assert (E : forall (b : bool) (s0 : state),
             issued (if b then run_cleanup s0 else s0) = issued s0 /\
             inflight (if b then run_cleanup s0 else s0) = inflight s0 /\
             ticker (if b then run_cleanup s0 else s0) = ticker s0 /\
             next_fetch (if b then run_cleanup s0 else s0) = next_fetch s0)
    by (intros [|] s0; simpl; auto).
  destruct (E (force || negb (deps2_same s)) s) as (Ei & Ef & Et & En).
  remember (if force || negb (deps2_same s) then run_cleanup s else s)
    as s1 eqn:Hs1.
  clear Hs1. cbv zeta.
  remember (if force || negb (ticker_is (deps1 s) (ticker s))
            then set_deps (ticker s1) (deps2 s1) (effect1 s1) else s1)
    as s2 eqn:Hs2.
  assert (K : issued s2
              = issued s ++
                (if (force || negb (ticker_is (deps1 s) (ticker s)))
                    && ticker_truthy (ticker s)
                 then [detail_url (ticker s)] else []) /\
              inflight s2
              = inflight s ++
                (if (force || negb (ticker_is (deps1 s) (ticker s)))
                    && ticker_truthy (ticker s)
                 then [(next_fetch s, detail_url (ticker s))] else [])).
  { subst s2. destruct (force || negb (ticker_is (deps1 s) (ticker s))).
    - cbn [issued inflight set_deps andb]. unfold effect1. rewrite Et.
      destruct (ticker_truthy (ticker s)); cbn [negb].
      + cbn [issued inflight fetch]. rewrite Ei, Ef, En. auto.
      + rewrite Ei, Ef, !app_nil_r. auto.
    - cbn [andb]. rewrite Ei, Ef, !app_nil_r. auto. }
  destruct K as [Ki Kf].
  destruct (force || negb (deps2_same s)); [ | exact (conj Ki Kf)].
  destruct (effect2 _ s2) as [s3|e] eqn:H2.
  - apply effect2_keeps in H2.
    destruct H2 as (_ & _ & _ & _ & Hf & Hi & _).
    cbn [issued inflight set_deps]. rewrite Hf, Hi. auto.
  - unfold crash. cbn [issued inflight set_status run_cleanup]. auto.
Qed.

Lemma reachable_run (s : state) (evs : list event) :
  reachable s -> reachable (run s evs).
Proof.
  revert s; induction evs as [|ev evs IH]; intros s H; simpl.
  - exact H.
  - apply IH. apply reach_step. exact H.
Qed.

Lemma run_cleanup_empty (s : state) :
  chart_inv s ->
  charts (run_cleanup s) = [] /\ cleanup (run_cleanup s) = None.
Proof.
  intros [[Hc Hk] | [c [Hc [Hk _]]]]; simpl; rewrite Hc, Hk; simpl.
  - auto.
  - rewrite Nat.eqb_refl. simpl. auto.
Qed.

Lemma deps2_same_eq (s : state) :
  deps2_same s = true <-> deps2 s = (data_stamp s, ticker s).
Proof.
  unfold deps2_same. destruct (deps2 s) as [n t]. simpl.
  rewrite andb_true_iff, Nat.eqb_eq, ticker_is_eq.
  split; [intros [-> ->]; reflexivity | intros [= -> ->]; auto].
Qed.

Lemma render_canvas (t : option string) (d : value) (v : view) :
  render t d = Ok v -> has_canvas v = true -> ticker_truthy t = true.
Proof.
  unfold render. destruct (ticker_truthy t); simpl; [reflexivity | ].
  intros [= <-]. simpl. auto.
Qed.

(** A crash leaves no chart behind. *)
Lemma Inv_crash (e : exn) (s : state) : chart_inv s -> Inv (crash e s).
Proof.
  intros Hc. destruct (run_cleanup_empty s Hc) as [H1 H2].
  unfold crash. split.
  - left. simpl in *. auto.
  - simpl. discriminate.
  - intros H. exfalso. apply H. simpl in *. exact H1.
Qed.

(** One pass re-establishes the invariant. *)
Lemma Inv_commit (force : bool) (s : state) :
  chart_inv s ->
  is_mounted (status_of s) = true ->
  (charts s <> [] -> deps2_same s = true -> chart_ok (ticker s) (data s)) ->
  Inv (commit force s).
Proof.
  intros Hc Hm Hlive.
  destruct (run_cleanup_empty s Hc) as [Hrc Hrk].
  pose proof (effect1_keeps s) as E1.
  pose proof (effect1_keeps (run_cleanup s)) as E1'.
  unfold commit.
  destruct (render (ticker s) (data s)) as [v|e] eqn:Hr;
    [ | apply Inv_crash; exact Hc].
  destruct (force || negb (deps2_same s)) eqn:R2; cbv zeta.
  - (* the second effect runs: cleanup, then at most one new chart *)
    set (s2 := if force || negb (ticker_is (deps1 s) (ticker s))
               then set_deps (ticker (run_cleanup s)) (deps2 (run_cleanup s))
                             (effect1 (run_cleanup s))
               else run_cleanup s).
    assert (K : ticker s2 = ticker s /\ data s2 = data s /\
                status_of s2 = status_of s /\ charts s2 = [] /\
                cleanup s2 = None /\ deps1 s2 = ticker s).
    { subst s2.
      destruct (force || negb (ticker_is (deps1 s) (ticker s))) eqn:R1.
      - simpl in *. intuition congruence.
      - simpl in *. repeat split; auto.
        destruct force; [discriminate R1 | ]. simpl in R1.
        apply negb_false_iff, ticker_is_eq in R1. exact R1. }
    destruct K as (Kt & Kd & Ks & Kc & Kk & K1).
    destruct (effect2 (has_canvas v) s2) as [s3|e] eqn:H2.
    + destruct (effect2_cases _ _ _ H2)
        as [-> | (ls & cs & h & -> & Hv & Htd & Hg & Hth & _)].
      * split; simpl.
        -- left. auto.
        -- intros _. rewrite K1, Kt. auto.
        -- intros H. exfalso. apply H. exact Kc.
      * split; simpl.
        -- right. eexists. simpl. rewrite Kc. split; [reflexivity | ].
           simpl. split; [reflexivity | lia].
        -- intros _. rewrite K1, Kt. auto.
        -- intros _. rewrite Ks, Kt, Kd. split; [exact Hm | ].
           split; [eapply render_canvas; eauto | ].
           rewrite Kd in Htd, Hg. split; [exact Htd | eauto].
    + apply Inv_crash. left. auto.
  - (* the second effect does not run: the chart, if any, is kept *)
    destruct force; [discriminate R2 | ]. simpl in R2.
    apply negb_false_iff in R2.
    assert (D2 := proj1 (deps2_same_eq s) R2).
    destruct (false || negb (ticker_is (deps1 s) (ticker s))) eqn:R1.
    + destruct E1 as (Et & Ed & Es & Est & Ek & Ec & En & _ & E2).
      split; simpl.
      * unfold chart_inv. simpl. rewrite Ec, Ek, En. exact Hc.
      * intros _. rewrite Et, Es. auto.
      * rewrite Ec, Est, Et, Ed. intros H. split; [exact Hm | auto].
    + simpl in R1. apply negb_false_iff, ticker_is_eq in R1.
      split; auto.
Qed.

Lemma Inv_mount (t : option string) : Inv (mount t).
Proof.
  apply Inv_commit; simpl.
  - left. auto.
  - reflexivity.
  - intros H. exfalso. apply H. reflexivity.
Qed.

Lemma Inv_settled (id : nat) (s : state) : Inv s -> Inv (settled id s).
Proof. intros [Hc Hd Hl]. split; assumption. Qed.

Lemma Inv_console_error (e : exn) (s : state) :
  Inv s -> Inv (console_error e s).
Proof. intros [Hc Hd Hl]. split; assumption. Qed.

Lemma Inv_step (s : state) (ev : event) : Inv s -> Inv (step s ev).
Proof.
  intros HI. pose proof HI as [Hc Hd Hl].
  destruct ev as [t | id o | ]; simpl.
  - destruct (is_mounted (status_of s)) eqn:Hm; [ | exact HI].
    destruct (Hd eq_refl) as [D1 D2].
    apply Inv_commit; simpl; auto.
    intros Hne Hsame. apply deps2_same_eq in Hsame. simpl in Hsame.
    rewrite D2 in Hsame. injection Hsame as <-. apply Hl. exact Hne.
  - unfold settle. destruct (is_inflight id s); simpl; [ | exact HI].
    pose proof (Inv_settled id s HI) as Hs.
    destruct o as [e | e | j];
      try (apply Inv_console_error; exact Hs).
    unfold setData. cbn [status_of settled data].
    destruct (is_mounted (status_of s)) eqn:Hm; simpl; [ | exact Hs].
    destruct (prim_is j (data s)); [exact Hs | ].
    destruct (Hd eq_refl) as [D1 D2].
    apply Inv_commit; simpl; auto.
    intros _ Hsame. apply deps2_same_eq in Hsame. simpl in Hsame.
    rewrite D2 in Hsame. injection Hsame as Hsame. lia.
  - destruct (is_mounted (status_of s)) eqn:Hm; [ | exact HI].
    destruct (run_cleanup_empty s Hc) as [H1 H2].
    split; simpl in *.
    + left. auto.
    + discriminate.
    + intros H. exfalso. apply H. exact H1.
Qed.

Lemma reachable_Inv (s : state) : reachable s -> Inv s.
Proof.
  induction 1 as [t | s ev _ IH]; [apply Inv_mount | apply Inv_step, IH].
Qed.

(** *** When the effects and the render go through *)

Lemma effect2_no_canvas (s : state) : effect2 false s = Ok s.
Proof.
  unfold effect2. destruct (truthy (data s)) eqn:Hd; simpl; [ | reflexivity].
  destruct (get_truthy _ "history" Hd) as [h ->]. simpl.
  destruct (truthy h); reflexivity.
Qed.

Lemma map_get_points (items : list value) (name : string) :
  forallb is_point items = true -> exists xs, map_get items name = Ok xs.
Proof.
  induction items as [|h items IH]; simpl; [eauto | ].
  rewrite andb_true_iff. intros [Hh Hi]. destruct (IH Hi) as [xs ->].
  destruct h; simpl in *; try discriminate Hh; eauto.
Qed.

Lemma map_prop_history (h : value) (name : string) :
  history_ok h = true -> truthy h = true ->
  exists xs, map_prop h name = Ok xs.
Proof.
  destruct h; simpl; intros H1 H2; try discriminate;
    try (rewrite H2 in H1; discriminate H1).
  apply map_get_points. exact H1.
Qed.

(** The second effect does not throw on a history of the data model. *)
Lemma effect2_total (canvas : bool) (s : state) :
  (canvas = true -> truthy (data s) = true ->
   exists h, get (data s) "history" = Ok h /\ history_ok h = true) ->
  exists s', effect2 canvas s = Ok s'.
Proof.
  destruct canvas; [ | intros _; rewrite effect2_no_canvas; eauto].
  intros H. unfold effect2.
  destruct (truthy (data s)) eqn:Hd; simpl; [ | eauto].
  destruct (H eq_refl eq_refl) as [h [-> Hh]]. simpl.
  destruct (truthy h) eqn:Ht; simpl; [ | eauto].
  destruct (map_prop_history h "Date" Hh Ht) as [ls ->].
  destruct (map_prop_history h "Close" Hh Ht) as [cs ->].
  simpl. eauto.
Qed.

(** A pass whose render and second effect go through leaves the component
    mounted. *)
Lemma commit_status (force : bool) (s : state) (v : view) :
  render (ticker s) (data s) = Ok v ->
  (has_canvas v = true -> truthy (data s) = true ->
   exists h, get (data s) "history" = Ok h /\ history_ok h = true) ->
  status_of (commit force s) = status_of s.
Proof.
  intros Hr Hh. pose proof (effect1_keeps s) as E1.
  pose proof (effect1_keeps (run_cleanup s)) as E1'.
  unfold commit. rewrite Hr.
  destruct (force || negb (deps2_same s)); cbv zeta.
  - match goal with
    | |- context [effect2 ?c ?x] =>
        destruct (effect2_total c x) as [s3 H3]
    end.
    { intros Hc. destruct (_ || _); simpl in *.
      - destruct E1' as (_ & -> & _). auto.
      - auto. }
    rewrite H3. apply effect2_keeps in H3. cbn [status_of set_deps].
    destruct H3 as (_ & _ & _ & -> & _).
    destruct (_ || _); simpl in *; intuition congruence.
  - destruct (_ || _); simpl in *; intuition congruence.
Qed.

Lemma render_prompt (t : option string) (d : value) :
  ticker_truthy t = false -> render t d = Ok SelectPrompt.
Proof. unfold render. intros ->. reflexivity. Qed.

Lemma render_loading (t : option string) (d : value) :
  ticker_truthy t = true -> truthy d = false ->
  render t d = Ok (Loading (template t)).
Proof. unfold render. intros -> ->. reflexivity. Qed.

Lemma render_loaded (t : option string) (props ind : list (string * value)) :
  ticker_truthy t = true ->
  lookup "indicators" props = VObj ind ->
  indicators_ok ind = true ->
  render t (VObj props) = Ok (loaded t ind).
Proof.
  unfold render, indicators_ok, loaded. intros -> Hi H.
  rewrite !andb_true_iff in H. destruct H as [[[H1 H2] H3] H4].
  simpl. rewrite Hi. simpl. unfold child.
  rewrite H1, H2, H3, H4. reflexivity.
Qed.


(** A well-formed artifact renders, and its history can be charted. *)
Lemma well_formed_renders (t : option string) (j : value) :
  well_formed j = true ->
  (exists v, render t j = Ok v) /\
  exists h, get j "history" = Ok h /\ history_ok h = true.
Proof.
  destruct j as [| | | | | |props]; simpl; try discriminate.
  destruct (lookup "indicators" props) as [| | | | | |ind] eqn:Hi;
    try discriminate.
  rewrite andb_true_iff. intros [H1 H2]. split; [ | eauto].
  destruct (ticker_truthy t) eqn:Ht.
  - rewrite (render_loaded t props ind Ht Hi H1). eauto.
  - rewrite render_prompt by exact Ht. eauto.
Qed.

Lemma commit_well_formed (force : bool) (s : state) :
  well_formed (data s) = true \/ truthy (data s) = false ->
  status_of (commit force s) = status_of s.
Proof.
  intros [H | H].
  - destruct (well_formed_renders (ticker s) _ H) as [[v Hv] Hh].
    apply commit_status with (v := v); auto.
  - destruct (ticker_truthy (ticker s)) eqn:Ht.
    + apply commit_status with (v := Loading (template (ticker s))).
      * apply render_loading; assumption.
      * discriminate.
    + apply commit_status with (v := SelectPrompt).
      * apply render_prompt; assumption.
      * discriminate.
Qed.

(** *** Charts across a pass *)

(** The state in which the second effect starts once its cleanup has run:
    no chart is live. *)
Lemma after_cleanup (b : bool) (s : state) :
  chart_inv s ->
  let s2 := if b
            then set_deps (ticker (run_cleanup s)) (deps2 (run_cleanup s))
                          (effect1 (run_cleanup s))
            else run_cleanup s in
  charts s2 = [] /\ cleanup s2 = None /\ next_chart s2 = next_chart s.
Proof.
  intros Hc. destruct (run_cleanup_empty s Hc) as [Hrc Hrk].
  pose proof (effect1_keeps (run_cleanup s)) as E1.
  destruct E1 as (_ & _ & _ & _ & Ek & Ec & En & _).
  destruct b; cbv zeta.
  - cbn [charts cleanup next_chart set_deps]. rewrite Ek, Ec, En. auto.
  - auto.
Qed.

(** A chart outlives a pass only if the second effect did not run. *)
Lemma commit_survivor (force : bool) (s : state) (c : Chart) :
  chart_inv s ->
  In c (charts s) -> In c (charts (commit force s)) ->
  force = false /\ deps2_same s = true.
Proof.
  intros Hc Hin Hin'.
  assert (Hid : chart_id c < next_chart s).
  { destruct Hc as [[Hc _] | [c0 [Hc [_ Hlt]]]]; rewrite Hc in Hin.
    - destruct Hin.
    - destruct Hin as [<- | []]. exact Hlt. }
  unfold commit in Hin'. revert Hin'.
  destruct (render _ _).
  2:{ unfold crash. cbn [charts set_status].
      rewrite (proj1 (run_cleanup_empty s Hc)). intros []. }
  destruct (force || negb (deps2_same s)) eqn:R2; cbv zeta.
  - pose proof (after_cleanup
                  (force || negb (ticker_is (deps1 s) (ticker s))) s Hc) as K.
    cbv zeta in K.
    set (s2 := if force || negb (ticker_is (deps1 s) (ticker s))
               then set_deps (ticker (run_cleanup s)) (deps2 (run_cleanup s))
                             (effect1 (run_cleanup s))
               else run_cleanup s) in *.
    destruct K as (Kc & Kk & Kn).
    destruct (effect2 _ s2) as [s3|e] eqn:H2.
    + destruct (effect2_cases _ _ _ H2) as [-> | (ls & cs & h & -> & _)];
        cbn [charts set_deps new_Chart]; rewrite Kc.
      * intros [].
      * intros [<- | []]. simpl in Hid. lia.
    + unfold crash. cbn [charts set_status].
      rewrite (proj1 (run_cleanup_empty s2 (or_introl (conj Kc Kk)))).
      intros [].
  - intros _. destruct force; [discriminate R2 | ]. simpl in R2.
    apply negb_false_iff in R2. auto.
Qed.

(** A pass builds a chart only if the conditions of the second effect
    hold. *)
Lemma commit_builds (force : bool) (s : state) :
  next_chart (commit force s) <> next_chart s ->
  chart_ok (ticker s) (data s).
Proof.
  pose proof (effect1_keeps s) as E1.
  pose proof (effect1_keeps (run_cleanup s)) as E1'.
  unfold commit.
  destruct (render _ _) as [v|e] eqn:Hr;
    [ | intros H; exfalso; apply H; reflexivity].
  destruct (force || negb (deps2_same s)); cbv zeta.
  - set (s2 := if force || negb (ticker_is (deps1 s) (ticker s))
               then set_deps (ticker (run_cleanup s)) (deps2 (run_cleanup s))
                             (effect1 (run_cleanup s))
               else run_cleanup s).
    assert (K : next_chart s2 = next_chart s /\ data s2 = data s).
    { subst s2. destruct (_ || _); simpl in *; intuition congruence. }
    destruct K as [Kn Kd].
    destruct (effect2 _ s2) as [s3|e] eqn:H2.
    + destruct (effect2_cases _ _ _ H2)
        as [-> | (ls & cs & h & -> & Hv & Htd & Hg & Hth & _)].
      * intros H. exfalso. apply H. simpl. exact Kn.
      * intros _. rewrite Kd in Htd, Hg. split; [ | split; eauto].
        eapply render_canvas; eauto.
    + intros H. exfalso. apply H. simpl. exact Kn.
  - intros H. exfalso. apply H.
    destruct (_ || _); simpl in *; intuition congruence.
Qed.

(** *** One event *)

Lemma mounted_status (s : state) :
  is_mounted (status_of s) = true <-> status_of s = Mounted.
Proof.
  destruct (status_of s); simpl; split; intros H;
    (reflexivity || discriminate H).
Qed.

Lemma prim_is_object (j d : value) : is_object j = true -> prim_is j d = false.
Proof. destruct j; simpl; intros H; try discriminate H; reflexivity. Qed.

Lemma well_formed_object (j : value) :
  well_formed j = true -> is_object j = true.
Proof. destruct j; simpl; intros H; try discriminate H; reflexivity. Qed.

Lemma is_inflight_settled (id id' : nat) (s : state) :
  id' <> id -> is_inflight id' (settled id s) = is_inflight id' s.
Proof.
  intros Hne. unfold is_inflight, settled. cbn [inflight].
  induction (inflight s) as [|[k u] l IH]; [reflexivity | ].
  cbn [filter existsb fst].
  destruct (Nat.eqb_spec k id) as [-> | Hk]; cbn [negb].
  - rewrite IH. destruct (Nat.eqb_spec id id'); [congruence | reflexivity].
  - cbn [existsb fst]. rewrite IH. reflexivity.
Qed.

Lemma is_inflight_commit (force : bool) (id : nat) (s : state) :
  is_inflight id s = true -> is_inflight id (commit force s) = true.
Proof.
  unfold is_inflight. destruct (commit_requests force s) as [_ ->].
  rewrite existsb_app. intros ->. reflexivity.
Qed.

(** An artifact that arrives for a fetch still in flight is stored. *)
Lemma step_parsed (s : state) (id : nat) (j : value) :
  is_mounted (status_of s) = true ->
  is_inflight id s = true ->
  is_object j = true ->
  step s (Settle id (Parsed j)) = commit false (store j (settled id s)).
Proof.
  intros Hm Hf Hj. cbn [step]. unfold settle, setData.
  rewrite Hf. cbn [negb status_of settled data].
  rewrite Hm, (prim_is_object j _ Hj). reflexivity.
Qed.

(** A failed fetch only writes to the console. *)
Lemma step_failed (s : state) (id : nat) (o : outcome value) (e : exn) :
  failure o = Some e ->
  is_inflight id s = true ->
  step s (Settle id o) = console_error e (settled id s).
Proof.
  intros Ho Hf. cbn [step]. unfold settle. rewrite Hf. cbn [negb].
  destruct o; simpl in Ho; try discriminate Ho; injection Ho as ->;
    reflexivity.
Qed.

(** Whatever the event, the state is left alone or goes through one
    pass. *)
Lemma step_cases (s : state) (ev : event) :
  (ticker (step s ev) = ticker s /\ data (step s ev) = data s /\
   status_of (step s ev) = status_of s /\ issued (step s ev) = issued s /\
   charts (step s ev) = charts s /\ next_chart (step s ev) = next_chart s) \/
  (ev = Unmount /\ is_mounted (status_of s) = true) \/
  (is_mounted (status_of s) = true /\
   exists s0, step s ev = commit false s0 /\
              status_of s0 = status_of s /\ issued s0 = issued s /\
              charts s0 = charts s /\ cleanup s0 = cleanup s /\
              next_chart s0 = next_chart s /\
              deps1 s0 = deps1 s /\ deps2 s0 = deps2 s /\
              ((exists t, ev = SetTicker t /\ ticker s0 = t /\
                          data s0 = data s /\
                          data_stamp s0 = data_stamp s) \/
               (exists id j, ev = Settle id (Parsed j) /\
                             ticker s0 = ticker s /\ data s0 = j /\
                             data_stamp s0 = S (data_stamp s)))).
Proof.
  destruct ev as [t | id o | ]; cbn [step].
  - destruct (is_mounted (status_of s)) eqn:Hm; [ | left; auto 10].
    right. right. split; [reflexivity | ].
    exists (set_ticker t s). simpl. repeat split; eauto 10.
  - unfold settle. destruct (is_inflight id s); cbn [negb]; [ | left; auto 10].
    destruct o as [e | e | j];
      [left; simpl; auto 10 | left; simpl; auto 10 | ].
    unfold setData. cbn [status_of settled data].
    destruct (is_mounted (status_of s)) eqn:Hm; cbn [negb];
      [ | left; simpl; auto 10].
    destruct (prim_is j (data s)); [left; simpl; auto 10 | ].
    right. right. split; [reflexivity | ].
    exists (store j (settled id s)). simpl. repeat split; eauto 10.
  - destruct (is_mounted (status_of s)) eqn:Hm; [ | left; auto 10].
    right. left. auto.
Qed.

Lemma chart_inv_same (s s0 : state) :
  charts s0 = charts s -> cleanup s0 = cleanup s ->
  next_chart s0 = next_chart s -> chart_inv s -> chart_inv s0.
Proof. unfold chart_inv. intros -> -> ->. auto. Qed.

Lemma commit_mounted_renders (force : bool) (s : state) :
  status_of (commit force s) = Mounted ->
  exists v, render (ticker s) (data s) = Ok v.
Proof.
  unfold commit. destruct (render _ _) as [v|e]; [eauto | ].
  simpl. discriminate.
Qed.

Lemma shown_mounted (s : state) (v : view) :
  status_of s = Mounted -> render (ticker s) (data s) = Ok v ->
  shown s = Some v.
Proof. unfold shown. intros -> ->. reflexivity. Qed.

(** The arrival of a well-formed artifact, for whichever fetch. *)
Lemma arrival (s : state) (id : nat) (j : value) :
  is_mounted (status_of s) = true ->
  is_inflight id s = true ->
  well_formed j = true ->
  let s' := step s (Settle id (Parsed j)) in
  data s' = j /\ ticker s' = ticker s /\ status_of s' = Mounted /\
  (exists v, render (ticker s) j = Ok v /\ shown s' = Some v) /\
  (forall id', id' <> id -> is_inflight id' s = true ->
               is_inflight id' s' = true).
Proof.
  intros Hm Hf Hj. cbv zeta.
  rewrite (step_parsed s id j Hm Hf (well_formed_object j Hj)).
  set (s0 := store j (settled id s)).
  destruct (commit_keeps false s0) as (Kt & Kd & _).
  assert (Ks : status_of (commit false s0) = Mounted).
  { rewrite commit_well_formed by (left; exact Hj).
    apply mounted_status. exact Hm. }
  split; [exact Kd | ]. split; [exact Kt | ]. split; [exact Ks | ].
  split.
  - destruct (well_formed_renders (ticker s) j Hj) as [[v Hv] _].
    exists v. split; [exact Hv | ].
    apply shown_mounted; [exact Ks | ]. rewrite Kt, Kd. exact Hv.
  - intros id' Hne Hf'. apply is_inflight_commit.
    rewrite <- (is_inflight_settled id id' s Hne) in Hf'. exact Hf'.
Qed.

End TickerDetailFacts.

(** C1, as stated, fails: AAPL is selected, then MSFT before AAPL's fetch
    has resolved; MSFT's artifact arrives, then AAPL's.  The view ends with
    MSFT selected and AAPL's artifact on display, chart included. *)
Lemma C1_stale_result_overwrites :
  let s := TickerDetail.run (TickerDetail.mount (Some "AAPL"))
             [TickerDetail.SetTicker (Some "MSFT");
              TickerDetail.Settle 1 (Parsed Sample.msft_detail);
              TickerDetail.Settle 0 (Parsed Sample.aapl_detail)] in
  TickerDetail.issued s = ["/data/AAPL.json"; "/data/MSFT.json"] /\
  TickerDetail.ticker s = Some "MSFT" /\
  TickerDetail.data s = Sample.aapl_detail /\
  TickerDetail.data s <> Sample.msft_detail /\
  TickerDetail.shown s
  = Some (TickerDetail.Loaded "MSFT"
            (VNum (of_Z 80)) (VStr "strong")
            (VNum (Finite (1901 # 10))) (VNum (of_Z 50000000))
            [("score_0_100", VNum (of_Z 80)); ("explanation", VStr "strong");
             ("last_close", VNum (Finite (1901 # 10)));
             ("avg_vol20", VNum (of_Z 50000000))]) /\
  map TickerDetail.dataset_data (TickerDetail.charts s)
  = [[VNum (Finite (188 # 1)); VNum (Finite (1901 # 10))]].
Proof.
  vm_compute. repeat split; try reflexivity. discriminate.
Qed.

(** C1 (amended): the result of a fetch is applied to the detail state when
    it arrives, whatever ticker is selected by then.  With the fetch for A
    ([idA]) and the fetch for B ([idB]) both in flight, A's artifact is
    stored and displayed under the current ticker as soon as it arrives, and
    after both have arrived the detail on display is that of the fetch that
    resolved last: B's if B's resolved last, A's otherwise. *)
Theorem C1_last_settled_result_is_displayed
        (s : TickerDetail.state) (idA idB : nat) (jA jB : value) :
  TickerDetail.is_mounted (TickerDetail.status_of s) = true ->
  idA <> idB ->
  TickerDetail.is_inflight idA s = true ->
  TickerDetail.is_inflight idB s = true ->
  TickerDetail.well_formed jA = true ->
  TickerDetail.well_formed jB = true ->
  let sA := TickerDetail.step s (TickerDetail.Settle idA (Parsed jA)) in
  let sAB := TickerDetail.step sA (TickerDetail.Settle idB (Parsed jB)) in
  let sB := TickerDetail.step s (TickerDetail.Settle idB (Parsed jB)) in
  let sBA := TickerDetail.step sB (TickerDetail.Settle idA (Parsed jA)) in
  (TickerDetail.data sA = jA /\
   TickerDetail.ticker sA = TickerDetail.ticker s /\
   exists v, TickerDetail.render (TickerDetail.ticker s) jA = Ok v /\
             TickerDetail.shown sA = Some v) /\
  (TickerDetail.data sAB = jB /\
   TickerDetail.ticker sAB = TickerDetail.ticker s) /\
  (TickerDetail.data sBA = jA /\
   TickerDetail.ticker sBA = TickerDetail.ticker s /\
   exists v, TickerDetail.render (TickerDetail.ticker s) jA = Ok v /\
             TickerDetail.shown sBA = Some v).
Proof.
  intros Hm Hne HfA HfB HjA HjB.
  destruct (TickerDetailFacts.arrival s idA jA Hm HfA HjA)
    as (A1 & A2 & A3 & A4 & A5).
  destruct (TickerDetailFacts.arrival s idB jB Hm HfB HjB)
    as (B1 & B2 & B3 & B4 & B5).
  cbv zeta. split; [auto | ].
  apply TickerDetailFacts.mounted_status in A3, B3.
  split.
  - destruct (TickerDetailFacts.arrival _ idB jB A3
                (A5 idB (fun H => Hne (eq_sym H)) HfB) HjB)
      as (C1 & C2 & _).
    split; [exact C1 | congruence].
  - destruct (TickerDetailFacts.arrival _ idA jA B3 (B5 idA Hne HfA) HjA)
      as (C1 & C2 & _ & C4 & _).
    rewrite B2 in C4. split; [exact C1 | ]. split; [congruence | exact C4].
Qed.

Lemma C1_last_settled_result_is_displayed_witness :
  let s := TickerDetail.step (TickerDetail.mount (Some "AAPL"))
             (TickerDetail.SetTicker (Some "MSFT")) in
  let sBA := TickerDetail.step
               (TickerDetail.step s
                  (TickerDetail.Settle 1 (Parsed Sample.msft_detail)))
               (TickerDetail.Settle 0 (Parsed Sample.aapl_detail)) in
  TickerDetail.data sBA = Sample.aapl_detail /\
  TickerDetail.ticker sBA = Some "MSFT".
Proof.
  intros s sBA.
  destruct (C1_last_settled_result_is_displayed s 0 1
              Sample.aapl_detail Sample.msft_detail)
    as (_ & _ & H1 & H2 & _);
    [reflexivity | discriminate | reflexivity | reflexivity
     | reflexivity | reflexivity | ].
  split; [exact H1 | exact H2].
Defined.




(** C3: in every state a mounted Detail View can reach, whatever the
    sequence of ticker selections and fetch results, at most one chart is
    live; and a chart is still live after an event only if that event
    changed neither the ticker nor the data: when either changes, the chart
    of the previous series is destroyed in the same pass, before a new one
    is built. *)
Theorem C3_at_most_one_live_chart
        (t0 : option string) (evs : list TickerDetail.event) :
  let s := TickerDetail.run (TickerDetail.mount t0) evs in
  List.length (TickerDetail.charts s) <= 1 /\
  (forall ev c,
      In c (TickerDetail.charts s) ->
      In c (TickerDetail.charts (TickerDetail.step s ev)) ->
      TickerDetail.ticker (TickerDetail.step s ev) = TickerDetail.ticker s /\
      TickerDetail.data (TickerDetail.step s ev) = TickerDetail.data s).
Proof.
  cbv zeta. set (s := TickerDetail.run _ _).
  assert (Hr : TickerDetail.reachable s)
    by apply TickerDetailFacts.reachable_run, TickerDetail.reach_mount.
  destruct (TickerDetailFacts.reachable_Inv s Hr) as [Hc Hd _].
  split.
  - destruct Hc as [[-> _] | [c [-> _]]]; simpl; lia.
  - intros ev c Hin Hin'.
    destruct (TickerDetailFacts.step_cases s ev)
      as [(Ht & Hda & _) | [[-> Hm] | (Hm & s0 & Hs0 & _ & _ & Hch & Hcl & Hn
                                        & _ & H2 & Hev)]].
    + auto.
    + exfalso. cbn [TickerDetail.step] in Hin'. rewrite Hm in Hin'.
      cbn [TickerDetail.charts TickerDetail.set_status] in Hin'.
      rewrite (proj1 (TickerDetailFacts.run_cleanup_empty s Hc)) in Hin'.
      exact Hin'.
    + rewrite Hs0 in *.
      assert (Hc0 : TickerDetail.chart_inv s0)
        by (eapply TickerDetailFacts.chart_inv_same; eauto).
      rewrite <- Hch in Hin.
      destruct (TickerDetailFacts.commit_survivor false s0 c Hc0 Hin Hin')
        as [_ Hsame].
      apply TickerDetailFacts.deps2_same_eq in Hsame.
      destruct (Hd Hm) as [_ D2]. rewrite H2, D2 in Hsame.
      injection Hsame as Hst Htk.
      destruct (TickerDetailFacts.commit_keeps false s0) as (Kt & Kd & _).
      rewrite Kt, Kd.
      destruct Hev as [(t & _ & _ & Hda & _) | (id & j & _ & _ & _ & Hst')].
      * auto.
      * exfalso. lia.
Qed.
Lemma C3_at_most_one_live_chart_witness :
  let s := TickerDetail.run (TickerDetail.mount (Some "AAPL"))
             [TickerDetail.Settle 0 (Parsed Sample.aapl_detail)] in
  let ev := TickerDetail.SetTicker (Some "AAPL") in
  List.length (TickerDetail.charts s) = 1 /\
  TickerDetail.charts (TickerDetail.step s ev) = TickerDetail.charts s /\
  TickerDetail.ticker (TickerDetail.step s ev) = TickerDetail.ticker s /\
  TickerDetail.data (TickerDetail.step s ev) = TickerDetail.data s.
Proof.
  intros s ev.
  destruct (C3_at_most_one_live_chart (Some "AAPL")
              [TickerDetail.Settle 0 (Parsed Sample.aapl_detail)])
    as [_ H].
  split; [reflexivity | ]. split; [reflexivity | ].
  apply (H ev {| TickerDetail.chart_id := 0;
                 TickerDetail.labels := [VStr "2024-01-01"; VStr "2024-01-02"];
                 TickerDetail.dataset_label := "AAPL Close";
                 TickerDetail.dataset_data :=
                   [VNum (Finite (188 # 1)); VNum (Finite (1901 # 10))] |});
    left; reflexivity.
Defined.


(** C8: a ticker that is none (or empty) renders the select-a-ticker prompt
    whatever else the state holds; the view mounts into it without a fetch;
    and an event after which the ticker is none issues no fetch and leaves
    the prompt on screen. *)
Theorem C8_no_selection :
  (forall d, TickerDetail.render None d = Ok TickerDetail.SelectPrompt) /\
  (TickerDetail.shown (TickerDetail.mount None)
   = Some TickerDetail.SelectPrompt /\
   TickerDetail.issued (TickerDetail.mount None) = []) /\
  (forall s ev,
      TickerDetail.ticker_truthy
        (TickerDetail.ticker (TickerDetail.step s ev)) = false ->
      TickerDetail.issued (TickerDetail.step s ev) = TickerDetail.issued s /\
      (TickerDetail.is_mounted (TickerDetail.status_of s) = true ->
       ev <> TickerDetail.Unmount ->
       TickerDetail.shown (TickerDetail.step s ev)
       = Some TickerDetail.SelectPrompt)).
Proof.
  split; [reflexivity | ]. split; [split; reflexivity | ].
  intros s ev Hf.
  destruct (TickerDetailFacts.step_cases s ev)
    as [(Ht & Hd & Hs & Hi & _) | [[-> Hm] | (Hm & s0 & Hs0 & Hst & Hi & _)]].
  - split; [exact Hi | ]. intros Hm _.
    apply TickerDetailFacts.shown_mounted.
    + rewrite Hs. apply TickerDetailFacts.mounted_status. exact Hm.
    + apply TickerDetailFacts.render_prompt. exact Hf.
  - split; [ | intros _ H; contradiction].
    cbn [TickerDetail.step]. rewrite Hm. reflexivity.
  - rewrite Hs0 in *.
    destruct (TickerDetailFacts.commit_keeps false s0) as (Kt & Kd & _).
    rewrite Kt in Hf.
    pose proof (TickerDetailFacts.render_prompt _ (TickerDetail.data s0) Hf)
      as Hr.
    split.
    + destruct (TickerDetailFacts.commit_requests false s0) as [-> _].
      unfold TickerDetail.fetches. rewrite Hr, Hf, andb_false_r, app_nil_r.
      exact Hi.
    + intros _ _. apply TickerDetailFacts.shown_mounted.
      * rewrite (TickerDetailFacts.commit_status false s0 _ Hr)
          by discriminate.
        rewrite Hst. apply TickerDetailFacts.mounted_status. exact Hm.
      * rewrite Kt, Kd. exact Hr.
Qed.

Lemma C8_no_selection_witness :
  let s := TickerDetail.step (TickerDetail.mount (Some "AAPL"))
             (TickerDetail.Settle 0 (Parsed Sample.aapl_detail)) in
  let s' := TickerDetail.step s (TickerDetail.SetTicker None) in
  TickerDetail.issued s' = ["/data/AAPL.json"] /\
  TickerDetail.shown s' = Some TickerDetail.SelectPrompt.
Proof.
  intros s s'.
  destruct C8_no_selection as (_ & _ & H).
  destruct (H s (TickerDetail.SetTicker None)) as [H1 H2]; [reflexivity | ].
  split.
  - exact H1.
  - apply H2; [reflexivity | discriminate].
Defined.


(** ** The Application Shell *)

Module AppFacts.
Import App.

Lemma run_app (s : state) (evs1 evs2 : list event) :
  run s (evs1 ++ evs2) = run (run s evs1) evs2.
Proof. apply fold_left_app. Qed.

Lemma run_cons (s : state) (ev : event) (evs : list event) :
  run s (ev :: evs) = run (step s ev) evs.
Proof. reflexivity. Qed.

Lemma run_invariant (P : state -> Prop) (s : state) (evs : list event) :
  (forall s ev, In ev evs -> P s -> P (step s ev)) ->
  P s -> P (run s evs).
Proof.
  revert s; induction evs as [|ev evs IH]; intros s Hstep Hs; simpl.
  - exact Hs.
  - apply IH.
    + intros s' ev' Hin. apply Hstep. right. exact Hin.
    + apply Hstep; [left; reflexivity | exact Hs].
Qed.

(** Nothing the shell does after mounting issues a request of its own. *)
Lemma step_issued (s : state) (ev : event) : issued (step s ev) = issued s.
Proof.
  destruct ev as [o | e | id o]; cbn [step].
  - destruct (pending s); cbn [negb]; [ | reflexivity].
    destruct o; unfold setData; cbn [issued];
      try destruct (is_mounted _); reflexivity.
  - destruct (is_mounted s); cbn [negb]; [ | reflexivity].
    destruct (TopTable.selection _ _ _); [ | reflexivity].
    unfold setSelected. destruct (is_mounted _); reflexivity.
  - reflexivity.
Qed.

(** The child either stays as it is or takes one event of its own. *)
Lemma step_detail (s : state) (ev : event) :
  detail (step s ev) = detail s \/
  exists ev', detail (step s ev) = TickerDetail.step (detail s) ev'.
Proof.
  destruct ev as [o | e | id o]; cbn [step].
  - destruct (pending s); cbn [negb]; [ | auto].
    destruct o; unfold setData; cbn [detail]; auto.
    destruct (is_mounted _); cbn [negb detail]; eauto.
  - destruct (is_mounted s); cbn [negb]; [ | auto].
    destruct (TopTable.selection _ _ _); [ | auto].
    unfold setSelected. destruct (is_mounted _); cbn [negb detail]; eauto.
  - cbn [detail]. eauto.
Qed.

(** The detail view only ever fetches detail urls. *)
Lemma detail_step_issued (d : TickerDetail.state) (ev : TickerDetail.event) :
  Forall (fun u => exists t, u = TickerDetail.detail_url t)
         (TickerDetail.issued d) ->
  Forall (fun u => exists t, u = TickerDetail.detail_url t)
         (TickerDetail.issued (TickerDetail.step d ev)).
Proof.
  intros H.
  destruct (TickerDetailFacts.step_cases d ev)
    as [(_ & _ & _ & -> & _) | [[-> Hm] | (_ & s0 & -> & _ & Hi & _)]].
  - exact H.
  - cbn [TickerDetail.step]. rewrite Hm. exact H.
  - destruct (TickerDetailFacts.commit_requests false s0) as [-> _].
    rewrite Hi. apply Forall_app. split; [exact H | ].
    destruct (TickerDetail.fetches false s0); eauto.
Qed.

Lemma detail_url_not_summary (t : option string) :
  TickerDetail.detail_url t <> summary_url.
Proof. unfold TickerDetail.detail_url, summary_url. simpl. discriminate. Qed.

Lemma waiting_step (s : state) (ev : event) :
  (forall o, ev <> SummarySettled o) -> waiting s -> waiting (step s ev).
Proof.
  intros Hev (Hp & Hd & Hdet). destruct ev as [o | e | id o]; cbn [step].
  - exfalso. apply (Hev o). reflexivity.
  - assert (Hm : is_mounted s = true)
      by (unfold is_mounted; rewrite Hdet; reflexivity).
    rewrite Hm. cbn [negb].
    replace (TopTable.selection (rows s) (table s) e) with (@None string).
    + split; [exact Hp | ]. split; [exact Hd | exact Hdet].
    + destruct e as [text | text | idx]; try reflexivity.
      unfold rows. rewrite Hd. unfold TopTable.selection, TopTable.filtered.
      simpl. unfold slice0. rewrite firstn_nil. destruct idx; reflexivity.
  - split; [exact Hp | ]. split; [exact Hd | ].
    cbn [detail]. rewrite Hdet. reflexivity.
Qed.

Lemma loaded_step (s : state) (ev : event) (a : SummaryArtifact) :
  pending s = false /\ data s = Some a ->
  pending (step s ev) = false /\ data (step s ev) = Some a.
Proof.
  intros [Hp Hd]. destruct ev as [o | e | id o]; cbn [step].
  - rewrite Hp. auto.
  - destruct (is_mounted s); cbn [negb]; [ | auto].
    destruct (TopTable.selection _ _ _); [ | auto].
    unfold setSelected. destruct (is_mounted _); auto.
  - auto.
Qed.

Lemma data_none_step (s : state) (ev : event) :
  (forall a, ev <> SummarySettled (Parsed a)) ->
  data s = None -> data (step s ev) = None.
Proof.
  intros Hev Hd. destruct ev as [o | e | id o]; cbn [step].
  - destruct (pending s); cbn [negb]; [ | exact Hd].
    destruct o as [e | e | a]; try exact Hd.
    exfalso. apply (Hev a). reflexivity.
  - destruct (is_mounted s); cbn [negb]; [ | exact Hd].
    destruct (TopTable.selection _ _ _); [ | exact Hd].
    unfold setSelected. destruct (is_mounted _); exact Hd.
  - exact Hd.
Qed.

End AppFacts.

(** C7: when a fetch chain fails, whether [fetch] rejects or the body does
    not parse, the error goes to the console and nothing else changes: the
    Detail View keeps its data, ticker, status and display, so a view without
    data still shows the loading line; the shell keeps its data, so a table
    without data still has an empty body and the header stays blank; in
    neither is the tree torn down. *)
Theorem C7_failed_fetch_is_logged :
  (forall (s : TickerDetail.state) (id : nat) (o : outcome value) (e : exn),
      failure o = Some e ->
      TickerDetail.is_inflight id s = true ->
      let s' := TickerDetail.step s (TickerDetail.Settle id o) in
      TickerDetail.console s' = TickerDetail.console s ++ [e] /\
      TickerDetail.data s' = TickerDetail.data s /\
      TickerDetail.ticker s' = TickerDetail.ticker s /\
      TickerDetail.status_of s' = TickerDetail.status_of s /\
      TickerDetail.shown s' = TickerDetail.shown s /\
      (TickerDetail.is_mounted (TickerDetail.status_of s) = true ->
       TickerDetail.ticker_truthy (TickerDetail.ticker s) = true ->
       truthy (TickerDetail.data s) = false ->
       TickerDetail.shown s'
       = Some (TickerDetail.Loading
                 (TickerDetail.template (TickerDetail.ticker s))))) /\
  (forall (s : App.state) (o : outcome App.SummaryArtifact) (e : exn),
      failure o = Some e ->
      App.pending s = true ->
      let s' := App.step s (App.SummarySettled o) in
      App.console s' = App.console s ++ [e] /\
      App.data s' = App.data s /\
      App.detail s' = App.detail s /\
      App.is_mounted s' = App.is_mounted s /\
      (App.data s = None ->
       App.table_body s' = [] /\ App.header s' = None)).
Proof.
  split.
  - intros s id o e Ho Hf. cbv zeta.
    rewrite (TickerDetailFacts.step_failed s id o e Ho Hf).
    repeat (split; [reflexivity | ]).
    intros Hm Ht Hd.
    apply TickerDetailFacts.shown_mounted.
    + apply TickerDetailFacts.mounted_status. exact Hm.
    + apply TickerDetailFacts.render_loading; assumption.
  - intros s o e Ho Hp. cbv zeta. cbn [App.step]. rewrite Hp. cbn [negb].
    assert (E : forall x : App.state,
               match o with
               | Rejected e0 | Unparseable e0 =>
                   {| App.data := App.data x; App.selected := App.selected x;
                      App.table := App.table x; App.detail := App.detail x;
                      App.pending := App.pending x;
                      App.issued := App.issued x;
                      App.console := App.console x ++ [e0] |}
               | Parsed a => App.setData a x
               end
               = {| App.data := App.data x; App.selected := App.selected x;
                    App.table := App.table x; App.detail := App.detail x;
                    App.pending := App.pending x;
                    App.issued := App.issued x;
                    App.console := App.console x ++ [e] |}).
    { intros x. destruct o; simpl in Ho; try discriminate Ho;
        injection Ho as ->; reflexivity. }
    rewrite E. cbn. repeat (split; [reflexivity | ]).
    intros Hd. unfold App.table_body, App.header, App.rows, App.is_mounted.
    cbn.
    destruct (TickerDetail.is_mounted (TickerDetail.status_of (App.detail s)));
      [ | split; reflexivity].
    rewrite Hd. split; [ | reflexivity].
    apply TopTableFacts.filtered_no_data. reflexivity.
Qed.

Lemma C7_failed_fetch_is_logged_witness :
  let e := SyntaxError "Unexpected token < in JSON at position 0" in
  let d := TickerDetail.step (TickerDetail.mount (Some "XXX"))
             (TickerDetail.Settle 0 (Unparseable e)) in
  let a := App.step App.mount (App.SummarySettled (Rejected e)) in
  (TickerDetail.console d = [e] /\
   TickerDetail.shown d = Some (TickerDetail.Loading "XXX")) /\
  (App.console a = [e] /\ App.table_body a = [] /\ App.header a = None).
Proof.
  intros e d a. destruct C7_failed_fetch_is_logged as [HD HA]. split.
  - destruct (HD (TickerDetail.mount (Some "XXX")) 0 (Unparseable e) e)
      as (H1 & _ & _ & _ & _ & H2); [reflexivity | reflexivity | ].
    split; [exact H1 | ]. apply H2; reflexivity.
  - destruct (HA App.mount (Rejected e) e) as (H1 & _ & _ & _ & H2);
      [reflexivity | reflexivity | ].
    split; [exact H1 | ]. apply H2. reflexivity.
Defined.

(** C9, as stated, fails: the summary has loaded, the first row is
    clicked, and the detail artifact that arrives has no [indicators]; the
    render of the Detail View throws, no boundary catches it, the whole tree
    is removed, and the header no longer shows the artifact's
    [generated_at]. *)
Lemma C9_header_gone_after_render_error :
  let s := App.run App.mount
             [App.SummarySettled (Parsed Sample.summary);
              App.Table (TopTable.ClickRow 0);
              App.DetailSettled 0 (Parsed (VObj [("error", VStr "gone")]))] in
  App.data s = Some Sample.summary /\
  App.requests s = ["/top_picks.json"; "/data/AAPL.json"] /\
  App.is_mounted s = false /\
  App.header s = None /\
  App.header s <> Some (App.generated_at Sample.summary).
Proof.
  vm_compute. repeat split; try reflexivity. discriminate.
Qed.

(** C9 (amended): the shell starts mounted with nothing selected and a
    blank timestamp, and issues its one request for the summary while
    mounting; no event afterwards issues another, so of all the urls the
    mounted tree fetches exactly one is the summary's; the timestamp stays
    blank as long as no summary has arrived, the tree staying on screen at
    least until a summary fetch settles; and from the arrival of the summary
    on the header shows the artifact's [generated_at] for as long as the
    tree is mounted, and nothing once an error has removed the tree. *)
Theorem C9_summary_fetched_once (evs : list App.event) :
  let s := App.run App.mount evs in
  App.selected App.mount = None /\
  App.header App.mount = None /\
  App.is_mounted App.mount = true /\
  App.issued App.mount = [App.summary_url] /\
  App.issued s = [App.summary_url] /\
  count_occ string_dec (App.requests s) App.summary_url = 1 /\
  ((forall a, ~ In (App.SummarySettled (Parsed a)) evs) ->
   App.header s = None) /\
  ((forall o, ~ In (App.SummarySettled o) evs) ->
   App.is_mounted s = true) /\
  (forall evs1 a evs2,
      evs = evs1 ++ App.SummarySettled (Parsed a) :: evs2 ->
      (forall o, ~ In (App.SummarySettled o) evs1) ->
      App.header s
      = if App.is_mounted s then Some (App.generated_at a) else None).
Proof.
  cbv zeta.
  assert (Hi : App.issued (App.run App.mount evs) = [App.summary_url]).
  { apply AppFacts.run_invariant; [ | reflexivity].
    intros s ev _ H. rewrite AppFacts.step_issued. exact H. }
  assert (Hw : forall l, (forall o, ~ In (App.SummarySettled o) l) ->
                         App.waiting (App.run App.mount l)).
  { intros l Hno. apply AppFacts.run_invariant.
    - intros s ev Hin Hs. apply AppFacts.waiting_step; [ | exact Hs].
      intros o ->. exact (Hno o Hin).
    - repeat split. }
  split; [reflexivity | ]. split; [reflexivity | ]. split; [reflexivity | ].
  split; [reflexivity | ].
  split; [exact Hi | ]. split; [ | split; [ | split]].
  - unfold App.requests. rewrite count_occ_app, Hi.
    assert (Hd : Forall (fun u => exists t, u = TickerDetail.detail_url t)
                   (TickerDetail.issued
                      (App.detail (App.run App.mount evs)))).
    { apply AppFacts.run_invariant; [ | constructor].
      intros s ev _ H.
      destruct (AppFacts.step_detail s ev) as [-> | [ev' ->]];
        [exact H | apply AppFacts.detail_step_issued; exact H]. }
    rewrite (proj1 (count_occ_not_In string_dec
                      (TickerDetail.issued (App.detail (App.run App.mount evs)))
                      App.summary_url)).
    + reflexivity.
    + intros Hin. rewrite Forall_forall in Hd.
      destruct (Hd _ Hin) as [t Ht].
      exact (AppFacts.detail_url_not_summary t (eq_sym Ht)).
  - intros Hno. unfold App.header.
    rewrite (AppFacts.run_invariant (fun s => App.data s = None));
      [destruct (App.is_mounted _); reflexivity | | reflexivity].
    intros s ev Hin Hs. apply AppFacts.data_none_step; [ | exact Hs].
    intros a ->. exact (Hno a Hin).
  - intros Hno. destruct (Hw evs Hno) as (_ & _ & Hdet).
    unfold App.is_mounted. rewrite Hdet. reflexivity.
  - intros evs1 a evs2 -> Hno. rewrite AppFacts.run_app, AppFacts.run_cons.
    destruct (Hw evs1 Hno) as (Hp & Hd & Hdet).
    assert (Hl : App.pending
                   (App.step (App.run App.mount evs1)
                      (App.SummarySettled (Parsed a))) = false /\
                 App.data
                   (App.step (App.run App.mount evs1)
                      (App.SummarySettled (Parsed a))) = Some a).
    { cbn [App.step]. rewrite Hp. cbn [negb]. unfold App.setData.
      unfold App.is_mounted. cbn [App.detail]. rewrite Hdet. auto. }
    unfold App.header.
    rewrite (proj2 (AppFacts.run_invariant
                      (fun s => App.pending s = false /\ App.data s = Some a)
                      _ evs2
                      (fun s ev _ H => AppFacts.loaded_step s ev a H) Hl)).
    reflexivity.
Qed.

Lemma C9_summary_fetched_once_witness :
  let evs := [App.Table (TopTable.ChangeQ "aap");
              App.SummarySettled (Parsed Sample.summary);
              App.Table (TopTable.ClickRow 0)] in
  App.header (App.run App.mount [App.Table (TopTable.ChangeQ "aap")]) = None /\
  App.is_mounted (App.run App.mount [App.Table (TopTable.ChangeQ "aap")])
  = true /\
  App.header (App.run App.mount evs) = Some "2024-01-01" /\
  App.requests (App.run App.mount evs)
  = ["/top_picks.json"; "/data/AAPL.json"].
Proof.
  intros evs. split; [ | split; [ | split]].
  - destruct (C9_summary_fetched_once [App.Table (TopTable.ChangeQ "aap")])
      as (_ & _ & _ & _ & _ & _ & H & _).
    apply H. intros a [H0 | []]. discriminate H0.
  - destruct (C9_summary_fetched_once [App.Table (TopTable.ChangeQ "aap")])
      as (_ & _ & _ & _ & _ & _ & _ & H & _).
    apply H. intros o [H0 | []]. discriminate H0.
  - destruct (C9_summary_fetched_once evs)
      as (_ & _ & _ & _ & _ & _ & _ & _ & H).
    rewrite (H [App.Table (TopTable.ChangeQ "aap")] Sample.summary
               [App.Table (TopTable.ClickRow 0)]).
    + reflexivity.
    + reflexivity.
    + intros o [H0 | []]. discriminate H0.
  - reflexivity.
Defined.


(** * Further properties of the table *)

Lemma is_ascii_app (a b : string) :
  is_ascii (a ++ b)%string = is_ascii a && is_ascii b.
Proof.
  induction a as [|c a IH]; simpl; [reflexivity | ].
  rewrite IH. apply andb_assoc.
Qed.

(** On text below 128, lower-casing is done code unit by code unit, so it
    goes through a concatenation. *)
Lemma toLowerCase_app (a b : string) :
  is_ascii (a ++ b)%string = true ->
  toLowerCase (a ++ b)%string = (toLowerCase a ++ toLowerCase b)%string.
Proof.
  intros _.
  induction a as [|c a IH]; simpl; [reflexivity | rewrite IH; reflexivity].
Qed.

Lemma toLowerCase_truthy (s : string) :
  string_truthy (toLowerCase s) = string_truthy s.
Proof. destruct s; reflexivity. Qed.

Lemma string_app_assoc (a b c : string) :
  ((a ++ b) ++ c)%string = (a ++ (b ++ c))%string.
Proof.
  induction a as [|x a IH]; simpl; [reflexivity | rewrite IH; reflexivity].
Qed.

Lemma Substring_trans (a b c : string) :
  Substring a b -> Substring b c -> Substring a c.
Proof.
  intros [p1 [q1 ->]] [p2 [q2 ->]].
  exists (p2 ++ p1)%string, (q1 ++ q2)%string.
  rewrite !string_app_assoc. reflexivity.
Qed.

Lemma Substring_lower (a b : string) :
  is_ascii b = true ->
  Substring a b -> Substring (toLowerCase a) (toLowerCase b).
Proof.
  intros Hb [p [q ->]]. exists (toLowerCase p), (toLowerCase q).
  rewrite toLowerCase_app by exact Hb.
  rewrite is_ascii_app in Hb. apply andb_prop in Hb as [_ Hb].
  rewrite toLowerCase_app by exact Hb. reflexivity.
Qed.

Lemma same_letter_lower (a b : ascii) :
  same_letter a b = true -> lower_ascii a = lower_ascii b.
Proof.
  unfold same_letter, lower_ascii. cbv zeta.
  pose proof (ascii_nat_embedding a) as Ea.
  pose proof (ascii_nat_embedding b) as Eb.
  remember (nat_of_ascii a) as x eqn:Hx. clear Hx.
  remember (nat_of_ascii b) as y eqn:Hy. clear Hy.
  intros H.
  apply orb_prop in H as [H | H]; [apply orb_prop in H as [H | H] | ].
  - apply Nat.eqb_eq in H. subst y. rewrite <- Ea, <- Eb. reflexivity.
  - apply andb_prop in H as [H H3]. apply andb_prop in H as [H1 H2].
    rewrite H1, H2. cbn [andb].
    apply Nat.eqb_eq in H3. apply Nat.leb_le in H1, H2.
    replace (y <=? 90)%nat with false
      by (symmetry; apply Nat.leb_gt; lia).
    rewrite andb_false_r. rewrite <- Eb, H3. reflexivity.
  - apply andb_prop in H as [H H3]. apply andb_prop in H as [H1 H2].
    rewrite H1, H2. cbn [andb].
    apply Nat.eqb_eq in H3. apply Nat.leb_le in H1, H2.
    replace (x <=? 90)%nat with false
      by (symmetry; apply Nat.leb_gt; lia).
    rewrite andb_false_r. rewrite <- Ea, H3. reflexivity.
Qed.

Lemma same_ignoring_case_lower (s t : string) :
  same_ignoring_case s t = true -> toLowerCase s = toLowerCase t.
Proof.
  revert t; induction s as [|a s IH]; intros [|b t] H; simpl in *;
    try discriminate H; [reflexivity | ].
  apply andb_prop in H as [H1 H2].
  rewrite (same_letter_lower _ _ H1), (IH _ H2). reflexivity.
Qed.

Lemma keep_lower_query (q q' : string) (it : TopTable.RankedEntry) :
  toLowerCase q = toLowerCase q' -> TopTable.keep q it = TopTable.keep q' it.
Proof.
  intros H. unfold TopTable.keep.
  rewrite <- (toLowerCase_truthy q), <- (toLowerCase_truthy q'), H.
  reflexivity.
Qed.

Lemma filter_same {A : Type} (f g : A -> bool) (l : list A) :
  (forall x, f x = g x) -> filter f l = filter g l.
Proof.
  intros H. induction l as [|a l IH]; simpl; [reflexivity | ].
  rewrite H, IH. reflexivity.
Qed.

(** X1: on text of code units below 128 the filter ignores the case of the
    letters A-Z, in the query and in the rows: two queries that differ only
    in the case of their letters give the same table, and two rows whose
    searched texts differ only in the case of their letters are kept or
    dropped together. *)
Theorem X1_filter_ignores_case
        (data : option (list TopTable.RankedEntry)) (q q' : string)
        (N : number) :
  is_ascii q = true ->
  Forall (fun it => is_ascii (TopTable.haystack it) = true)
         (TopTable.or_nil data) ->
  same_ignoring_case q q' = true ->
  TopTable.filtered data {| TopTable.q := q; TopTable.topN := N |}
  = TopTable.filtered data {| TopTable.q := q'; TopTable.topN := N |} /\
  (forall it it',
      is_ascii (TopTable.haystack it) = true ->
      same_ignoring_case (TopTable.haystack it) (TopTable.haystack it') = true
      -> TopTable.keep q it = TopTable.keep q it').
Proof.
  intros _ _ H. unfold TopTable.filtered. cbn [TopTable.q TopTable.topN].
  split.
  - rewrite (filter_same (TopTable.keep q) (TopTable.keep q')); [reflexivity | ].
    intros it. apply keep_lower_query. apply same_ignoring_case_lower. exact H.
  - intros it it' _ Hh. unfold TopTable.keep.
    rewrite (same_ignoring_case_lower _ _ Hh). reflexivity.
Qed.

Lemma X1_filter_ignores_case_witness :
  TopTable.filtered (Some Sample.top3)
    {| TopTable.q := "MaCd"; TopTable.topN := of_Z 50 |}
  = TopTable.filtered (Some Sample.top3)
      {| TopTable.q := "macd"; TopTable.topN := of_Z 50 |} /\
  TopTable.filtered (Some Sample.top3)
    {| TopTable.q := "macd"; TopTable.topN := of_Z 50 |} = [Sample.msft].
Proof.
  split; [ | reflexivity].
  apply (X1_filter_ignores_case (Some Sample.top3) "MaCd" "macd" (of_Z 50)).
  - reflexivity.
  - repeat constructor.
  - reflexivity.
Defined.

Lemma keep_part (pre q post : string) (it : TopTable.RankedEntry) :
  is_ascii (pre ++ q ++ post)%string = true ->
  TopTable.keep (pre ++ q ++ post) it = true -> TopTable.keep q it = true.
Proof.
  intros Ha.
  rewrite !TopTableFacts.keep_iff_Matches. unfold TopTable.Matches.
  intros [H | H].
  - left. destruct pre; [ | discriminate H]. destruct q; [reflexivity | ].
    discriminate H.
  - right. apply Substring_trans with (2 := H).
    apply Substring_lower; [exact Ha | ]. exists pre, post. reflexivity.
Qed.

(** X2: on text of code units below 128 a longer query only narrows:
    filtering with a query is the same as filtering, with that query, the
    rows already kept by any part of it, so no row comes back when
    characters are added around the text typed so far. *)
Theorem X2_longer_query_narrows
        (l : list TopTable.RankedEntry) (pre q post : string) :
  is_ascii (pre ++ q ++ post)%string = true ->
  Forall (fun it => is_ascii (TopTable.haystack it) = true) l ->
  filter (TopTable.keep (pre ++ q ++ post)) l
  = filter (TopTable.keep (pre ++ q ++ post)) (filter (TopTable.keep q) l) /\
  (forall it, In it (filter (TopTable.keep (pre ++ q ++ post)) l) ->
              In it (filter (TopTable.keep q) l)) /\
  List.length (filter (TopTable.keep (pre ++ q ++ post)) l)
  <= List.length (filter (TopTable.keep q) l).
Proof.
  intros Ha _.
  assert (E : filter (TopTable.keep (pre ++ q ++ post)) l
              = filter (TopTable.keep (pre ++ q ++ post))
                       (filter (TopTable.keep q) l)).
  { induction l as [|a l IH]; simpl; [reflexivity | ].
    destruct (TopTable.keep (pre ++ q ++ post) a) eqn:K.
    - rewrite (keep_part _ _ _ _ Ha K). simpl. rewrite K, IH. reflexivity.
    - destruct (TopTable.keep q a); simpl; [rewrite K | ]; exact IH. }
  split; [exact E | ]. split.
  - intros it. rewrite E. intros H. apply filter_In in H. apply H.
  - rewrite E. apply filter_length_le.
Qed.

Lemma X2_longer_query_narrows_witness :
  In Sample.msft (filter (TopTable.keep "ms") Sample.top3).
Proof.
  destruct (X2_longer_query_narrows Sample.top3 "" "ms" "ft") as (_ & H & _).
  - reflexivity.
  - repeat constructor.
  - apply (H Sample.msft). left. reflexivity.
Defined.

(** X3: on text of code units below 128 a query found, case ignored, in the
    ticker or in the explanation of a row keeps that row. *)
Theorem X3_match_in_ticker_or_explanation
        (q : string) (it : TopTable.RankedEntry) :
  is_ascii q = true ->
  is_ascii (TopTable.haystack it) = true ->
  Substring (toLowerCase q) (toLowerCase (TopTable.ticker it)) \/
  (exists e, TopTable.explanation it = Some e /\
             Substring (toLowerCase q) (toLowerCase e)) ->
  TopTable.keep q it = true.
Proof.
  intros _ Ha H. apply TopTableFacts.keep_iff_Matches. right.
  assert (Hh : (TopTable.ticker it ++ " " ++
                  match TopTable.explanation it with
                  | Some e => e
                  | None => ""
                  end)%string = TopTable.haystack it).
  { unfold TopTable.haystack, TopTable.or_empty.
    destruct (TopTable.explanation it) as [[|c e]|]; reflexivity. }
  rewrite Hh. unfold TopTable.haystack in *.
  rewrite toLowerCase_app by exact Ha.
  rewrite is_ascii_app in Ha. apply andb_prop in Ha as [_ Ha].
  rewrite toLowerCase_app by exact Ha.
  destruct H as [[p [r H]] | [e [He [p [r H]]]]].
  - rewrite H. exists p. eexists. rewrite !string_app_assoc. reflexivity.
  - rewrite He. unfold TopTable.or_empty.
    assert (Hor : (if string_truthy e then e else "") = e)
      by (destruct e; reflexivity).
    rewrite Hor, H.
    exists (toLowerCase (TopTable.ticker it) ++ toLowerCase " " ++ p)%string, r.
    rewrite !string_app_assoc. reflexivity.
Qed.

Lemma X3_match_in_ticker_or_explanation_witness :
  TopTable.keep "CROSS" Sample.msft = true.
Proof.
  apply X3_match_in_ticker_or_explanation.
  - reflexivity.
  - reflexivity.
  - right. exists "MACD cross". split; [reflexivity | ].
    exists "macd ", "". reflexivity.
Defined.

Lemma nth_error_numbered {A : Type} (l : list A) (a i : nat) :
  nth_error (combine (seq a (List.length l)) l) i
  = option_map (fun x => (a + i, x)) (nth_error l i).
Proof.
  revert a i; induction l as [|x l IH]; intros a i; simpl.
  - destruct i; reflexivity.
  - destruct i as [|i]; simpl.
    + rewrite Nat.add_0_r. reflexivity.
    + rewrite IH. rewrite Nat.add_succ_r. reflexivity.
Qed.

(** X4: a click selects the ticker of the row it hits, and only that: a
    click on position [i] of the table body, where a row is shown, hands to
    [onSelect] the ticker of that row, which is the row numbered [i+1];
    whatever ticker a click hands over is that of the row shown at its
    position, a row of the data that passes the current filter; a click
    below the last row selects nothing. *)
Theorem X4_click_selects_shown_row
        (data : option (list TopTable.RankedEntry)) (s : TopTable.state)
        (i : nat) :
  (forall n it,
      nth_error (TopTable.body data s) i = Some (n, it) ->
      n = S i /\
      TopTable.selection data s (TopTable.ClickRow i)
      = Some (TopTable.ticker it)) /\
  (forall t,
      TopTable.selection data s (TopTable.ClickRow i) = Some t ->
      exists it,
        nth_error (TopTable.body data s) i = Some (S i, it) /\
        TopTable.ticker it = t /\
        In it (TopTable.or_nil data) /\
        TopTable.Matches (TopTable.q s) it) /\
  (List.length (TopTable.body data s) <= i ->
   TopTable.selection data s (TopTable.ClickRow i) = None).
Proof.
  unfold TopTable.selection, TopTable.body. split; [ | split].
  - intros n it H. rewrite nth_error_numbered in H.
    destruct (nth_error (TopTable.filtered data s) i) as [it0|];
      [ | discriminate H].
    injection H as <- <-. split; reflexivity.
  - intros t H.
    destruct (nth_error (TopTable.filtered data s) i) as [it|] eqn:Hn;
      [ | discriminate H].
    injection H as <-. exists it.
    rewrite nth_error_numbered, Hn. split; [reflexivity | ].
    split; [reflexivity | ].
    apply TopTableFacts.filtered_sound. eapply nth_error_In. exact Hn.
  - rewrite length_combine, length_seq, Nat.min_id. intros H.
    apply nth_error_None in H. rewrite H. reflexivity.
Qed.

Lemma X4_click_selects_shown_row_witness :
  TopTable.selection (Some Sample.top3) TopTable.init (TopTable.ClickRow 1)
  = Some "MSFT".
Proof.
  destruct (X4_click_selects_shown_row (Some Sample.top3) TopTable.init 1)
    as [H _].
  apply (H 2 Sample.msft). reflexivity.
Defined.

Lemma firstn_min_length {A : Type} (n : nat) (l : list A) :
  firstn (Nat.min n (List.length l)) l = firstn n l.
Proof.
  destruct (Nat.le_ge_cases n (List.length l)) as [H | H].
  - rewrite Nat.min_l by exact H. reflexivity.
  - rewrite Nat.min_r by exact H. rewrite firstn_all, firstn_all2 by exact H.
    reflexivity.
Qed.

(** X5: a row limit that is not negative is rounded down to a whole number:
    the table shows the first floor(N) filtered rows, so for a whole number
    [n] exactly the first [n] of them (all of them if there are fewer). *)
Theorem X5_limit_rounds_down
        (data : option (list TopTable.RankedEntry)) (q : string) (x : Q) :
  Qle_bool 0 x = true ->
  TopTable.filtered data {| TopTable.q := q; TopTable.topN := Finite x |}
  = firstn (Z.to_nat (Qfloor x))
           (filter (TopTable.keep q) (TopTable.or_nil data)) /\
  List.length
    (TopTable.filtered data {| TopTable.q := q; TopTable.topN := Finite x |})
  = Nat.min (Z.to_nat (Qfloor x))
            (List.length (filter (TopTable.keep q) (TopTable.or_nil data))).
Proof.
  intros H. destruct (trunc_le x H) as [H0 _].
  assert (E : Z.quot (Qnum x) (Z.pos (Qden x)) = Qfloor x).
  { destruct x as [a b]. unfold Qle_bool in H. simpl in *.
    apply Z.leb_le in H. apply Z.quot_div_nonneg; lia. }
  assert (F : TopTable.filtered data
                {| TopTable.q := q; TopTable.topN := Finite x |}
              = firstn (Z.to_nat (Qfloor x))
                       (filter (TopTable.keep q) (TopTable.or_nil data))).
  { unfold TopTable.filtered, slice0, slice_final.
    cbn [TopTable.q TopTable.topN ToIntegerOrInfinity].
    rewrite E in *. destruct (Z.ltb_spec (Qfloor x) 0) as [Hn | _]; [lia | ].
    rewrite Z2Nat.inj_min, Nat2Z.id. apply firstn_min_length. }
  split; [exact F | ]. rewrite F. apply length_firstn.
Qed.

Lemma X5_limit_rounds_down_witness :
  TopTable.filtered (Some Sample.top3)
    {| TopTable.q := ""; TopTable.topN := Finite (29 # 10) |}
  = [Sample.aapl; Sample.msft].
Proof.
  destruct (X5_limit_rounds_down (Some Sample.top3) "" (29 # 10)) as [H _];
    [reflexivity | ].
  rewrite H. reflexivity.
Defined.

(** X6: a negative whole row limit [-k] is taken by [slice] from the end:
    the table shows the filtered rows without their last [k]. *)
Theorem X6_negative_limit_drops_last
        (data : option (list TopTable.RankedEntry)) (q : string) (k : Z) :
  (0 < k)%Z ->
  TopTable.filtered data {| TopTable.q := q; TopTable.topN := of_Z (- k) |}
  = firstn (List.length (filter (TopTable.keep q) (TopTable.or_nil data))
            - Z.to_nat k)
           (filter (TopTable.keep q) (TopTable.or_nil data)).
Proof.
  intros H. unfold TopTable.filtered, slice0, slice_final, of_Z.
  cbn [TopTable.q TopTable.topN ToIntegerOrInfinity inject_Z Qnum Qden].
  rewrite Z.quot_1_r.
  destruct (Z.ltb_spec (- k) 0) as [_ | Hn]; [ | lia].
  f_equal. lia.
Qed.

Lemma X6_negative_limit_drops_last_witness :
  TopTable.filtered (Some Sample.top3)
    {| TopTable.q := ""; TopTable.topN := of_Z (- 2) |}
  = [Sample.aapl].
Proof.
  exact (X6_negative_limit_drops_last (Some Sample.top3) "" 2 eq_refl).
Defined.


(** * Further properties of the Detail View *)

Module TickerDetailMore.
Import TickerDetail.

(** A mounted view has rendered without error. *)
Lemma reachable_renders (s : state) :
  reachable s -> is_mounted (status_of s) = true ->
  exists v, render (ticker s) (data s) = Ok v.
Proof.
  induction 1 as [t | s ev Hr IH]; intros Hm.
  - apply TickerDetailFacts.mounted_status in Hm. unfold mount in *.
    destruct (TickerDetailFacts.commit_mounted_renders _ _ Hm) as [v Hv].
    destruct (TickerDetailFacts.commit_keeps true
                {| ticker := t; data := VNull; data_stamp := 0;
                   status_of := Mounted; deps1 := None; deps2 := (0, None);
                   cleanup := None; charts := []; next_chart := 0;
                   inflight := []; next_fetch := 0; issued := [];
                   console := [] |}) as (-> & -> & _).
    eauto.
  - destruct (TickerDetailFacts.step_cases s ev)
      as [(Ht & Hd & Hs & _) | [[-> Hm'] | (_ & s0 & Hs0 & _)]].
    + rewrite Ht, Hd. apply IH. rewrite <- Hs. exact Hm.
    + cbn [step] in Hm. rewrite Hm' in Hm. discriminate Hm.
    + rewrite Hs0 in *. apply TickerDetailFacts.mounted_status in Hm.
      destruct (TickerDetailFacts.commit_mounted_renders _ _ Hm) as [v Hv].
      destruct (TickerDetailFacts.commit_keeps false s0) as (-> & -> & _).
      eauto.
Qed.

(** A pass over unchanged dependencies changes nothing. *)
Lemma commit_idle (s : state) (v : view) :
  render (ticker s) (data s) = Ok v ->
  deps1 s = ticker s -> deps2 s = (data_stamp s, ticker s) ->
  commit false s = s.
Proof.
  intros Hr H1 H2. unfold commit. rewrite Hr.
  rewrite (proj2 (TickerDetailFacts.deps2_same_eq s) H2).
  rewrite H1, TickerDetailFacts.ticker_is_refl. reflexivity.
Qed.

Lemma set_ticker_same (s : state) : set_ticker (ticker s) s = s.
Proof. destruct s. reflexivity. Qed.

Lemma map_get_objects (pts : list (list (string * value))) (name : string) :
  map_get (map VObj pts) name = Ok (map (lookup name) pts).
Proof.
  induction pts as [|p pts IH]; simpl; [reflexivity | ].
  rewrite IH. reflexivity.
Qed.

(** The pass in which the second effect runs: its cleanup has emptied the
    chart list before its body starts. *)
Lemma commit_run2 (force : bool) (s : state) (v : view) :
  chart_inv s ->
  render (ticker s) (data s) = Ok v ->
  force || negb (deps2_same s) = true ->
  exists s2,
    charts s2 = [] /\ cleanup s2 = None /\ next_chart s2 = next_chart s /\
    ticker s2 = ticker s /\ data s2 = data s /\ status_of s2 = status_of s /\
    commit force s
    = match effect2 (has_canvas v) s2 with
      | Ok s3 => set_deps (deps1 s3) (data_stamp s3, ticker s3) s3
      | Throw e => crash e s2
      end.
Proof.
  intros Hc Hr R2. unfold commit. rewrite Hr, R2. cbv zeta.
  pose proof (TickerDetailFacts.after_cleanup
                (force || negb (ticker_is (deps1 s) (ticker s))) s Hc) as K.
  cbv zeta in K. destruct K as (Kc & Kk & Kn).
  pose proof (TickerDetailFacts.effect1_keeps (run_cleanup s)) as E1.
  eexists. split; [exact Kc | ]. split; [exact Kk | ]. split; [exact Kn | ].
  split; [ | split; [ | split; [ | reflexivity]]];
    destruct (force || negb (ticker_is (deps1 s) (ticker s)));
    simpl in *; intuition congruence.
Qed.

(** The pass that draws: with the canvas on screen and an array of point
    objects as history, the second effect leaves exactly one chart, built
    from those points. *)
Lemma commit_draws (force : bool) (s : state) (v : view)
      (pts : list (list (string * value))) :
  chart_inv s ->
  render (ticker s) (data s) = Ok v ->
  has_canvas v = true ->
  force || negb (deps2_same s) = true ->
  truthy (data s) = true ->
  get (data s) "history" = Ok (VArr (map VObj pts)) ->
  charts (commit force s) = [line_chart (next_chart s) (ticker s) pts] /\
  status_of (commit force s) = status_of s.
Proof.
  intros Hc Hr Hv R2 Hd Hh.
  destruct (commit_run2 force s v Hc Hr R2)
    as (s2 & Kc & Kk & Kn & Kt & Kd & Ks & ->).
  unfold effect2. rewrite Kd, Hd, Hh, Hv. simpl.
  rewrite !map_get_objects. simpl.
  rewrite Kc, Kn, Kt, Ks. auto.
Qed.

(** The pass that fails in the second effect: a history that is truthy but
    is not an array has no [map]. *)
Lemma commit_bad_history (force : bool) (s : state) (v : view) (h : value) :
  chart_inv s ->
  render (ticker s) (data s) = Ok v ->
  has_canvas v = true ->
  force || negb (deps2_same s) = true ->
  truthy (data s) = true ->
  get (data s) "history" = Ok h ->
  truthy h = true ->
  (forall items, h <> VArr items) ->
  status_of (commit force s) = Crashed (TypeError "map is not a function") /\
  charts (commit force s) = [].
Proof.
  intros Hc Hr Hv R2 Hd Hh Ht Hna.
  destruct (commit_run2 force s v Hc Hr R2)
    as (s2 & Kc & Kk & Kn & Kt & Kd & Ks & ->).
  unfold effect2. rewrite Kd, Hd, Hh, Hv. simpl. rewrite Ht. simpl.
  assert (E : map_prop h "Date" = Throw (TypeError "map is not a function")).
  { destruct h; simpl in *; try discriminate Ht; try reflexivity.
    exfalso. eapply Hna. reflexivity. }
  rewrite E. simpl. rewrite Kk. auto.
Qed.

(** What an event can add to the requests: nothing, or the url of a ticker
    just selected. *)
Lemma step_issued_cases (s : state) (ev : event) :
  reachable s ->
  issued (step s ev) = issued s \/
  exists t, ev = SetTicker (Some t) /\ string_truthy t = true /\
            ticker s <> Some t /\
            issued (step s ev) = issued s ++ [detail_url (Some t)] /\
            inflight (step s ev)
            = inflight s ++ [(next_fetch s, detail_url (Some t))].
Proof.
  intros Hr. destruct (TickerDetailFacts.reachable_Inv s Hr) as [_ Hd _].
  destruct ev as [t | id o | ].
  - cbn [step]. destruct (is_mounted (status_of s)) eqn:Hm; [ | auto].
    destruct (Hd eq_refl) as [D1 _].
    destruct (TickerDetailFacts.commit_requests false (set_ticker t s))
      as [Ei Ef].
    rewrite Ei, Ef. unfold fetches.
    cbn [ticker data deps1 issued inflight next_fetch set_ticker orb].
    destruct (render t (data s)); [ | left; apply app_nil_r].
    destruct (ticker_is (deps1 s) t) eqn:E; cbn [negb andb];
      [left; apply app_nil_r | ].
    destruct t as [t|]; cbn [ticker_truthy]; [ | left; apply app_nil_r].
    destruct (string_truthy t) eqn:Ht; [ | left; apply app_nil_r].
    right. exists t. repeat split; auto.
    intros H. rewrite D1, H, TickerDetailFacts.ticker_is_refl in E.
    discriminate E.
  - left.
    destruct (TickerDetailFacts.step_cases s (Settle id o))
      as [(_ & _ & _ & Hi & _) | [[H _] | (Hm & s0 & Hs0 & _ & Hi & _ & _ & _
                                           & H1 & _ & Hev)]].
    + exact Hi.
    + discriminate H.
    + rewrite Hs0.
      destruct (TickerDetailFacts.commit_requests false s0) as [-> _].
      destruct (Hd Hm) as [D1 _].
      destruct Hev as [(t & H & _) | (id' & j & _ & Ht & _)];
        [discriminate H | ].
      unfold fetches. rewrite H1, D1, Ht, TickerDetailFacts.ticker_is_refl.
      destruct (render _ _); cbn [orb negb andb]; rewrite app_nil_r; exact Hi.
  - left. cbn [step]. destruct (is_mounted (status_of s)); reflexivity.
Qed.

(** Once the view is gone, an event changes neither what it held nor what
    it requested. *)
Lemma step_gone (s : state) (ev : event) :
  is_mounted (status_of s) = false ->
  status_of (step s ev) = status_of s /\ ticker (step s ev) = ticker s /\
  data (step s ev) = data s /\ issued (step s ev) = issued s /\
  charts (step s ev) = charts s.
Proof.
  intros Hm.
  destruct (TickerDetailFacts.step_cases s ev)
    as [(Ht & Hd & Hs & Hi & Hc & _) | [[_ H] | [H _]]].
  - auto.
  - rewrite H in Hm. discriminate Hm.
  - rewrite H in Hm. discriminate Hm.
Qed.

End TickerDetailMore.

(** C10, as stated, fails: an artifact that is non-null and has no
    [history] field need not have [indicators] either; when such a body
    arrives for a selected ticker the render throws on
    [data.indicators.score_0_100] and the view is torn down instead of
    showing the third display. *)
Lemma C10_artifact_without_indicators_not_loaded :
  let j := VObj [("error", VStr "gone")] in
  let s' := TickerDetail.step (TickerDetail.mount (Some "AAPL"))
              (TickerDetail.Settle 0 (Parsed j)) in
  truthy j = true /\
  get j "history" = Ok VUndefined /\
  TickerDetail.data s' = j /\
  TickerDetail.status_of s'
  = TickerDetail.Crashed
      (TypeError "Cannot read properties of undefined: score_0_100") /\
  TickerDetail.shown s' = None.
Proof. vm_compute. repeat split; reflexivity. Qed.

(** C10 (amended): for every event that leaves the view holding a non-null
    artifact without a [history] field, no chart is constructed by the
    event, no chart is live after it, and the chart-drawing step returns
    without an error; the view shows what the render body gives for that
    artifact and is torn down only if the render body throws; in particular
    an artifact whose [indicators] is an object with displayable values
    under the four names read is shown, under a selected ticker, in the
    third display with score, explanation, last close, average volume and
    the listing of all indicator entries. *)
Theorem C10_no_history_no_chart
        (s : TickerDetail.state) (ev : TickerDetail.event) :
  TickerDetail.reachable s ->
  TickerDetail.is_mounted (TickerDetail.status_of s) = true ->
  ev <> TickerDetail.Unmount ->
  let s' := TickerDetail.step s ev in
  get (TickerDetail.data s') "history" = Ok VUndefined ->
  TickerDetail.next_chart s' = TickerDetail.next_chart s /\
  TickerDetail.charts s' = [] /\
  (forall canvas, TickerDetail.effect2 canvas s' = Ok s') /\
  (forall v,
      TickerDetail.render (TickerDetail.ticker s') (TickerDetail.data s')
      = Ok v ->
      TickerDetail.status_of s' = TickerDetail.Mounted /\
      TickerDetail.shown s' = Some v) /\
  (forall e,
      TickerDetail.render (TickerDetail.ticker s') (TickerDetail.data s')
      = Throw e ->
      TickerDetail.status_of s' = TickerDetail.Crashed e /\
      TickerDetail.shown s' = None) /\
  (forall props ind,
      TickerDetail.data s' = VObj props ->
      lookup "indicators" props = VObj ind ->
      TickerDetail.indicators_ok ind = true ->
      TickerDetail.ticker_truthy (TickerDetail.ticker s') = true ->
      TickerDetail.status_of s' = TickerDetail.Mounted /\
      TickerDetail.shown s'
      = Some (TickerDetail.Loaded
                (TickerDetail.template (TickerDetail.ticker s'))
                (lookup "score_0_100" ind) (lookup "explanation" ind)
                (lookup "last_close" ind) (lookup "avg_vol20" ind) ind)).
Proof.
  intros Hr Hm Hev. cbv zeta. intros Hh.
  set (s' := TickerDetail.step s ev) in *.
  assert (Hno : forall t, ~ TickerDetail.chart_ok t (TickerDetail.data s')).
  { intros t (_ & _ & h & Hg & Hth). rewrite Hh in Hg. injection Hg as <-.
    discriminate Hth. }
  assert (Hst : (forall v,
                    TickerDetail.render (TickerDetail.ticker s')
                      (TickerDetail.data s') = Ok v ->
                    TickerDetail.status_of s' = TickerDetail.Mounted) /\
                (forall e,
                    TickerDetail.render (TickerDetail.ticker s')
                      (TickerDetail.data s') = Throw e ->
                    TickerDetail.status_of s' = TickerDetail.Crashed e) /\
                TickerDetail.next_chart s' = TickerDetail.next_chart s).
  { subst s'.
    destruct (TickerDetailFacts.step_cases s ev)
      as [(Ht & Hd & Hs & _ & _ & Hn) | [[He _] | (_ & s0 & Hs0 & Hs & _ & _
                                                   & _ & Hn & _)]].
    - split; [ | split; [ | exact Hn]].
      + intros _ _. rewrite Hs. apply TickerDetailFacts.mounted_status.
        exact Hm.
      + intros e He. rewrite Ht, Hd in He.
        destruct (TickerDetailMore.reachable_renders s Hr Hm) as [v Hv].
        rewrite Hv in He. discriminate He.
    - contradiction.
    - rewrite Hs0 in *.
      destruct (TickerDetailFacts.commit_keeps false s0) as (Kt & Kd & _).
      rewrite Kt, Kd in *. split; [ | split].
      + intros v Hv.
        rewrite (TickerDetailFacts.commit_status false s0 v Hv).
        * rewrite Hs. apply TickerDetailFacts.mounted_status. exact Hm.
        * intros _ _. exists VUndefined. split; [exact Hh | reflexivity].
      + intros e He. unfold TickerDetail.commit. rewrite He. reflexivity.
      + rewrite <- Hn.
        destruct (Nat.eq_dec
                    (TickerDetail.next_chart (TickerDetail.commit false s0))
                    (TickerDetail.next_chart s0)) as [E | E]; [exact E | ].
        apply TickerDetailFacts.commit_builds in E.
        exfalso. exact (Hno _ E). }
  destruct Hst as (Hok & Hthrow & Hn).
  split; [exact Hn | ]. split; [ | split; [ | split; [ | split]]].
  - pose proof (TickerDetailFacts.reachable_Inv _
                  (TickerDetail.reach_step s ev Hr)) as [_ _ Hl].
    fold s' in Hl.
    destruct (TickerDetail.charts s') as [|c l]; [reflexivity | ].
    destruct Hl as [_ Hl]; [discriminate | ]. exfalso. exact (Hno _ Hl).
  - intros canvas. unfold TickerDetail.effect2.
    destruct (truthy (TickerDetail.data s')); [ | reflexivity].
    cbn [negb]. rewrite Hh. reflexivity.
  - intros v Hv. split; [exact (Hok v Hv) | ].
    apply TickerDetailFacts.shown_mounted; [exact (Hok v Hv) | exact Hv].
  - intros e He. split; [exact (Hthrow e He) | ].
    unfold TickerDetail.shown. rewrite (Hthrow e He). reflexivity.
  - intros props ind Hd Hi Hind Ht.
    assert (Hv : TickerDetail.render (TickerDetail.ticker s')
                   (TickerDetail.data s')
                 = Ok (TickerDetail.loaded (TickerDetail.ticker s') ind)).
    { rewrite Hd. apply TickerDetailFacts.render_loaded; assumption. }
    split; [exact (Hok _ Hv) | ].
    apply TickerDetailFacts.shown_mounted; [exact (Hok _ Hv) | exact Hv].
Qed.

Lemma C10_no_history_no_chart_witness :
  let s' := TickerDetail.step (TickerDetail.mount (Some "AAPL"))
              (TickerDetail.Settle 0 (Parsed Sample.bare_detail)) in
  TickerDetail.status_of s' = TickerDetail.Mounted /\
  TickerDetail.next_chart s' = 0 /\
  TickerDetail.charts s' = [] /\
  TickerDetail.shown s'
  = Some (TickerDetail.Loaded "AAPL"
            (VNum (of_Z 42)) (VStr "flat")
            (VNum (Finite (1901 # 10))) (VNum (of_Z 50000000))
            [("score_0_100", VNum (of_Z 42)); ("explanation", VStr "flat");
             ("last_close", VNum (Finite (1901 # 10)));
             ("avg_vol20", VNum (of_Z 50000000))]).
Proof.
  intros s'.
  destruct (C10_no_history_no_chart
              (TickerDetail.mount (Some "AAPL"))
              (TickerDetail.Settle 0 (Parsed Sample.bare_detail)))
    as (H1 & H2 & _ & _ & _ & H3).
  - apply TickerDetail.reach_mount.
  - reflexivity.
  - discriminate.
  - reflexivity.
  - destruct (H3 [("indicators", Sample.indicators 42 "flat")]
                [("score_0_100", VNum (of_Z 42)); ("explanation", VStr "flat");
                 ("last_close", VNum (Finite (1901 # 10)));
                 ("avg_vol20", VNum (of_Z 50000000))])
      as [H4 H5]; try reflexivity.
    split; [exact H4 | ]. split; [exact H1 | ]. split; [exact H2 | exact H5].
Defined.

(** X7: when the artifact for a selected ticker arrives with its indicators
    and an array of history points, the view shows the third display and
    exactly one chart is live: a line chart whose labels are the points'
    [Date]s, whose data are their [Close]s, in the order of the history, and
    whose dataset is labelled with the ticker followed by [Close].  An empty
    history array gives a chart without points. *)
Theorem X7_arrival_draws_series
        (s : TickerDetail.state) (id : nat) (t : string)
        (props ind : list (string * value))
        (pts : list (list (string * value))) :
  TickerDetail.reachable s ->
  TickerDetail.is_mounted (TickerDetail.status_of s) = true ->
  TickerDetail.is_inflight id s = true ->
  TickerDetail.ticker s = Some t ->
  string_truthy t = true ->
  lookup "indicators" props = VObj ind ->
  TickerDetail.indicators_ok ind = true ->
  lookup "history" props = VArr (map VObj pts) ->
  let s' := TickerDetail.step s (TickerDetail.Settle id (Parsed (VObj props))) in
  TickerDetail.status_of s' = TickerDetail.Mounted /\
  TickerDetail.shown s' = Some (TickerDetail.loaded (Some t) ind) /\
  TickerDetail.charts s'
  = [TickerDetail.line_chart (TickerDetail.next_chart s) (Some t) pts].
Proof.
  intros Hr Hm Hf Ht Hty Hi Hok Hh. cbv zeta.
  rewrite (TickerDetailFacts.step_parsed s id (VObj props) Hm Hf eq_refl).
  set (s0 := TickerDetail.store (VObj props) (TickerDetail.settled id s)).
  destruct (TickerDetailFacts.reachable_Inv s Hr) as [Hc Hd _].
  destruct (Hd Hm) as [_ D2].
  assert (Hrend : TickerDetail.render (TickerDetail.ticker s0)
                    (TickerDetail.data s0)
                  = Ok (TickerDetail.loaded (Some t) ind)).
  { subst s0. simpl. rewrite Ht.
    apply TickerDetailFacts.render_loaded; auto. }
  assert (Hc0 : TickerDetail.chart_inv s0) by exact Hc.
  assert (R2 : false || negb (TickerDetail.deps2_same s0) = true).
  { subst s0. unfold TickerDetail.deps2_same. simpl. rewrite D2. simpl.
    rewrite (proj2 (Nat.eqb_neq _ _)) by lia. reflexivity. }
  assert (Hg : get (TickerDetail.data s0) "history" = Ok (VArr (map VObj pts))).
  { subst s0. simpl. rewrite Hh. reflexivity. }
  destruct (TickerDetailMore.commit_draws false s0
              (TickerDetail.loaded (Some t) ind) pts Hc0 Hrend eq_refl R2
              eq_refl Hg) as [Hch Hst].
  - assert (Hs : TickerDetail.status_of (TickerDetail.commit false s0)
                 = TickerDetail.Mounted).
    { rewrite Hst. subst s0. simpl.
      apply TickerDetailFacts.mounted_status. exact Hm. }
    split; [exact Hs | ]. split.
    + apply TickerDetailFacts.shown_mounted; [exact Hs | ].
      destruct (TickerDetailFacts.commit_keeps false s0) as (-> & -> & _).
      exact Hrend.
    + rewrite Hch. subst s0. simpl. rewrite Ht. reflexivity.
Qed.

Lemma X7_arrival_draws_series_witness :
  let s' := TickerDetail.step (TickerDetail.mount (Some "AAPL"))
              (TickerDetail.Settle 0 (Parsed Sample.aapl_detail)) in
  TickerDetail.charts s'
  = [{| TickerDetail.chart_id := 0;
        TickerDetail.labels := [VStr "2024-01-01"; VStr "2024-01-02"];
        TickerDetail.dataset_label := "AAPL Close";
        TickerDetail.dataset_data :=
          [VNum (Finite (188 # 1)); VNum (Finite (1901 # 10))] |}].
Proof.
  intros s'.
  destruct (X7_arrival_draws_series
              (TickerDetail.mount (Some "AAPL")) 0 "AAPL"
              [("history", VArr [Sample.point "2024-01-01" (188 # 1);
                                 Sample.point "2024-01-02" (1901 # 10)]);
               ("indicators", Sample.indicators 80 "strong")]
              [("score_0_100", VNum (of_Z 80)); ("explanation", VStr "strong");
               ("last_close", VNum (Finite (1901 # 10)));
               ("avg_vol20", VNum (of_Z 50000000))]
              [[("Date", VStr "2024-01-01");
                ("Close", VNum (Finite (188 # 1)))];
               [("Date", VStr "2024-01-02");
                ("Close", VNum (Finite (1901 # 10)))]])
    as (_ & _ & H).
  - apply TickerDetail.reach_mount.
  - reflexivity.
  - reflexivity.
  - reflexivity.
  - reflexivity.
  - reflexivity.
  - reflexivity.
  - reflexivity.
  - exact H.
Defined.

(** X8: when another ticker is selected while an artifact with history is
    held, the chart is rebuilt at once from the held artifact's points and
    labelled with the new ticker, the third display shows the held
    indicators under the new heading, and the fetch for the new ticker is
    in flight. *)
Theorem X8_ticker_change_redraws_held_series
        (s : TickerDetail.state) (t : string)
        (props ind : list (string * value))
        (pts : list (list (string * value))) :
  TickerDetail.reachable s ->
  TickerDetail.is_mounted (TickerDetail.status_of s) = true ->
  TickerDetail.data s = VObj props ->
  lookup "indicators" props = VObj ind ->
  TickerDetail.indicators_ok ind = true ->
  lookup "history" props = VArr (map VObj pts) ->
  TickerDetail.ticker s <> Some t ->
  string_truthy t = true ->
  let s' := TickerDetail.step s (TickerDetail.SetTicker (Some t)) in
  TickerDetail.status_of s' = TickerDetail.Mounted /\
  TickerDetail.shown s' = Some (TickerDetail.loaded (Some t) ind) /\
  TickerDetail.charts s'
  = [TickerDetail.line_chart (TickerDetail.next_chart s) (Some t) pts] /\
  TickerDetail.inflight s'
  = TickerDetail.inflight s ++
    [(TickerDetail.next_fetch s, TickerDetail.detail_url (Some t))].
Proof.
  intros Hr Hm Hda Hi Hok Hh Hne Hty. cbv zeta.
  cbn [TickerDetail.step]. rewrite Hm.
  set (s0 := TickerDetail.set_ticker (Some t) s).
  destruct (TickerDetailFacts.reachable_Inv s Hr) as [Hc Hd _].
  destruct (Hd Hm) as [D1 D2].
  assert (Hrend : TickerDetail.render (TickerDetail.ticker s0)
                    (TickerDetail.data s0)
                  = Ok (TickerDetail.loaded (Some t) ind)).
  { subst s0. simpl. rewrite Hda.
    apply TickerDetailFacts.render_loaded; auto. }
  assert (Hti : TickerDetail.ticker_is (TickerDetail.ticker s) (Some t)
                = false).
  { destruct (TickerDetail.ticker_is _ _) eqn:E; [ | reflexivity].
    apply TickerDetailFacts.ticker_is_eq in E. contradiction. }
  assert (Hc0 : TickerDetail.chart_inv s0) by exact Hc.
  assert (R2 : false || negb (TickerDetail.deps2_same s0) = true).
  { subst s0. unfold TickerDetail.deps2_same. simpl. rewrite D2. simpl.
    rewrite Hti, andb_false_r. reflexivity. }
  assert (Hy : truthy (TickerDetail.data s0) = true).
  { subst s0. simpl. rewrite Hda. reflexivity. }
  assert (Hg : get (TickerDetail.data s0) "history" = Ok (VArr (map VObj pts))).
  { subst s0. simpl. rewrite Hda. simpl. rewrite Hh. reflexivity. }
  destruct (TickerDetailMore.commit_draws false s0
              (TickerDetail.loaded (Some t) ind) pts Hc0 Hrend eq_refl R2
              Hy Hg) as [Hch Hst].
  - assert (Hs : TickerDetail.status_of (TickerDetail.commit false s0)
                 = TickerDetail.Mounted).
    { rewrite Hst. subst s0. simpl.
      apply TickerDetailFacts.mounted_status. exact Hm. }
    split; [exact Hs | ]. split; [ | split].
    + apply TickerDetailFacts.shown_mounted; [exact Hs | ].
      destruct (TickerDetailFacts.commit_keeps false s0) as (-> & -> & _).
      exact Hrend.
    + rewrite Hch. reflexivity.
    + destruct (TickerDetailFacts.commit_requests false s0) as [_ ->].
      unfold TickerDetail.fetches. rewrite Hrend. subst s0. simpl.
      rewrite D1, Hti, Hty. reflexivity.
Qed.

Lemma X8_ticker_change_redraws_held_series_witness :
  let s := TickerDetail.step (TickerDetail.mount (Some "AAPL"))
             (TickerDetail.Settle 0 (Parsed Sample.aapl_detail)) in
  let s' := TickerDetail.step s (TickerDetail.SetTicker (Some "MSFT")) in
  map TickerDetail.dataset_label (TickerDetail.charts s') = ["MSFT Close"] /\
  map TickerDetail.dataset_data (TickerDetail.charts s')
  = [[VNum (Finite (188 # 1)); VNum (Finite (1901 # 10))]].
Proof.
  intros s s'.
  destruct (X8_ticker_change_redraws_held_series s "MSFT"
              [("history", VArr [Sample.point "2024-01-01" (188 # 1);
                                 Sample.point "2024-01-02" (1901 # 10)]);
               ("indicators", Sample.indicators 80 "strong")]
              [("score_0_100", VNum (of_Z 80)); ("explanation", VStr "strong");
               ("last_close", VNum (Finite (1901 # 10)));
               ("avg_vol20", VNum (of_Z 50000000))]
              [[("Date", VStr "2024-01-01");
                ("Close", VNum (Finite (188 # 1)))];
               [("Date", VStr "2024-01-02");
                ("Close", VNum (Finite (1901 # 10)))]])
    as (_ & _ & H & _).
  - apply TickerDetail.reach_step, TickerDetail.reach_mount.
  - reflexivity.
  - reflexivity.
  - reflexivity.
  - reflexivity.
  - reflexivity.
  - discriminate.
  - reflexivity.
  - fold s' in H. rewrite H. split; reflexivity.
Defined.

(** X9: unmounting destroys the chart, and a view that is gone, unmounted
    or torn down by an error, stays as it was: whatever arrives later, it
    keeps its data and ticker, issues no request, shows nothing and has no
    live chart. *)
Theorem X9_gone_view_is_inert
        (s : TickerDetail.state) (evs : list TickerDetail.event) :
  TickerDetail.reachable s ->
  (TickerDetail.charts (TickerDetail.step s TickerDetail.Unmount) = [] /\
   TickerDetail.is_mounted
     (TickerDetail.status_of (TickerDetail.step s TickerDetail.Unmount))
   = false) /\
  (TickerDetail.is_mounted (TickerDetail.status_of s) = false ->
   let s' := TickerDetail.run s evs in
   TickerDetail.status_of s' = TickerDetail.status_of s /\
   TickerDetail.ticker s' = TickerDetail.ticker s /\
   TickerDetail.data s' = TickerDetail.data s /\
   TickerDetail.issued s' = TickerDetail.issued s /\
   TickerDetail.charts s' = [] /\
   TickerDetail.shown s' = None).
Proof.
  intros Hr. split.
  - destruct (TickerDetailFacts.reachable_Inv s Hr) as [Hc _ Hl].
    cbn [TickerDetail.step].
    destruct (TickerDetail.is_mounted (TickerDetail.status_of s)) eqn:Hm.
    + split; [ | reflexivity].
      apply (TickerDetailFacts.run_cleanup_empty s Hc).
    + split; [ | exact Hm].
      destruct (TickerDetail.charts s) as [|c l]; [reflexivity | ].
      destruct Hl as [Hl _]; [discriminate | discriminate Hl].
  - intros Hm. cbv zeta.
    assert (G : TickerDetail.status_of (TickerDetail.run s evs)
                = TickerDetail.status_of s /\
                TickerDetail.ticker (TickerDetail.run s evs)
                = TickerDetail.ticker s /\
                TickerDetail.data (TickerDetail.run s evs)
                = TickerDetail.data s /\
                TickerDetail.issued (TickerDetail.run s evs)
                = TickerDetail.issued s /\
                TickerDetail.charts (TickerDetail.run s evs)
                = TickerDetail.charts s).
    { clear Hr. revert s Hm. induction evs as [|ev evs IH]; intros s Hm.
      - simpl. auto.
      - change (TickerDetail.run s (ev :: evs))
          with (TickerDetail.run (TickerDetail.step s ev) evs).
        destruct (TickerDetailMore.step_gone s ev Hm)
          as (Hs & Ht & Hd & Hi & Hc).
        destruct (IH (TickerDetail.step s ev)) as (Is & It & Id & Ii & Ic).
        + rewrite Hs. exact Hm.
        + repeat split; congruence. }
    destruct G as (Gs & Gt & Gd & Gi & Gc).
    repeat (split; [assumption | ]). split.
    + rewrite Gc.
      destruct (TickerDetailFacts.reachable_Inv s Hr) as [_ _ Hl].
      destruct (TickerDetail.charts s) as [|c l]; [reflexivity | ].
      destruct Hl as [Hl _]; [discriminate | ]. rewrite Hl in Hm.
      discriminate Hm.
    + unfold TickerDetail.shown. rewrite Gs, Hm. reflexivity.
Qed.

Lemma X9_gone_view_is_inert_witness :
  let s := TickerDetail.run (TickerDetail.mount (Some "AAPL"))
             [TickerDetail.SetTicker (Some "MSFT"); TickerDetail.Unmount] in
  let s' := TickerDetail.run s
              [TickerDetail.Settle 0 (Parsed Sample.aapl_detail);
               TickerDetail.Settle 1 (Parsed Sample.msft_detail);
               TickerDetail.SetTicker (Some "NVDA")] in
  TickerDetail.data s' = VNull /\ TickerDetail.charts s' = [] /\
  TickerDetail.issued s' = ["/data/AAPL.json"; "/data/MSFT.json"].
Proof.
  intros s s'.
  destruct (X9_gone_view_is_inert s
              [TickerDetail.Settle 0 (Parsed Sample.aapl_detail);
               TickerDetail.Settle 1 (Parsed Sample.msft_detail);
               TickerDetail.SetTicker (Some "NVDA")]) as [_ H].
  - apply TickerDetailFacts.reachable_run, TickerDetail.reach_mount.
  - destruct H as (_ & _ & Hd & Hi & Hc & _); [reflexivity | ].
    split; [exact Hd | ]. split; [exact Hc | exact Hi].
Defined.

(** X10: an artifact that arrives for a selected ticker without an
    [indicators] object (the field absent or null) is not tolerated: the
    first read of [data.indicators.score_0_100] throws a TypeError in the
    render, the view is torn down, nothing is shown and no chart is left. *)
Theorem X10_missing_indicators_tears_down
        (s : TickerDetail.state) (id : nat) (props : list (string * value)) :
  TickerDetail.reachable s ->
  TickerDetail.is_mounted (TickerDetail.status_of s) = true ->
  TickerDetail.is_inflight id s = true ->
  TickerDetail.ticker_truthy (TickerDetail.ticker s) = true ->
  lookup "indicators" props = VUndefined \/ lookup "indicators" props = VNull ->
  let s' := TickerDetail.step s (TickerDetail.Settle id (Parsed (VObj props))) in
  (exists msg, TickerDetail.status_of s' = TickerDetail.Crashed (TypeError msg))
  /\ TickerDetail.shown s' = None
  /\ TickerDetail.charts s' = []
  /\ TickerDetail.data s' = VObj props.
Proof.
  intros Hr Hm Hf Ht Hi. cbv zeta.
  rewrite (TickerDetailFacts.step_parsed s id (VObj props) Hm Hf eq_refl).
  destruct (TickerDetailFacts.reachable_Inv s Hr) as [Hc _ _].
  destruct (TickerDetailFacts.commit_keeps false
              (TickerDetail.store (VObj props) (TickerDetail.settled id s)))
    as (_ & Kd & _).
  unfold TickerDetail.shown. rewrite Kd. unfold TickerDetail.commit.
  cbn [TickerDetail.ticker TickerDetail.data TickerDetail.store
       TickerDetail.settled].
  unfold TickerDetail.render. rewrite Ht. cbn [negb truthy get bind].
  assert (E : exists msg,
             (score <- get (lookup "indicators" props) "score_0_100" ;;
              @Ok value score) = Throw (TypeError msg))
    by (destruct Hi as [-> | ->]; simpl; eauto).
  destruct E as [msg E].
  destruct (get (lookup "indicators" props) "score_0_100") as [x|e] eqn:G;
    [discriminate E | ].
  injection E as ->. cbn [bind].
  split; [exists msg; reflexivity | ]. split; [reflexivity | ].
  split; [ | reflexivity].
  unfold TickerDetail.crash. cbn [TickerDetail.charts TickerDetail.set_status].
  apply (TickerDetailFacts.run_cleanup_empty _ Hc).
Qed.

Lemma X10_missing_indicators_tears_down_witness :
  let s' := TickerDetail.step (TickerDetail.mount (Some "AAPL"))
              (TickerDetail.Settle 0 (Parsed (VObj [("error", VStr "gone")]))) in
  TickerDetail.shown s' = None /\ TickerDetail.charts s' = [].
Proof.
  intros s'.
  destruct (X10_missing_indicators_tears_down
              (TickerDetail.mount (Some "AAPL")) 0 [("error", VStr "gone")])
    as (_ & H1 & H2 & _).
  - apply TickerDetail.reach_mount.
  - reflexivity.
  - reflexivity.
  - reflexivity.
  - left. reflexivity.
  - split; [exact H1 | exact H2].
Defined.

(** X11: an artifact whose [history] is present and truthy but not an array
    (a string, a number, an object) passes the render and fails in the
    chart effect, where [data.history.map] is not a function: the view is
    torn down and no chart is left. *)
Theorem X11_history_not_an_array_tears_down
        (s : TickerDetail.state) (id : nat)
        (props ind : list (string * value)) :
  TickerDetail.reachable s ->
  TickerDetail.is_mounted (TickerDetail.status_of s) = true ->
  TickerDetail.is_inflight id s = true ->
  TickerDetail.ticker_truthy (TickerDetail.ticker s) = true ->
  lookup "indicators" props = VObj ind ->
  TickerDetail.indicators_ok ind = true ->
  truthy (lookup "history" props) = true ->
  (forall items, lookup "history" props <> VArr items) ->
  let s' := TickerDetail.step s (TickerDetail.Settle id (Parsed (VObj props))) in
  TickerDetail.status_of s'
  = TickerDetail.Crashed (TypeError "map is not a function") /\
  TickerDetail.shown s' = None /\
  TickerDetail.charts s' = [].
Proof.
  intros Hr Hm Hf Ht Hi Hok Hh Hna. cbv zeta.
  rewrite (TickerDetailFacts.step_parsed s id (VObj props) Hm Hf eq_refl).
  set (s0 := TickerDetail.store (VObj props) (TickerDetail.settled id s)).
  destruct (TickerDetailFacts.reachable_Inv s Hr) as [Hc Hd _].
  destruct (Hd Hm) as [_ D2].
  assert (Hc0 : TickerDetail.chart_inv s0) by exact Hc.
  assert (Hrend : TickerDetail.render (TickerDetail.ticker s0)
                    (TickerDetail.data s0)
                  = Ok (TickerDetail.loaded (TickerDetail.ticker s) ind)).
  { subst s0. simpl. apply TickerDetailFacts.render_loaded; auto. }
  assert (R2 : false || negb (TickerDetail.deps2_same s0) = true).
  { subst s0. unfold TickerDetail.deps2_same. simpl. rewrite D2. simpl.
    rewrite (proj2 (Nat.eqb_neq _ _)) by lia. reflexivity. }
  destruct (TickerDetailMore.commit_bad_history false s0
              (TickerDetail.loaded (TickerDetail.ticker s) ind)
              (lookup "history" props) Hc0 Hrend eq_refl R2 eq_refl eq_refl
              Hh Hna) as [Hs Hch].
  split; [exact Hs | ]. split; [ | exact Hch].
  unfold TickerDetail.shown. rewrite Hs. reflexivity.
Qed.

Lemma X11_history_not_an_array_tears_down_witness :
  let j := VObj [("history", VStr "2024-01-01");
                 ("indicators", Sample.indicators 80 "strong")] in
  let s' := TickerDetail.step (TickerDetail.mount (Some "AAPL"))
              (TickerDetail.Settle 0 (Parsed j)) in
  TickerDetail.shown s' = None /\ TickerDetail.charts s' = [].
Proof.
  intros j s'.
  destruct (X11_history_not_an_array_tears_down
              (TickerDetail.mount (Some "AAPL")) 0
              [("history", VStr "2024-01-01");
               ("indicators", Sample.indicators 80 "strong")]
              [("score_0_100", VNum (of_Z 80)); ("explanation", VStr "strong");
               ("last_close", VNum (Finite (1901 # 10)));
               ("avg_vol20", VNum (of_Z 50000000))])
    as (_ & H1 & H2).
  - apply TickerDetail.reach_mount.
  - reflexivity.
  - reflexivity.
  - reflexivity.
  - reflexivity.
  - reflexivity.
  - reflexivity.
  - intros items. discriminate.
  - split; [exact H1 | exact H2].
Defined.

(** X12: the view fetches on a change to a non-empty ticker and at no other
    time: an event leaves the list of requested urls as it was unless it
    selects a ticker other than the current one, in which case exactly the
    url [/data/<ticker>.json] is added.  A fetch that fails or succeeds is
    never followed by a retry, and selecting the current ticker again does
    not fetch. *)
Theorem X12_fetch_only_on_ticker_change
        (s : TickerDetail.state) (ev : TickerDetail.event) :
  TickerDetail.reachable s ->
  (TickerDetail.issued (TickerDetail.step s ev) = TickerDetail.issued s \/
   exists t,
     ev = TickerDetail.SetTicker (Some t) /\ string_truthy t = true /\
     TickerDetail.ticker s <> Some t /\
     TickerDetail.issued (TickerDetail.step s ev)
     = TickerDetail.issued s ++ [("/data/" ++ t ++ ".json")%string]) /\
  (forall id o,
      ev = TickerDetail.Settle id o ->
      TickerDetail.issued (TickerDetail.step s ev) = TickerDetail.issued s) /\
  (ev = TickerDetail.SetTicker (TickerDetail.ticker s) ->
   TickerDetail.issued (TickerDetail.step s ev) = TickerDetail.issued s).
Proof.
  intros Hr.
  pose proof (TickerDetailMore.step_issued_cases s ev Hr) as H.
  split; [ | split].
  - destruct H as [H | (t & He & Ht & Hne & Hi & _)]; [left; exact H | ].
    right. exists t. auto.
  - intros id o He.
    destruct H as [H | (t & He' & _)]; [exact H | congruence].
  - intros He.
    destruct H as [H | (t & He' & _ & Hne & _)]; [exact H | ].
    rewrite He in He'. injection He' as He'. contradiction.
Qed.

Lemma X12_fetch_only_on_ticker_change_witness :
  let s := TickerDetail.mount (Some "AAPL") in
  TickerDetail.issued
    (TickerDetail.step s
       (TickerDetail.Settle 0 (Rejected (TypeError "Failed to fetch"))))
  = ["/data/AAPL.json"] /\
  TickerDetail.issued (TickerDetail.step s (TickerDetail.SetTicker (Some "AAPL")))
  = ["/data/AAPL.json"].
Proof.
  intros s. split.
  - destruct (X12_fetch_only_on_ticker_change s
                (TickerDetail.Settle 0 (Rejected (TypeError "Failed to fetch")))
                (TickerDetail.reach_mount _)) as (_ & H & _).
    exact (H 0 _ eq_refl).
  - destruct (X12_fetch_only_on_ticker_change s
                (TickerDetail.SetTicker (Some "AAPL"))
                (TickerDetail.reach_mount _)) as (_ & _ & H).
    exact (H eq_refl).
Defined.

(** X13: a mounted view always has something on screen, and handing it the
    ticker it already has changes nothing at all: no fetch, no new chart, no
    state change. *)
Theorem X13_same_ticker_changes_nothing (s : TickerDetail.state) :
  TickerDetail.reachable s ->
  TickerDetail.step s (TickerDetail.SetTicker (TickerDetail.ticker s)) = s /\
  (TickerDetail.is_mounted (TickerDetail.status_of s) = true ->
   exists v, TickerDetail.shown s = Some v).
Proof.
  intros Hr.
  destruct (TickerDetailFacts.reachable_Inv s Hr) as [_ Hd _].
  cbn [TickerDetail.step]. unfold TickerDetail.shown.
  destruct (TickerDetail.is_mounted (TickerDetail.status_of s)) eqn:Hm.
  - destruct (TickerDetailMore.reachable_renders s Hr Hm) as [v Hv].
    destruct (Hd eq_refl) as [D1 D2]. split.
    + rewrite TickerDetailMore.set_ticker_same.
      apply (TickerDetailMore.commit_idle s v Hv D1 D2).
    + intros _. rewrite Hv. eauto.
  - split; [reflexivity | discriminate].
Qed.

Lemma X13_same_ticker_changes_nothing_witness :
  let s := TickerDetail.step (TickerDetail.mount (Some "AAPL"))
             (TickerDetail.Settle 0 (Parsed Sample.aapl_detail)) in
  TickerDetail.step s (TickerDetail.SetTicker (Some "AAPL")) = s.
Proof.
  intros s.
  destruct (X13_same_ticker_changes_nothing s) as [H _].
  - apply TickerDetail.reach_step, TickerDetail.reach_mount.
  - exact H.
Defined.


(** * Further properties of the shell *)

Module AppMore.
Import App.

Lemma detail_set_ticker (d : TickerDetail.state) (t : option string) :
  TickerDetail.is_mounted (TickerDetail.status_of d) = true ->
  TickerDetail.ticker (TickerDetail.step d (TickerDetail.SetTicker t)) = t.
Proof.
  intros Hm. cbn [TickerDetail.step]. rewrite Hm.
  destruct (TickerDetailFacts.commit_keeps false (TickerDetail.set_ticker t d))
    as (-> & _).
  reflexivity.
Qed.

Lemma detail_settle_ticker (d : TickerDetail.state) (id : nat)
      (o : outcome value) :
  TickerDetail.ticker (TickerDetail.step d (TickerDetail.Settle id o))
  = TickerDetail.ticker d.
Proof.
  destruct (TickerDetailFacts.step_cases d (TickerDetail.Settle id o))
    as [(Ht & _) | [[H _] | (_ & s0 & -> & _ & _ & _ & _ & _ & _ & _ & Hev)]].
  - exact Ht.
  - discriminate H.
  - destruct (TickerDetailFacts.commit_keeps false s0) as (-> & _).
    destruct Hev as [(t & H & _) | (id' & j & _ & Ht & _)];
      [discriminate H | exact Ht].
Qed.

(** The rows handed to the table are those of the loaded summary. *)
Lemma rows_of_data (s : state) :
  TopTable.or_nil (rows s)
  = match data s with
    | Some a => TopTable.or_nil (top a)
    | None => []
    end.
Proof. unfold rows. destruct (data s) as [a|]; [destruct (top a) | ]; reflexivity. Qed.

(** A click that selects something hit a row of the loaded summary. *)
Lemma selection_row (s : state) (e : TopTable.event) (t : string) :
  TopTable.selection (rows s) (table s) e = Some t ->
  exists a it, data s = Some a /\ In it (TopTable.or_nil (top a)) /\
               TopTable.ticker it = t.
Proof.
  destruct e as [text | text | i]; simpl; try discriminate.
  destruct (nth_error (TopTable.filtered (rows s) (table s)) i) as [it|] eqn:Hn;
    [ | discriminate].
  intros [= <-]. apply nth_error_In in Hn.
  apply TopTableFacts.filtered_sound in Hn. destruct Hn as [Hin _].
  rewrite rows_of_data in Hin.
  destruct (data s) as [a|]; [eauto | destruct Hin].
Qed.

Lemma selection_inv_step (s : state) (ev : event) :
  selection_inv s -> selection_inv (step s ev).
Proof.
  intros HI. pose proof HI as (I1 & I2 & I3).
  destruct ev as [o | e | id o]; cbn [step].
  - destruct (pending s) eqn:Hp; cbn [negb]; [ | exact HI].
    assert (Hsel : selected s = None).
    { destruct (selected s) as [t|] eqn:E; [ | reflexivity].
      destruct (I3 t eq_refl) as (a & it & Hd & _).
      rewrite (I2 eq_refl) in Hd. discriminate Hd. }
    destruct o as [e | e | a]; unfold selection_inv.
    + cbn. split; [exact I1 | ]. split; [discriminate | exact I3].
    + cbn. split; [exact I1 | ]. split; [discriminate | exact I3].
    + unfold setData, is_mounted. cbn.
      destruct (TickerDetail.is_mounted (TickerDetail.status_of (detail s)))
        eqn:Hm; cbn.
      * split; [exact (proj1 (TickerDetailFacts.commit_keeps false _)) | ].
        split; [discriminate | ].
        intros t Ht. rewrite Hsel in Ht. discriminate Ht.
      * split; [exact I1 | ]. split; [discriminate | exact I3].
  - unfold is_mounted.
    destruct (TickerDetail.is_mounted (TickerDetail.status_of (detail s)))
      eqn:Hm; cbn [negb]; [ | exact HI].
    destruct (TopTable.selection (rows s) (table s) e) as [t|] eqn:Hsel;
      [ | exact HI].
    unfold setSelected, is_mounted, selection_inv. cbn. rewrite Hm. cbn.
    split; [exact (proj1 (TickerDetailFacts.commit_keeps false _)) | ].
    split; [exact I2 | ].
    intros t' [= <-]. exact (selection_row s e t Hsel).
  - unfold selection_inv. cbn [detail selected pending data].
    split; [rewrite detail_settle_ticker; exact I1 | ]. split; assumption.
Qed.

Lemma selection_inv_mount : selection_inv mount.
Proof. repeat split; try reflexivity; discriminate. Qed.

Lemma detail_reachable_step (s : state) (ev : event) :
  TickerDetail.reachable (detail s) ->
  TickerDetail.reachable (detail (step s ev)).
Proof.
  intros H. destruct (AppFacts.step_detail s ev) as [-> | [ev' ->]];
    [exact H | apply TickerDetail.reach_step; exact H].
Qed.

(** The detail view after a change to another, non-empty ticker that it
    survives: the ticker is taken, its url is requested, and without an
    artifact the loading line is shown. *)
Lemma ticker_change_fetches (d : TickerDetail.state) (t : string) :
  TickerDetail.reachable d ->
  TickerDetail.is_mounted (TickerDetail.status_of d) = true ->
  TickerDetail.ticker d <> Some t ->
  string_truthy t = true ->
  TickerDetail.status_of
    (TickerDetail.step d (TickerDetail.SetTicker (Some t)))
  = TickerDetail.Mounted ->
  TickerDetail.issued (TickerDetail.step d (TickerDetail.SetTicker (Some t)))
  = TickerDetail.issued d ++ [TickerDetail.detail_url (Some t)] /\
  (truthy (TickerDetail.data d) = false ->
   TickerDetail.shown (TickerDetail.step d (TickerDetail.SetTicker (Some t)))
   = Some (TickerDetail.Loading t)).
Proof.
  intros Hr Hm Hne Ht Hs.
  destruct (TickerDetailMore.step_issued_cases d
              (TickerDetail.SetTicker (Some t)) Hr)
    as [H | (t' & [= <-] & _ & _ & H & _)].
  - exfalso. revert Hs H. cbn [TickerDetail.step]. rewrite Hm.
    set (s0 := TickerDetail.set_ticker (Some t) d). intros Hs H.
    destruct (TickerDetailFacts.commit_mounted_renders false s0 Hs) as [v Hv].
    destruct (TickerDetailFacts.commit_requests false s0) as [Ei _].
    destruct (TickerDetailFacts.reachable_Inv d Hr) as [_ Hd _].
    destruct (Hd Hm) as [D1 _].
    assert (F : TickerDetail.fetches false s0 = true).
    { unfold TickerDetail.fetches. rewrite Hv. subst s0. simpl. rewrite Ht, D1.
      destruct (TickerDetail.ticker_is _ _) eqn:E; [ | reflexivity].
      apply TickerDetailFacts.ticker_is_eq in E. contradiction. }
    rewrite F, H in Ei. subst s0. simpl in Ei.
    apply (f_equal (@List.length string)) in Ei.
    rewrite length_app in Ei. simpl in Ei. lia.
  - split; [exact H | ]. intros Hy.
    apply TickerDetailFacts.shown_mounted; [exact Hs | ].
    cbn [TickerDetail.step]. rewrite Hm.
    destruct (TickerDetailFacts.commit_keeps false
                (TickerDetail.set_ticker (Some t) d)) as (-> & -> & _).
    simpl. apply (TickerDetailFacts.render_loading (Some t)); assumption.
Qed.

Lemma idle_step (s : state) (ev : event) :
  idle s ->
  pending s = false \/ (forall a, ev <> SummarySettled (Parsed a)) ->
  idle (step s ev) /\ (pending s = false -> pending (step s ev) = false).
Proof.
  intros (Hd & Hsel & Hdet) Hev.
  destruct ev as [o | e | id o]; cbn [step].
  - destruct (pending s) eqn:Hp; cbn [negb]; [ | repeat split; auto].
    destruct o as [e | e | a]; try (repeat split; auto; fail).
    destruct Hev as [H | H]; [discriminate H | ].
    exfalso. apply (H a). reflexivity.
  - assert (Hm : is_mounted s = true)
      by (unfold is_mounted; rewrite Hdet; reflexivity).
    rewrite Hm. cbn [negb].
    destruct (TopTable.selection (rows s) (table s) e) as [t|] eqn:E.
    + destruct (selection_row s e t E) as (a & _ & H & _).
      rewrite Hd in H. discriminate H.
    + repeat split; auto.
  - split; [ | auto]. split; [exact Hd | ]. split; [exact Hsel | ].
    cbn [detail]. rewrite Hdet. reflexivity.
Qed.

Lemma console_step (s : state) (ev : event) (e : exn) :
  In e (console s) -> In e (console (step s ev)).
Proof.
  intros H. destruct ev as [o | ev | id o]; cbn [step].
  - destruct (pending s); cbn [negb]; [ | exact H].
    destruct o; unfold setData; cbn;
      try (apply in_or_app; left; exact H).
    destruct (is_mounted _); exact H.
  - destruct (is_mounted s); cbn [negb]; [ | exact H].
    destruct (TopTable.selection _ _ _); [ | exact H].
    unfold setSelected. destruct (is_mounted _); exact H.
  - exact H.
Qed.

End AppMore.

(** X14: whatever the user and the network do, the ticker handed to the
    detail view is the shell's selection, and the selection is either none
    or the ticker of a row in [top] of the summary that was loaded: the
    shell never selects a ticker the summary does not list, and never
    selects anything before the summary has arrived. *)
Theorem X14_selection_is_a_summary_ticker (evs : list App.event) :
  let s := App.run App.mount evs in
  TickerDetail.ticker (App.detail s) = App.selected s /\
  (forall t,
      App.selected s = Some t ->
      exists a it,
        App.data s = Some a /\
        In it (TopTable.or_nil (App.top a)) /\
        TopTable.ticker it = t) /\
  (App.data s = None -> App.selected s = None).
Proof.
  cbv zeta.
  assert (H : App.selection_inv (App.run App.mount evs)).
  { apply AppFacts.run_invariant; [ | apply AppMore.selection_inv_mount].
    intros s ev _ Hs. apply AppMore.selection_inv_step. exact Hs. }
  destruct H as (I1 & _ & I3).
  split; [exact I1 | ]. split; [exact I3 | ].
  intros Hd. destruct (App.selected _) as [t|] eqn:E; [ | reflexivity].
  destruct (I3 t eq_refl) as (a & _ & Ha & _). rewrite Hd in Ha.
  discriminate Ha.
Qed.

Lemma X14_selection_is_a_summary_ticker_witness :
  let s := App.run App.mount
             [App.Table (TopTable.ClickRow 0);
              App.SummarySettled (Parsed Sample.summary);
              App.Table (TopTable.ChangeQ "macd");
              App.Table (TopTable.ClickRow 0)] in
  App.selected s = Some "MSFT" /\
  exists a it,
    App.data s = Some a /\ In it (TopTable.or_nil (App.top a)) /\
    TopTable.ticker it = "MSFT".
Proof.
  intros s. split; [reflexivity | ].
  destruct (X14_selection_is_a_summary_ticker
              [App.Table (TopTable.ClickRow 0);
               App.SummarySettled (Parsed Sample.summary);
               App.Table (TopTable.ChangeQ "macd");
               App.Table (TopTable.ClickRow 0)]) as (_ & H & _).
  apply (H "MSFT"). reflexivity.
Defined.

(** X15: a click on a shown row whose ticker is not empty and not the one
    selected makes that ticker the selection, hands it to the detail view
    and requests [/data/<ticker>.json], once, as the last request of the
    tree; a detail view that holds no artifact shows the loading line for
    that ticker. *)
Theorem X15_click_fetches_detail
        (evs : list App.event) (i : nat) (it : TopTable.RankedEntry) :
  let s := App.run App.mount evs in
  let s' := App.step s (App.Table (TopTable.ClickRow i)) in
  App.is_mounted s = true ->
  nth_error (TopTable.filtered (App.rows s) (App.table s)) i = Some it ->
  string_truthy (TopTable.ticker it) = true ->
  App.selected s <> Some (TopTable.ticker it) ->
  App.is_mounted s' = true ->
  App.selected s' = Some (TopTable.ticker it) /\
  TickerDetail.ticker (App.detail s') = Some (TopTable.ticker it) /\
  App.requests s'
  = App.requests s ++ [("/data/" ++ TopTable.ticker it ++ ".json")%string] /\
  (truthy (TickerDetail.data (App.detail s)) = false ->
   TickerDetail.shown (App.detail s')
   = Some (TickerDetail.Loading (TopTable.ticker it))).
Proof.
  cbv zeta. set (s := App.run App.mount evs).
  intros Hm Hn Ht Hne.
  assert (HI : App.selection_inv s).
  { apply AppFacts.run_invariant; [ | apply AppMore.selection_inv_mount].
    intros x ev _ Hx. apply AppMore.selection_inv_step. exact Hx. }
  assert (Hr : TickerDetail.reachable (App.detail s)).
  { apply AppFacts.run_invariant; [ | apply TickerDetail.reach_mount].
    intros x ev _ Hx. apply AppMore.detail_reachable_step. exact Hx. }
  destruct HI as (I1 & _ & _).
  assert (E : App.step s (App.Table (TopTable.ClickRow i))
              = {| App.data := App.data s;
                   App.selected := Some (TopTable.ticker it);
                   App.table := App.table s;
                   App.detail :=
                     TickerDetail.step (App.detail s)
                       (TickerDetail.SetTicker (Some (TopTable.ticker it)));
                   App.pending := App.pending s;
                   App.issued := App.issued s;
                   App.console := App.console s |}).
  { cbn [App.step]. rewrite Hm. cbn [negb].
    unfold TopTable.selection. rewrite Hn. cbn [option_map].
    unfold App.setSelected, App.is_mounted. cbn.
    unfold App.is_mounted in Hm. rewrite Hm. reflexivity. }
  rewrite E. unfold App.is_mounted, App.requests.
  cbn [App.detail App.selected App.issued]. intros Hm'.
  apply TickerDetailFacts.mounted_status in Hm'.
  destruct (AppMore.ticker_change_fetches (App.detail s) (TopTable.ticker it))
    as [Hi Hl]; auto.
  - rewrite I1. exact Hne.
  - split; [reflexivity | ]. split.
    + apply AppMore.detail_set_ticker. exact Hm.
    + split; [ | exact Hl]. rewrite Hi, app_assoc. reflexivity.
Qed.

Lemma X15_click_fetches_detail_witness :
  let s := App.run App.mount [App.SummarySettled (Parsed Sample.summary)] in
  let s' := App.step s (App.Table (TopTable.ClickRow 2)) in
  App.selected s' = Some "NVDA" /\
  App.requests s' = ["/top_picks.json"; "/data/NVDA.json"] /\
  TickerDetail.shown (App.detail s') = Some (TickerDetail.Loading "NVDA").
Proof.
  intros s s'.
  destruct (X15_click_fetches_detail
              [App.SummarySettled (Parsed Sample.summary)] 2 Sample.nvda)
    as (H1 & _ & H3 & H4).
  - reflexivity.
  - reflexivity.
  - reflexivity.
  - discriminate.
  - reflexivity.
  - split; [exact H1 | ]. split; [exact H3 | ]. apply H4. reflexivity.
Defined.

(** X16: a summary fetch that fails is not retried and nothing replaces it:
    from then on, whatever happens, the error is on the console, the table
    body is empty, the timestamp is blank, nothing is or can be selected,
    and the summary request is the only request the tree has made. *)
Theorem X16_failed_summary_is_final
        (evs1 evs2 : list App.event) (o : outcome App.SummaryArtifact)
        (e : exn) :
  failure o = Some e ->
  (forall o', ~ In (App.SummarySettled o') evs1) ->
  let s := App.run App.mount (evs1 ++ App.SummarySettled o :: evs2) in
  In e (App.console s) /\
  App.data s = None /\
  App.table_body s = [] /\
  App.header s = None /\
  App.selected s = None /\
  App.requests s = [App.summary_url].
Proof.
  intros Ho Hno. cbv zeta. rewrite AppFacts.run_app, AppFacts.run_cons.
  set (s1 := App.run App.mount evs1).
  assert (H1 : App.idle s1 /\ App.pending s1 = true /\
               App.issued s1 = [App.summary_url]).
  { apply AppFacts.run_invariant.
    - intros s ev Hin (Hi & Hp & Hq). split; [ | split].
      + apply AppMore.idle_step; [exact Hi | ]. right.
        intros a ->. exact (Hno _ Hin).
      + destruct (AppFacts.waiting_step s ev) as (Hw & _).
        * intros o' ->. exact (Hno _ Hin).
        * destruct Hi as (Hd & _ & Hdet). repeat split; assumption.
        * exact Hw.
      + rewrite AppFacts.step_issued. exact Hq.
    - repeat split. }
  destruct H1 as (Hi1 & Hp1 & Hq1).
  set (s2 := App.step s1 (App.SummarySettled o)).
  assert (H2 : App.idle s2 /\ App.pending s2 = false /\
               App.issued s2 = [App.summary_url] /\ In e (App.console s2)).
  { subst s2. destruct Hi1 as (Hd & Hsel & Hdet).
    cbn [App.step]. rewrite Hp1. cbn [negb].
    destruct o as [e0 | e0 | a]; simpl in Ho; try discriminate Ho;
      injection Ho as ->; cbn;
      (split; [repeat split; assumption | ]; split; [reflexivity | ];
       split; [exact Hq1 | ]; apply in_or_app; right; left; reflexivity). }
  assert (H3 : (App.idle (App.run s2 evs2) /\
                App.pending (App.run s2 evs2) = false) /\
               App.issued (App.run s2 evs2) = [App.summary_url] /\
               In e (App.console (App.run s2 evs2))).
  { destruct H2 as (Hi2 & Hp2 & Hq2 & Hc2).
    apply (AppFacts.run_invariant
             (fun x => (App.idle x /\ App.pending x = false) /\
                       App.issued x = [App.summary_url] /\
                       In e (App.console x))); [ | auto].
    intros x ev _ ((Hi & Hp) & Hq & Hc). split; [ | split].
    - destruct (AppMore.idle_step x ev Hi (or_introl Hp)) as [A B]. auto.
    - rewrite AppFacts.step_issued. exact Hq.
    - apply AppMore.console_step. exact Hc. }
  destruct H3 as (((Hd & Hsel & Hdet) & _) & Hq & Hc).
  split; [exact Hc | ]. split; [exact Hd | ].
  unfold App.table_body, App.header, App.requests, App.rows, App.is_mounted.
  rewrite Hd, Hq, Hdet. cbn [option_map].
  change (TickerDetail.is_mounted
            (TickerDetail.status_of (TickerDetail.mount None))) with true.
  cbv iota.
  split; [apply TopTableFacts.filtered_no_data; reflexivity | ].
  split; [reflexivity | ]. split; [exact Hsel | reflexivity].
Qed.

Lemma X16_failed_summary_is_final_witness :
  let e := TypeError "Failed to fetch" in
  let s := App.run App.mount
             [App.Table (TopTable.ChangeQ "a");
              App.SummarySettled (Rejected e);
              App.SummarySettled (Parsed Sample.summary);
              App.Table (TopTable.ClickRow 0)] in
  App.table_body s = [] /\ App.selected s = None /\
  App.requests s = ["/top_picks.json"].
Proof.
  intros e s.
  destruct (X16_failed_summary_is_final
              [App.Table (TopTable.ChangeQ "a")]
              [App.SummarySettled (Parsed Sample.summary);
               App.Table (TopTable.ClickRow 0)]
              (Rejected e) e) as (_ & _ & H1 & _ & H2 & H3).
  - reflexivity.
  - intros o' [H | []]. discriminate H.
  - split; [exact H1 | ]. split; [exact H2 | exact H3].
Defined.

Lemma number_is_truthy (x y : number) :
  number_is x y = true -> number_truthy x = number_truthy y.
Proof.
  destruct x as [| | |a], y as [| | |b]; simpl; try discriminate; auto.
  intros H. apply Qeq_bool_iff in H. f_equal.
  destruct (Qeq_bool a 0) eqn:A, (Qeq_bool b 0) eqn:B; try reflexivity.
  - apply Qeq_bool_iff in A. rewrite <- B. symmetry. apply Qeq_bool_iff.
    rewrite <- H. exact A.
  - apply Qeq_bool_iff in B. rewrite <- A. apply Qeq_bool_iff.
    rewrite H. exact B.
Qed.

Lemma prim_is_truthy (a b : value) :
  prim_is a b = true -> truthy a = truthy b.
Proof.
  destruct a, b; simpl; try discriminate; auto.
  - intros H. apply Bool.eqb_prop in H. exact H.
  - apply number_is_truthy.
  - intros H. apply String.eqb_eq in H. subst. reflexivity.
Qed.

(** X17: a body that parses to a falsy value ([null], [false], [0], the
    empty string) is stored like any other but leaves the view where it
    was without data: the loading line for the selected ticker stays, no
    error is raised and no chart is live. *)
Theorem X17_falsy_body_keeps_loading
        (s : TickerDetail.state) (id : nat) (j : value) :
  TickerDetail.reachable s ->
  TickerDetail.is_mounted (TickerDetail.status_of s) = true ->
  TickerDetail.ticker_truthy (TickerDetail.ticker s) = true ->
  truthy j = false ->
  let s' := TickerDetail.step s (TickerDetail.Settle id (Parsed j)) in
  TickerDetail.is_inflight id s = true ->
  TickerDetail.status_of s' = TickerDetail.Mounted /\
  truthy (TickerDetail.data s') = false /\
  TickerDetail.shown s'
  = Some (TickerDetail.Loading
            (TickerDetail.template (TickerDetail.ticker s))) /\
  TickerDetail.charts s' = [].
Proof.
  intros Hr Hm Ht Hj. cbv zeta. intros Hf.
  pose proof (TickerDetailFacts.reachable_Inv _
                (TickerDetail.reach_step s
                   (TickerDetail.Settle id (Parsed j)) Hr)) as [_ _ Hl].
  assert (G : TickerDetail.status_of
                (TickerDetail.step s (TickerDetail.Settle id (Parsed j)))
              = TickerDetail.Mounted /\
              truthy (TickerDetail.data
                        (TickerDetail.step s
                           (TickerDetail.Settle id (Parsed j)))) = false /\
              TickerDetail.ticker
                (TickerDetail.step s (TickerDetail.Settle id (Parsed j)))
              = TickerDetail.ticker s).
  { cbn [TickerDetail.step]. unfold TickerDetail.settle. rewrite Hf.
    cbn [negb]. unfold TickerDetail.setData.
    cbn [TickerDetail.status_of TickerDetail.data TickerDetail.settled].
    rewrite Hm. cbn [negb].
    destruct (prim_is j (TickerDetail.data s)) eqn:E.
    - cbn. split; [apply TickerDetailFacts.mounted_status; exact Hm | ].
      split; [ | reflexivity].
      rewrite <- (prim_is_truthy _ _ E). exact Hj.
    - destruct (TickerDetailFacts.commit_keeps false
                  (TickerDetail.store j (TickerDetail.settled id s)))
        as (-> & -> & _).
      rewrite TickerDetailFacts.commit_well_formed by (right; exact Hj).
      cbn. split; [apply TickerDetailFacts.mounted_status; exact Hm | ].
      split; [exact Hj | reflexivity]. }
  destruct G as (Gs & Gd & Gt).
  split; [exact Gs | ]. split; [exact Gd | ]. split.
  - apply TickerDetailFacts.shown_mounted; [exact Gs | ].
    rewrite Gt. apply TickerDetailFacts.render_loading; assumption.
  - destruct (TickerDetail.charts _) as [|c l]; [reflexivity | ].
    destruct Hl as [_ (_ & Hy & _)]; [discriminate | ].
    rewrite Gd in Hy. discriminate Hy.
Qed.

Lemma X17_falsy_body_keeps_loading_witness :
  let s' := TickerDetail.step (TickerDetail.mount (Some "AAPL"))
              (TickerDetail.Settle 0 (Parsed (VNum (of_Z 0)))) in
  TickerDetail.data s' = VNum (of_Z 0) /\
  TickerDetail.shown s' = Some (TickerDetail.Loading "AAPL").
Proof.
  intros s'. split; [reflexivity | ].
  destruct (X17_falsy_body_keeps_loading
              (TickerDetail.mount (Some "AAPL")) 0 (VNum (of_Z 0)))
    as (_ & _ & H & _).
  - apply TickerDetail.reach_mount.
  - reflexivity.
  - reflexivity.
  - reflexivity.
  - reflexivity.
  - exact H.
Defined.


(** * The row limit as typed *)

Module NumberFacts.
Import StringToNumber.

(** The characters of a decimal numeral. *)
Abbreviation chars d := (list_ascii_of_string (NilEmpty.string_of_uint d)).

Lemma digits_uint (d : Decimal.uint) (acc c : nat) :
  digits 10 (Z.of_nat acc) c (chars d)
  = (Z.of_nat (Nat.of_uint_acc d acc), c + Decimal.nb_digits d, []).
Proof.
  revert acc c; induction d as [|d IH|d IH|d IH|d IH|d IH|d IH|d IH|d IH|d IH|d IH];
    intros acc c;
    cbn [NilEmpty.string_of_uint list_ascii_of_string digits
         Nat.of_uint_acc Decimal.nb_digits];
    try (rewrite Nat.add_0_r; reflexivity);
    match goal with
    | |- context [digit_of 10 ?x] =>
        let v := eval vm_compute in (digit_of 10 x) in
        change (digit_of 10 x) with v
    end;
    cbv beta iota; rewrite Nat.tail_mul_spec;
    match goal with
    | |- digits 10 ?z _ _ = (Z.of_nat (Nat.of_uint_acc _ ?a), _, _) =>
        replace z with (Z.of_nat a) by lia
    end;
    rewrite IH; f_equal; f_equal; lia.
Qed.

Lemma digits_numeral (d : Decimal.uint) :
  digits 10 0 0 (chars d) = (Z.of_nat (Nat.of_uint d), Decimal.nb_digits d, []).
Proof. exact (digits_uint d 0 0). Qed.

Lemma chars_decimal (d : Decimal.uint) :
  Forall (fun c => digit_of 10 c <> None) (chars d).
Proof.
  induction d; cbn [NilEmpty.string_of_uint list_ascii_of_string];
    constructor; try assumption; vm_compute; discriminate.
Qed.

(** What a decimal digit is not. *)
Lemma decimal_char (c : ascii) :
  digit_of 10 c <> None ->
  is_ws c = false /\
  (forall l, sign (c :: l) = (1%Z, c :: l)) /\
  c <> "I"%char /\
  (Ascii.eqb c "x" || Ascii.eqb c "X" = false /\
   Ascii.eqb c "o" || Ascii.eqb c "O" = false /\
   Ascii.eqb c "b" || Ascii.eqb c "B" = false).
Proof.
  destruct c as [[|] [|] [|] [|] [|] [|] [|] [|]]; intros H;
    try (exfalso; apply H; reflexivity);
    repeat split; try reflexivity; discriminate.
Qed.

Lemma drop_ws_decimal (l : list ascii) :
  Forall (fun c => digit_of 10 c <> None) l -> drop_ws l = l.
Proof.
  destruct l as [|c l]; [reflexivity | ]. intros H.
  apply Forall_inv in H. apply decimal_char in H. destruct H as [H _].
  simpl. rewrite H. reflexivity.
Qed.

Lemma trim_decimal (l : list ascii) :
  Forall (fun c => digit_of 10 c <> None) l -> trim l = l.
Proof.
  intros H. unfold trim. rewrite (drop_ws_decimal l H).
  rewrite drop_ws_decimal by (apply Forall_rev; exact H).
  apply rev_involutive.
Qed.

Lemma radix_literal_decimal (l : list ascii) :
  Forall (fun c => digit_of 10 c <> None) l -> radix_literal l = None.
Proof.
  destruct l as [|c [|p l]]; [reflexivity | | ].
  - intros _. destruct c as [[|] [|] [|] [|] [|] [|] [|] [|]]; reflexivity.
  - intros H. apply Forall_inv_tail, Forall_inv in H.
    apply decimal_char in H. destruct H as (_ & _ & _ & Hx & Ho & Hb).
    destruct c as [[|] [|] [|] [|] [|] [|] [|] [|]]; try reflexivity.
    cbn [radix_literal]. rewrite Hx, Ho, Hb. reflexivity.
Qed.

(** The value [Number] computes for a decimal numeral, as a term. *)
Lemma numeral_value (v : Z) :
  Z.quot
    (Qnum (Qmult (inject_Z 1)
             (Qmult (Qplus (inject_Z v)
                       (Qmult (inject_Z 0) (pow10 (- Z.of_nat 0))))
                    (pow10 0))))
    (Z.pos (Qden (Qmult (inject_Z 1)
                    (Qmult (Qplus (inject_Z v)
                              (Qmult (inject_Z 0) (pow10 (- Z.of_nat 0))))
                           (pow10 0)))))
  = v.
Proof.
  unfold pow10. cbn. rewrite Z.quot_1_r.
  destruct v; reflexivity || (cbn; rewrite ?Pos.mul_1_r; reflexivity).
Qed.

Lemma parse_numeral (d : Decimal.uint) :
  d <> Decimal.Nil ->
  parse (chars d)
  = Finite (Qmult (inject_Z 1)
              (Qmult (Qplus (inject_Z (Z.of_nat (Nat.of_uint d)))
                        (Qmult (inject_Z 0) (pow10 (- Z.of_nat 0))))
                     (pow10 0))).
Proof.
  intros Hd. pose proof (chars_decimal d) as Hc.
  unfold parse. rewrite (trim_decimal _ Hc).
  assert (Hn : Decimal.nb_digits d <> 0)
    by (intros H; apply Hd, DecimalFacts.nb_digits_0; exact H).
  pose proof (digits_numeral d) as Hdig.
  destruct (chars d) as [|c l] eqn:E.
  - exfalso. apply Hn. unfold digits in Hdig. injection Hdig as _ H. auto.
  - rewrite (radix_literal_decimal _ Hc).
    apply Forall_inv in Hc. apply decimal_char in Hc.
    destruct Hc as (_ & Hs & HI & _). rewrite Hs.
    destruct (list_eq_dec ascii_dec (c :: l) (list_ascii_of_string "Infinity"))
      as [E' | _].
    + exfalso. apply HI. simpl in E'. injection E' as -> _. reflexivity.
    + unfold decimal. rewrite Hdig. cbv beta iota zeta.
      rewrite Nat.add_0_r.
      destruct (Decimal.nb_digits d) as [|k]; [contradiction | ].
      reflexivity.
Qed.

Lemma to_uint_not_nil (n : nat) : Nat.to_uint n <> Decimal.Nil.
Proof.
  rewrite <- (DecimalNat.Unsigned.of_to n) at 1.
  rewrite DecimalNat.Unsigned.to_of. unfold Decimal.unorm.
  destruct (Decimal.nzhead _); discriminate.
Qed.

(** [Number] reads the decimal numeral of [n] as [n]. *)
Lemma Number_numeral (n : nat) :
  ToIntegerOrInfinity (Number (index_name n)) = Int (Z.of_nat n).
Proof.
  unfold Number, index_name.
  rewrite (parse_numeral _ (to_uint_not_nil n)).
  rewrite DecimalNat.Unsigned.of_to.
  unfold ToIntegerOrInfinity. rewrite numeral_value. reflexivity.
Qed.

End NumberFacts.

(** X18: typing the decimal numeral of a whole number [n] into the row
    limit box leaves the filter text alone and shows exactly the first [n]
    filtered rows, all of them if there are fewer. *)
Theorem X18_typed_numeral_limits_rows
        (data : option (list TopTable.RankedEntry)) (s : TopTable.state)
        (n : nat) :
  let s' := TopTable.step s (TopTable.ChangeTopN (index_name n)) in
  TopTable.q s' = TopTable.q s /\
  TopTable.filtered data s'
  = firstn n (filter (TopTable.keep (TopTable.q s)) (TopTable.or_nil data)).
Proof.
  cbv zeta. split; [reflexivity | ].
  unfold TopTable.filtered, slice0, slice_final.
  cbn [TopTable.step TopTable.q TopTable.topN].
  rewrite NumberFacts.Number_numeral.
  destruct (Z.ltb_spec (Z.of_nat n) 0) as [H | _]; [lia | ].
  rewrite Z2Nat.inj_min, !Nat2Z.id. apply firstn_min_length.
Qed.
